(** * fiqh-mcp-server: the ingestion and indexing scripts

    A shallow embedding of the data pipeline under [scripts/]:

    - [process_texts.py]: [clean_text], [normalize_topic],
      [process_hadith_file], [process_fatwa_file];
    - [convert_hadith.py]: [extract_topics_from_chapter], [convert_hadith];
    - [convert_islamqa.py]: [extract_topics_from_title];
    - [generate_embeddings.py]: [create_embedding_text], [add_to_chromadb]
      and the batch loop of [main].

    Python [str] values are sequences of Unicode code points, so a string is
    a [list N] here and [len] is [length].  Dictionaries read with
    [d.get(key, default)] are records with optional fields.  The embedding
    provider and the vector store are outside the repository: they are
    modelled as an oracle that may fail and as a finite map keyed by id. *)

From Stdlib Require Import NArith ZArith Lia Bool Ascii String DecimalString DecimalZ.
From stdpp Require Import base list option gmap.

Local Open Scope N_scope.

(** ** Python strings *)

Module PyStr.

Abbreviation str := (list N).

(** UTF-8 decoding of a literal, so that the tables below can be written
    with the same literals as the source. *)
Fixpoint utf8 (pending : nat) (acc : N) (bytes : list N) : str :=
  match bytes with
  | [] => []
  | b :: rest =>
      match pending with
      | O =>
          if b <? 128 then b :: utf8 0 0 rest
          else if b <? 224 then utf8 1 (b - 192) rest
          else if b <? 240 then utf8 2 (b - 224) rest
          else utf8 3 (b - 240) rest
      | S O => (acc * 64 + (b - 128)) :: utf8 0 0 rest
      | S k => utf8 k (acc * 64 + (b - 128)) rest
      end
  end.

Definition py (s : string) : str :=
  utf8 0 0 (map N_of_ascii (list_ascii_of_string s)).
Arguments py s%_string.

Definition dquote : str := [34].
Definition squote : str := [39].
Definition newline : str := [10].

(** [str.isspace] for one code point; [\s] in a [str] pattern matches the
    same code points. *)
Definition isspace (c : N) : bool :=
  ((9 <=? c) && (c <=? 13)) || ((28 <=? c) && (c <=? 32))
  || (c =? 133) || (c =? 160) || (c =? 5760)
  || ((8192 <=? c) && (c <=? 8202))
  || (c =? 8232) || (c =? 8233) || (c =? 8239) || (c =? 8287)
  || (c =? 12288).

(** [s.startswith(p)] *)
Fixpoint startswith (p s : str) : bool :=
  match p, s with
  | [], _ => true
  | _ :: _, [] => false
  | a :: p', b :: s' => (a =? b) && startswith p' s'
  end.

(** [sub in s] *)
Fixpoint contains (s sub : str) : bool :=
  startswith sub s ||
  match s with
  | [] => false
  | _ :: rest => contains rest sub
  end.

(** [s.replace(old, new)]: the occurrences of [old] are found from the left
    and do not overlap; [skip] counts the characters of the occurrence just
    replaced that are still to be dropped. *)
Fixpoint replace_from (old new : str) (skip : nat) (s : str) : str :=
  match s with
  | [] => []
  | c :: rest =>
      match skip with
      | S k => replace_from old new k rest
      | O =>
          if startswith old s
          then new ++ replace_from old new (length old - 1) rest
          else c :: replace_from old new 0 rest
      end
  end.

Definition replace (old new s : str) : str :=
  match old with
  | [] => new ++ flat_map (fun c => c :: new) s
  | _ :: _ => replace_from old new 0 s
  end.

(** [re.sub(r'\s+', ' ', s)]: every maximal run of whitespace becomes one
    space; [in_run] tells that the previous character was whitespace. *)
Fixpoint sub_spaces_from (in_run : bool) (s : str) : str :=
  match s with
  | [] => []
  | c :: rest =>
      if isspace c
      then (if in_run then sub_spaces_from true rest
            else 32 :: sub_spaces_from true rest)
      else c :: sub_spaces_from false rest
  end.

Definition sub_spaces (s : str) : str := sub_spaces_from false s.

(** [re.sub(r'<[^>]+>', '', s)].  A match starts at a '<' whose next
    character exists and is not '>', provided a '>' follows later; because
    [[^>]+] cannot step over a '>', the match ends at the first such '>'.
    [in_tag] tells that the scan is inside a match. *)
Definition tag_opens (rest : str) : bool :=
  match rest with
  | [] => false
  | d :: rest' => negb (d =? 62) && existsb (N.eqb 62) rest'
  end.

Fixpoint sub_tags_from (in_tag : bool) (s : str) : str :=
  match s with
  | [] => []
  | c :: rest =>
      if in_tag
      then (if c =? 62 then sub_tags_from false rest
            else sub_tags_from true rest)
      else if (c =? 60) && tag_opens rest then sub_tags_from true rest
      else c :: sub_tags_from false rest
  end.

Definition sub_tags (s : str) : str := sub_tags_from false s.

(** [s.lstrip()], [s.rstrip()], [s.strip()] *)
Fixpoint lstrip (s : str) : str :=
  match s with
  | [] => []
  | c :: rest => if isspace c then lstrip rest else s
  end.

Fixpoint rstrip (s : str) : str :=
  match s with
  | [] => []
  | c :: rest =>
      match rstrip rest with
      | [] => if isspace c then [] else [c]
      | kept => c :: kept
      end
  end.

Definition strip (s : str) : str := rstrip (lstrip s).

(** Python truth value of a string *)
Definition truthy (s : str) : bool :=
  match s with
  | [] => false
  | _ :: _ => true
  end.

(** [sep.join(parts)] *)
Fixpoint join (sep : str) (parts : list str) : str :=
  match parts with
  | [] => []
  | [p] => p
  | p :: more => p ++ sep ++ join sep more
  end.

(** [str(n)] for an integer *)
Definition str_of_Z (n : Z) : str :=
  py (NilEmpty.string_of_int (Z.to_int n)).

(** [str.lower] follows the case mappings of the Unicode database, which the
    interpreter supplies.  The scripts rely on it for Latin keywords; on
    text made of ASCII characters it replaces A-Z by a-z and nothing else. *)
Definition ascii_lower (c : N) : N :=
  if (65 <=? c) && (c <=? 90) then c + 32 else c.

Definition is_ascii (c : N) : bool := c <? 128.

Class Unicode := {
  lower : str -> str;
  lower_ascii : forall s, forallb is_ascii s = true -> lower s = map ascii_lower s
}.

(** The case mapping that only knows Basic Latin. *)
#[export] Instance basic_latin : Unicode :=
  {| lower := map ascii_lower; lower_ascii := fun _ _ => eq_refl |}.

End PyStr.
Import PyStr.

(** ** process_texts.py *)

Module ProcessTexts.

(** Line 40 of the script replaces the character U+0022 by itself, twice.
    On line 41 the lexer reads the three apostrophes after [replace(] as the
    opening of a triple-quoted literal, which closes at the next three
    apostrophes: the line is one call [text.replace(old, new)] whose [old]
    is the fifteen characters [quote_old] and whose [new] is an
    apostrophe. *)
Definition quote_old : str := py ", " ++ dquote ++ squote ++ dquote ++ py ").replace(".

Definition clean_text (text : str) : str :=
  match text with
  | [] => []
  | _ :: _ =>
      (* Remove excessive whitespace *)
      let text := sub_spaces text in
      (* Remove HTML entities *)
      let text := replace (py "&nbsp;") (py " ") text in
      let text := replace (py "&quot;") dquote text in
      let text := replace (py "&amp;") (py "&") text in
      let text := replace (py "&lt;") (py "<") text in
      let text := replace (py "&gt;") (py ">") text in
      (* Remove remaining HTML tags *)
      let text := sub_tags text in
      (* Normalize quotes *)
      let text := replace dquote dquote (replace dquote dquote text) in
      let text := replace quote_old squote text in
      (* Trim *)
      strip text
  end.

(** [d.get(key)] on a dictionary literal, kept as the list of its items in
    the order they are written (the order [items()] iterates in). *)
Definition dict_get {V : Type} (d : list (str * V)) (key : str) : option V :=
  snd <$> List.find (fun item => bool_decide (item.1 = key)) d.

Definition normalizations : list (str * str) := [
  (py "salah", py "prayer");
  (py "salat", py "prayer");
  (py "namaz", py "prayer");
  (py "salaah", py "prayer");
  (py "wudhu", py "wudu");
  (py "wudoo", py "wudu");
  (py "zakah", py "zakat");
  (py "zakaah", py "zakat");
  (py "sawm", py "fasting");
  (py "siyam", py "fasting");
  (py "hajj", py "pilgrimage");
  (py "nikah", py "marriage");
  (py "talaaq", py "divorce");
  (py "talaq", py "divorce")
].

Definition normalize_topic `{Unicode} (topic : str) : str :=
  let topic := strip (lower topic) in
  default topic (dict_get normalizations topic).

(** The ['source'] sub-record of an entry. *)
Record Source := {
  src_title : option str;
  src_reference : option str;
  src_url : option str;
  src_collection : option str;
  src_scholar : option str
}.

Definition no_source : Source :=
  {| src_title := None; src_reference := None; src_url := None;
     src_collection := None; src_scholar := None |}.

(** A record of a file under [data/raw]: a JSON object in which any key may
    be missing. *)
Record RawRecord := {
  raw_id : option str;
  raw_type : option str;
  raw_question : option str;
  raw_ruling : option str;
  raw_arabicText : option str;
  raw_evidence : option (list str);
  raw_source : option Source;
  raw_authenticity : option str;
  raw_topics : option (list str);
  raw_madhab : option str;
  raw_date : option str
}.

(** An entry of [fiqh_database.json].  [generate_embeddings.py] reads the id
    with [e['id']] and everything else with [get]. *)
Record FiqhEntry := {
  e_id : str;
  e_type : option str;
  e_question : option str;
  e_ruling : option str;
  e_arabicText : option str;
  e_evidence : option (list str);
  e_source : option Source;
  e_authenticity : option str;
  e_topics : option (list str);
  e_madhab : option str;
  e_date : option str
}.

Section Processing.

Context `{Unicode}.

(** [extract_evidence_from_text] scans the ruling with five regular
    expressions and returns [list(set(matches))], whose order is that of a
    hash set.  The properties below do not look into its result. *)
Variable extract_evidence_from_text : str -> list str.

(** One turn of the loop of [process_hadith_file]; [None] is [continue].
    [fresh] is the value of [str(uuid.uuid4())] in this turn. *)
Definition process_hadith (fresh : str) (hadith : RawRecord) : option FiqhEntry :=
  (* Clean ruling text *)
  let ruling := clean_text (default [] (raw_ruling hadith)) in
  if bool_decide (ruling = []) || (length ruling <? 20)%nat then None
  else
    (* Process topics *)
    let topics := map normalize_topic (default [] (raw_topics hadith)) in
    let topics := match topics with [] => [py "general"] | _ => topics end in
    (* Extract additional evidence if not present *)
    let evidence := default [] (raw_evidence hadith) in
    let evidence :=
      match evidence with
      | [] => extract_evidence_from_text ruling
      | _ => evidence
      end in
    Some {| e_id := default fresh (raw_id hadith);
            e_type := Some (py "hadith");
            e_question := None;
            e_ruling := Some ruling;
            e_arabicText := Some (clean_text (default [] (raw_arabicText hadith)));
            e_evidence := Some evidence;
            e_source := Some (default no_source (raw_source hadith));
            e_authenticity := Some (default (py "unknown") (raw_authenticity hadith));
            e_topics := Some topics;
            e_madhab := None;
            e_date := None |}.

(** One turn of the loop of [process_fatwa_file]. *)
Definition process_fatwa (fresh : str) (fatwa : RawRecord) : option FiqhEntry :=
  (* Clean texts *)
  let question := clean_text (default [] (raw_question fatwa)) in
  let ruling := clean_text (default [] (raw_ruling fatwa)) in
  if bool_decide (ruling = []) || (length ruling <? 50)%nat then None
  else
    let topics := map normalize_topic (default [] (raw_topics fatwa)) in
    let topics := match topics with [] => [py "general"] | _ => topics end in
    let evidence := default [] (raw_evidence fatwa) in
    let evidence :=
      match evidence with
      | [] => extract_evidence_from_text ruling
      | _ => evidence
      end in
    Some {| e_id := default fresh (raw_id fatwa);
            e_type := Some (py "fatwa");
            e_question := Some question;
            e_ruling := Some ruling;
            e_arabicText := None;
            e_evidence := Some evidence;
            e_source := Some (default no_source (raw_source fatwa));
            e_authenticity := None;
            e_topics := Some topics;
            e_madhab := Some (default (py "general") (raw_madhab fatwa));
            e_date := raw_date fatwa |}.

(** The [for] loop over the records of a file; [uuid4 n] is the identifier
    drawn in turn [n]. *)
Fixpoint process_records (body : str -> RawRecord -> option FiqhEntry)
    (uuid4 : nat -> str) (n : nat) (records : list RawRecord) : list FiqhEntry :=
  match records with
  | [] => []
  | record :: rest =>
      match body (uuid4 n) record with
      | Some entry => entry :: process_records body uuid4 (S n) rest
      | None => process_records body uuid4 (S n) rest
      end
  end.

(** [file] is what [json.load] returns, or [None] when opening or parsing
    raises; the [except] clause then returns the empty list. *)
Definition process_hadith_file (uuid4 : nat -> str)
    (file : option (list RawRecord)) : list FiqhEntry :=
  match file with
  | Some hadiths => process_records process_hadith uuid4 0 hadiths
  | None => []
  end.

Definition process_fatwa_file (uuid4 : nat -> str)
    (file : option (list RawRecord)) : list FiqhEntry :=
  match file with
  | Some fatawa => process_records process_fatwa uuid4 0 fatawa
  | None => []
  end.

(** A file of a raw-data directory: its name, what [json.load] returns for
    it ([None] when opening or parsing raises) and the identifiers
    [uuid.uuid4()] yields while it is processed. *)
Record RawFile := {
  file_name : str;
  file_content : option (list RawRecord);
  file_uuids : nat -> str
}.

(** [data/raw/hadith]: the JSON files directly in it and, for each
    sub-directory, the JSON files of that sub-directory, in the order
    [glob] and [iterdir] yield them. *)
Record HadithDir := {
  top_files : list RawFile;
  sub_dirs : list (list RawFile)
}.

Record SourceCount := {
  sc_file : str;
  sc_count : nat
}.

Record SourcesInfo := {
  hadith_collections : list SourceCount;
  fatwa_sources : list SourceCount;
  total_entries : nat;
  entries_by_type : gmap str nat
}.

(** The loop over the files of one directory: the entries of each file are
    appended to [all_entries] and its count to [counts]. *)
Fixpoint process_files (process_file : (nat -> str) -> option (list RawRecord) -> list FiqhEntry)
    (files : list RawFile) (all_entries : list FiqhEntry) (counts : list SourceCount)
    : list FiqhEntry * list SourceCount :=
  match files with
  | [] => (all_entries, counts)
  | json_file :: rest =>
      let entries := process_file (file_uuids json_file) (file_content json_file) in
      process_files process_file rest (all_entries ++ entries)
        (counts ++ [{| sc_file := file_name json_file; sc_count := length entries |}])
  end.

(** [for entry in all_entries:
       entry_type = entry.get('type', 'unknown')
       type_counts[entry_type] = type_counts.get(entry_type, 0) + 1] *)
Fixpoint count_types (all_entries : list FiqhEntry) (type_counts : gmap str nat) : gmap str nat :=
  match all_entries with
  | [] => type_counts
  | entry :: rest =>
      let entry_type := default (py "unknown") (e_type entry) in
      count_types rest (<[entry_type := (default 0 (type_counts !! entry_type) + 1)%nat]> type_counts)
  end.

(** [process_all_data]; a directory that does not exist is [None].  The
    result is what is written to [fiqh_database.json] and [sources.json]. *)
Definition process_all_data (hadith_dir : option HadithDir) (fatwa_dir : option (list RawFile))
    : list FiqhEntry * SourcesInfo :=
  let all_entries : list FiqhEntry := [] in
  let hadith_counts : list SourceCount := [] in
  let fatwa_counts : list SourceCount := [] in
  (* Process hadith files *)
  let '(all_entries, hadith_counts) :=
    match hadith_dir with
    | Some dir =>
        (* Process JSON files directly in hadith directory *)
        let '(all_entries, hadith_counts) :=
          process_files process_hadith_file (top_files dir) all_entries hadith_counts in
        (* Also check subdirectories *)
        process_files process_hadith_file (concat (sub_dirs dir)) all_entries hadith_counts
    | None => (all_entries, hadith_counts)
    end in
  (* Process fatwa files *)
  let '(all_entries, fatwa_counts) :=
    match fatwa_dir with
    | Some files => process_files process_fatwa_file files all_entries fatwa_counts
    | None => (all_entries, fatwa_counts)
    end in
  (* Calculate statistics *)
  (all_entries,
   {| hadith_collections := hadith_counts;
      fatwa_sources := fatwa_counts;
      total_entries := length all_entries;
      entries_by_type := count_types all_entries ∅ |}).

End Processing.

End ProcessTexts.
Import ProcessTexts.

(** ** Topic tables of the converters *)

Module Topics.

(** The loop shared by both converters:
    [for topic, keywords in topic_keywords.items():
       if any(keyword in text for keyword in keywords): topics.append(topic)] *)
Fixpoint matching_topics (topic_keywords : list (str * list str)) (text : str) : list str :=
  match topic_keywords with
  | [] => []
  | (topic, keywords) :: rest =>
      if existsb (fun keyword => contains text keyword) keywords
      then topic :: matching_topics rest text
      else matching_topics rest text
  end.

End Topics.
Import Topics.

(** ** convert_hadith.py *)

Module ConvertHadith.

Record CollectionInfo := {
  english_name : str;
  arabic_name : str;
  author : str;
  authenticity : str;
  collection : str;
  url_base : str
}.

Definition COLLECTION_INFO : list (str * CollectionInfo) := [
  (py "bukhari",
   {| english_name := py "Sahih al-Bukhari"; arabic_name := py "صحيح البخاري";
      author := py "Imam Muhammad ibn Ismail al-Bukhari"; authenticity := py "sahih";
      collection := py "Kutub al-Sittah"; url_base := py "https://sunnah.com/bukhari" |});
  (py "muslim",
   {| english_name := py "Sahih Muslim"; arabic_name := py "صحيح مسلم";
      author := py "Imam Muslim ibn al-Hajjaj"; authenticity := py "sahih";
      collection := py "Kutub al-Sittah"; url_base := py "https://sunnah.com/muslim" |});
  (py "abudawud",
   {| english_name := py "Sunan Abi Dawud"; arabic_name := py "سنن أبي داود";
      author := py "Imam Abu Dawud al-Sijistani"; authenticity := py "unknown";
      collection := py "Kutub al-Sittah"; url_base := py "https://sunnah.com/abudawud" |});
  (py "tirmidhi",
   {| english_name := py "Jami at-Tirmidhi"; arabic_name := py "جامع الترمذي";
      author := py "Imam at-Tirmidhi"; authenticity := py "unknown";
      collection := py "Kutub al-Sittah"; url_base := py "https://sunnah.com/tirmidhi" |});
  (py "nasai",
   {| english_name := py "Sunan an-Nasa'i"; arabic_name := py "سنن النسائي";
      author := py "Imam an-Nasa'i"; authenticity := py "unknown";
      collection := py "Kutub al-Sittah"; url_base := py "https://sunnah.com/nasai" |});
  (py "ibnmajah",
   {| english_name := py "Sunan Ibn Majah"; arabic_name := py "سنن ابن ماجه";
      author := py "Imam Ibn Majah"; authenticity := py "unknown";
      collection := py "Kutub al-Sittah"; url_base := py "https://sunnah.com/ibnmajah" |});
  (py "ahmed",
   {| english_name := py "Musnad Ahmad"; arabic_name := py "مسند أحمد";
      author := py "Imam Ahmad ibn Hanbal"; authenticity := py "unknown";
      collection := py "Nine Books"; url_base := py "https://sunnah.com/ahmad" |});
  (py "darimi",
   {| english_name := py "Sunan ad-Darimi"; arabic_name := py "سنن الدارمي";
      author := py "Imam ad-Darimi"; authenticity := py "unknown";
      collection := py "Nine Books"; url_base := py "https://sunnah.com/darimi" |});
  (py "malik",
   {| english_name := py "Muwatta Malik"; arabic_name := py "موطأ مالك";
      author := py "Imam Malik ibn Anas"; authenticity := py "unknown";
      collection := py "Nine Books"; url_base := py "https://sunnah.com/malik" |})
].

Definition topic_keywords : list (str * list str) := [
  (py "prayer", [py "prayer"; py "salah"; py "salat"; py "praying"]);
  (py "fasting", [py "fasting"; py "fast"; py "sawm"; py "ramadan"]);
  (py "zakat", [py "zakat"; py "charity"; py "alms"]);
  (py "hajj", [py "hajj"; py "pilgrimage"; py "umrah"]);
  (py "purification", [py "purification"; py "wudu"; py "ablution"; py "ghusl"; py "tayammum"]);
  (py "faith", [py "faith"; py "belief"; py "iman"; py "creed"]);
  (py "marriage", [py "marriage"; py "nikah"; py "divorce"; py "talaq"]);
  (py "trade", [py "trade"; py "business"; py "transactions"; py "buying"; py "selling"]);
  (py "food", [py "food"; py "drink"; py "eating"; py "slaughtering"]);
  (py "clothing", [py "clothing"; py "dress"; py "garment"]);
  (py "funeral", [py "funeral"; py "burial"; py "death"; py "janazah"]);
  (py "jihad", [py "jihad"; py "fighting"; py "warfare"]);
  (py "knowledge", [py "knowledge"; py "learning"; py "teaching"]);
  (py "manners", [py "manners"; py "adab"; py "etiquette"; py "behavior"])
].

Definition extract_topics_from_chapter `{Unicode} (chapter_name : str) : list str :=
  match chapter_name with
  | [] => [py "general"]
  | _ :: _ =>
      (* Convert to lowercase and clean *)
      let chapter_lower := lower chapter_name in
      let topics := matching_topics topic_keywords chapter_lower in
      (* If no topics found, use 'general' *)
      match topics with
      | [] => [py "general"]
      | _ :: _ => topics
      end
  end.

(** The identifiers of the dataset are numbers; a string is what the
    defaults ['?'] put in their place. *)
Inductive scalar := Int (n : Z) | Str (s : str).

(** [f"{value}"] *)
Definition format (value : scalar) : str :=
  match value with
  | Int n => str_of_Z n
  | Str s => s
  end.

Record English := {
  en_narrator : option str;
  en_text : option str
}.

Record Hadith := {
  h_id : option scalar;
  h_idInBook : option scalar;
  h_chapterId : option Z;
  h_bookId : option scalar;
  h_arabic : option str;
  h_english : option English
}.

Record Chapter := {
  ch_id : Z;
  ch_english : option str
}.

(** The result is the entry written to [data/raw/hadith]; [None] is the
    [KeyError] of [COLLECTION_INFO[collection_key]]. *)
Definition convert_hadith `{Unicode} (hadith : Hadith) (collection_key : str)
    (chapters_map : gmap Z Chapter) : option RawRecord :=
  collection ← dict_get COLLECTION_INFO collection_key;
  (* Get chapter info for topics *)
  let chapter := h_chapterId hadith ≫= (fun chapter_id => chapters_map !! chapter_id) in
  let chapter_name := default [] (chapter ≫= ch_english) in
  (* Extract topics *)
  let topics := extract_topics_from_chapter chapter_name in
  (* Build narrator and text *)
  let english_data := h_english hadith in
  let narrator := default [] (english_data ≫= en_narrator) in
  let text := default [] (english_data ≫= en_text) in
  (* Combine for ruling field *)
  let ruling :=
    if truthy narrator && truthy text
    then narrator ++ newline ++ newline ++ text
    else if truthy text then text else default [] (h_arabic hadith) in
  (* Build reference *)
  let book_id := default (Str (py "?")) (h_bookId hadith) in
  let hadith_num :=
    default (default (Str (py "?")) (h_id hadith)) (h_idInBook hadith) in
  let reference := py "Book " ++ format book_id ++ py ", Hadith " ++ format hadith_num in
  (* Build URL *)
  let url := url_base collection ++ py "/" ++ format hadith_num in
  (* Build FiqhEntry *)
  Some {| raw_id := Some (collection_key ++ py "_" ++ format (default hadith_num (h_id hadith)));
          raw_type := Some (py "hadith");
          raw_question := None;
          raw_ruling := Some (strip ruling);
          raw_arabicText := Some (default [] (h_arabic hadith));
          raw_evidence := Some [];
          raw_source := Some {| src_title := Some (english_name collection);
                                src_reference := Some reference;
                                src_url := Some url;
                                src_collection := Some (ConvertHadith.collection collection);
                                src_scholar := None |};
          raw_authenticity := Some (authenticity collection);
          raw_topics := Some topics;
          raw_madhab := Some (py "general");
          raw_date := None |}.

(** The parts of a collection file [process_collection] reads; each chapter
    is filed under [chapter['id']]. *)
Record DataFile := {
  d_chapters : option (list Chapter);
  d_hadiths : option (list Hadith)
}.

(** [for chapter in data.get('chapters', []):
       chapters_map[chapter['id']] = chapter] *)
Fixpoint build_chapters_map (chapters : list Chapter) (chapters_map : gmap Z Chapter)
    : gmap Z Chapter :=
  match chapters with
  | [] => chapters_map
  | chapter :: rest => build_chapters_map rest (<[ch_id chapter := chapter]> chapters_map)
  end.

(** The loop over the hadiths: a hadith whose conversion raises is skipped,
    and so is one whose ruling is empty. *)
Fixpoint convert_all `{Unicode} (hadiths : list Hadith) (collection_key : str)
    (chapters_map : gmap Z Chapter) : list RawRecord :=
  match hadiths with
  | [] => []
  | hadith :: rest =>
      match convert_hadith hadith collection_key chapters_map with
      | Some entry =>
          if truthy (default [] (raw_ruling entry))  (* Only include if we have text *)
          then entry :: convert_all rest collection_key chapters_map
          else convert_all rest collection_key chapters_map
      | None => convert_all rest collection_key chapters_map
      end
  end.

(** [process_collection]; [file] is [None] when the collection file does not
    exist or cannot be loaded. *)
Definition process_collection `{Unicode} (collection_key : str) (file : option DataFile)
    : list RawRecord :=
  match file with
  | None => []
  | Some data =>
      (* Build chapters map for topic extraction *)
      let chapters_map := build_chapters_map (default [] (d_chapters data)) ∅ in
      (* Convert all hadiths *)
      convert_all (default [] (d_hadiths data)) collection_key chapters_map
  end.

End ConvertHadith.

(** ** convert_islamqa.py *)

Module ConvertIslamqa.

Definition topic_keywords : list (str * list str) := [
  (py "prayer", [py "صلاة"; py "صلوات"; py "prayer"; py "salah"; py "صلى"]);
  (py "fasting", [py "صيام"; py "صوم"; py "fasting"; py "رمضان"; py "ramadan"]);
  (py "zakat", [py "زكاة"; py "zakat"; py "charity"]);
  (py "hajj", [py "حج"; py "عمرة"; py "hajj"; py "umrah"]);
  (py "purification", [py "طهارة"; py "وضوء"; py "غسل"; py "purification"; py "wudu"]);
  (py "marriage", [py "زواج"; py "نكاح"; py "طلاق"; py "marriage"; py "divorce"]);
  (py "faith", [py "إيمان"; py "عقيدة"; py "faith"; py "belief"]);
  (py "quran", [py "قرآن"; py "quran"; py "recitation"; py "تلاوة"]);
  (py "hadith", [py "حديث"; py "hadith"; py "سنة"]);
  (py "family", [py "أسرة"; py "أهل"; py "family"; py "والدين"; py "parents"]);
  (py "business", [py "معاملات"; py "بيع"; py "شراء"; py "تجارة"; py "business"; py "trade"]);
  (py "inheritance", [py "ميراث"; py "inheritance"; py "وراثة"]);
  (py "food", [py "طعام"; py "أكل"; py "food"; py "eating"]);
  (py "manners", [py "أخلاق"; py "آداب"; py "manners"; py "behavior"]);
  (py "worship", [py "عبادة"; py "عبادات"; py "worship"])
].

Definition extract_topics_from_title `{Unicode} (title : str) : list str :=
  match title with
  | [] => [py "general"]
  | _ :: _ =>
      let title_lower := lower title in
      let topics := matching_topics topic_keywords title_lower in
      match topics with
      | [] => [py "general"]
      | _ :: _ => topics
      end
  end.

(** The script's own [clean_text]: whitespace only. *)
Definition clean_text (text : str) : str :=
  match text with
  | [] => []
  | _ :: _ =>
      (* Remove extra whitespace *)
      let text := sub_spaces text in
      strip text
  end.

(** A cell of a row read by [csv.DictReader]: the column may be missing
    from the header, the row may be too short to reach it (the value is then
    [None]), or it holds text. *)
Inductive cell := NoColumn | ShortRow | Text (s : str).

(** [row.get(column, '')] as [clean_text] and the truth tests see it: [None]
    and the empty string behave alike. *)
Definition cell_text (c : cell) : str :=
  match c with
  | Text s => s
  | NoColumn | ShortRow => []
  end.

(** [f"{row.get(column, '')}"] *)
Definition cell_format (c : cell) : str :=
  match c with
  | Text s => s
  | NoColumn => []
  | ShortRow => py "None"
  end.

(** A row of the CSV file, by column: 'رقم السؤال', 'الرابط', 'العنوان',
    'السؤال', 'ملخص الإجابة', 'الإجابة الكاملة'. *)
Record Row := {
  row_fatwa_id : cell;
  row_url : cell;
  row_title : cell;
  row_question : cell;
  row_summary : cell;
  row_full_answer : cell
}.

Section Fatwa.

Context `{Unicode}.

(** [extract_evidence] scans the ruling with two regular expressions and
    five fixed phrases and returns [list(set(evidence))], in the order of a
    hash set. *)
Variable extract_evidence : str -> list str.

Definition convert_fatwa (row : Row) : RawRecord :=
  (* Get fields *)
  let fatwa_id := cell_format (row_fatwa_id row) in
  let url := cell_text (row_url row) in
  let title := clean_text (cell_text (row_title row)) in
  let question := clean_text (cell_text (row_question row)) in
  let summary := clean_text (cell_text (row_summary row)) in
  let full_answer := clean_text (cell_text (row_full_answer row)) in
  (* Use full answer if available, otherwise summary *)
  let ruling := if truthy full_answer then full_answer else summary in
  (* Extract topics *)
  let topics := extract_topics_from_title title in
  (* Extract evidence *)
  let evidence := extract_evidence ruling in
  (* Build FiqhEntry *)
  {| raw_id := Some (py "islamqa_" ++ fatwa_id);
     raw_type := Some (py "fatwa");
     raw_question := Some (if truthy question then question else title);
     raw_ruling := Some ruling;
     raw_arabicText := Some ruling;
     raw_evidence := Some evidence;
     raw_source :=
       Some {| src_title := Some (py "IslamQA.info");
               src_reference := Some (py "Fatwa No. " ++ fatwa_id);
               src_url := Some (if truthy url then url
                                else py "https://islamqa.info/ar/answers/" ++ fatwa_id);
               src_collection := None;
               src_scholar := Some (py "IslamQA Scholars") |};
     raw_authenticity := None;
     raw_topics := Some topics;
     raw_madhab := Some (py "general");
     raw_date := None |}.

(** The loop of [main] over the rows of the file. *)
Fixpoint convert_rows (rows : list Row) : list RawRecord :=
  match rows with
  | [] => []
  | row :: rest =>
      let entry := convert_fatwa row in
      if truthy (default [] (raw_ruling entry))  (* Only include if we have a ruling *)
      then entry :: convert_rows rest
      else convert_rows rest
  end.

End Fatwa.

End ConvertIslamqa.

(** ** scrape_sunnah_com.py *)

Module ScrapeSunnahCom.

(** What the first grade that names a known word decides; [None] when the
    loop runs to its end.  A grade is [grade.get('grade', '')]. *)
Fixpoint grade_verdict `{Unicode} (grades : list (option str)) : option str :=
  match grades with
  | [] => None
  | grade :: rest =>
      let grade_text := lower (default [] grade) in
      if contains grade_text (py "sahih") then Some (py "sahih")
      else if contains grade_text (py "hasan") then Some (py "hasan")
      else if contains grade_text (py "daif") || contains grade_text (py "weak")
      then Some (py "daif")
      else grade_verdict rest
  end.

(** [grades] is [hadith.get('grades', [])]. *)
Definition determine_authenticity `{Unicode} (collection_key : str)
    (grades : option (list (option str))) : str :=
  (* Sahih Bukhari and Sahih Muslim are considered sahih by default *)
  if bool_decide (collection_key ∈ [py "bukhari"; py "muslim"]) then py "sahih"
  else
    (* Check explicit grades *)
    default (py "unknown") (grade_verdict (default [] grades)).

End ScrapeSunnahCom.

(** ** generate_embeddings.py *)

Module GenerateEmbeddings.

Definition BATCH_SIZE : nat := 100.

Definition create_embedding_text (entry : FiqhEntry) : str :=
  let parts : list str := [] in
  (* Add question for fatawa *)
  let parts :=
    if truthy (default [] (e_question entry))
    then parts ++ [py "Question: " ++ default [] (e_question entry)]
    else parts in
  (* Add the ruling/content *)
  let parts := parts ++ [default [] (e_ruling entry)] in
  (* Add evidence *)
  let evidence := default [] (e_evidence entry) in
  let parts :=
    match evidence with
    | [] => parts
    | _ :: _ => parts ++ [py "Evidence: " ++ join (py " | ") evidence]
    end in
  (* Add topics for context *)
  let topics := default [] (e_topics entry) in
  let parts :=
    match topics with
    | [] => parts
    | _ :: _ => parts ++ [py "Topics: " ++ join (py ", ") topics]
    end in
  (* Add madhab for context *)
  let madhab := default [] (e_madhab entry) in
  let parts :=
    if truthy madhab && negb (bool_decide (madhab = py "general"))
    then parts ++ [py "Madhab: " ++ madhab]
    else parts in
  join (newline ++ newline) parts.

(** [range(0, stop, step)] *)
Definition range (stop step : nat) : list nat :=
  map (fun k => k * step)%nat (seq 0 ((stop + step - 1) / step)).

(** [l[i:j]] for [0 <= i <= j] *)
Definition slice {A : Type} (l : list A) (i j : nat) : list A :=
  take (j - i) (drop i l).

(** The metadata dictionary built for one entry. *)
Definition metadata_of (entry : FiqhEntry) : list (str * str) :=
  let source := default no_source (e_source entry) in
  let metadata := [
    (py "type", default (py "unknown") (e_type entry));
    (py "source_title", default [] (src_title source));
    (py "source_ref", default [] (src_reference source));
    (py "topics", join (py ",") (default [] (e_topics entry)))
  ] in
  (* Add optional fields *)
  let metadata :=
    if truthy (default [] (e_madhab entry))
    then metadata ++ [(py "madhab", default [] (e_madhab entry))]
    else metadata in
  let metadata :=
    if truthy (default [] (e_authenticity entry))
    then metadata ++ [(py "authenticity", default [] (e_authenticity entry))]
    else metadata in
  let metadata :=
    if truthy (default [] (e_question entry))
    then metadata ++ [(py "question", take 200 (default [] (e_question entry)))]
    else metadata in
  metadata.

Section Indexer.

(** The vectors the provider returns. *)
Context {Vec : Type}.

Record Item := {
  item_embedding : Vec;
  item_document : str;
  item_metadata : list (str * str)
}.

(** Modelled from the spec: the vector store is an external service, "an
    opaque key-value-with-vectors service" with the operations
    [get_all_ids], [upsert] ("batch, id-keyed, overwrite-by-id semantics")
    and [count].  A collection is a finite map from id to item; a write
    whose four lists differ in length is refused. *)
Fixpoint upsert (collection : gmap str Item) (ids : list str) (embeddings : list Vec)
    (documents : list str) (metadatas : list (list (str * str))) : option (gmap str Item) :=
  match ids, embeddings, documents, metadatas with
  | [], [], [], [] => Some collection
  | i :: ids, v :: embeddings, d :: documents, m :: metadatas =>
      upsert (<[i := {| item_embedding := v; item_document := d; item_metadata := m |}]> collection)
        ids embeddings documents metadatas
  | _, _, _, _ => None
  end.

(** What the two services do in one run.  Calls are numbered by the batch
    they belong to, counted from 0. *)
Record World := {
  (* [collection.get()] raises *)
  get_raises : bool;
  (* [client.embeddings.create(model, input)]; [None] when the call raises *)
  embeddings_create : nat -> list str -> option (list Vec);
  (* [collection.add(...)] raises and writes nothing *)
  add_raises : nat -> bool
}.

Definition add_to_chromadb (w : World) (batch_no : nat) (collection : gmap str Item)
    (entries : list FiqhEntry) (embeddings : list Vec) : option (gmap str Item) :=
  let ids := map e_id entries in
  let documents := map (fun entry => take 1000 (default [] (e_ruling entry))) entries in
  let metadatas := map metadata_of entries in
  (* Add to collection *)
  if add_raises w batch_no then None
  else upsert collection ids embeddings documents metadatas.

(** The calls a run makes to the two services, in order. *)
Inductive Event :=
  | GetIds
  | Embed (texts : list str)
  | Add (ids : list str)
  | Sleep
  | Count.

Inductive Outcome :=
  | NothingToDo
  | Finished
  (* [break] in the batch with this number, counted from 0 *)
  | Stopped (batch_no : nat).

Record Run := {
  outcome : Outcome;
  store : gmap str Item;
  trace : list Event
}.

Definition existing_ids (w : World) (collection : gmap str Item) : gset str :=
  if get_raises w then ∅ else dom collection.

Definition entries_to_process (w : World) (entries : list FiqhEntry)
    (collection : gmap str Item) : list FiqhEntry :=
  filter (fun e => e_id e ∉ existing_ids w collection) entries.

(** The [for i in range(0, len(entries_to_process), BATCH_SIZE)] loop;
    [starts] holds the values of [i] still to come. *)
Fixpoint batch_loop (w : World) (pending : list FiqhEntry) (starts : list nat)
    (collection : gmap str Item) : Run :=
  match starts with
  | [] => {| outcome := Finished; store := collection; trace := [] |}
  | i :: later =>
      let batch := slice pending i (i + BATCH_SIZE) in
      (* Create embedding texts *)
      let texts := map create_embedding_text batch in
      (* Generate embeddings *)
      match embeddings_create w (i / BATCH_SIZE) texts with
      | None =>
          {| outcome := Stopped (i / BATCH_SIZE); store := collection;
             trace := [Embed texts] |}
      | Some embeddings =>
          (* Add to ChromaDB *)
          match add_to_chromadb w (i / BATCH_SIZE) collection batch embeddings with
          | None =>
              {| outcome := Stopped (i / BATCH_SIZE); store := collection;
                 trace := [Embed texts; Add (map e_id batch)] |}
          | Some collection' =>
              (* Rate limiting *)
              let rest := batch_loop w pending later collection' in
              {| outcome := outcome rest; store := store rest;
                 trace := [Embed texts; Add (map e_id batch); Sleep] ++ trace rest |}
          end
      end
  end.

(** [main] from the lookup of the existing ids on: [entries] is the loaded
    database and [collection] the collection [setup_chromadb] returns. *)
Definition main (w : World) (entries : list FiqhEntry) (collection : gmap str Item) : Run :=
  (* Filter entries to process *)
  let pending := entries_to_process w entries collection in
  match pending with
  | [] => {| outcome := NothingToDo; store := collection; trace := [GetIds] |}
  | _ :: _ =>
      (* Process in batches *)
      let loop := batch_loop w pending (range (length pending) BATCH_SIZE) collection in
      (* Print summary *)
      {| outcome := outcome loop; store := store loop;
         trace := [GetIds] ++ trace loop ++ [Count] |}
  end.

(** The provider calls and the store writes of a trace. *)
Definition provider_calls (events : list Event) : list (list str) :=
  omap (fun ev => match ev with Embed texts => Some texts | _ => None end) events.

Definition store_writes (events : list Event) : list (list str) :=
  omap (fun ev => match ev with Add ids => Some ids | _ => None end) events.

End Indexer.

Arguments Item : clear implicits.
Arguments World : clear implicits.
Arguments Run : clear implicits.
Arguments Event : clear implicits.

End GenerateEmbeddings.

(** ** Predicates and sample data used in the statements *)

Module Statements.

(** Text in which whitespace has been collapsed: every whitespace character
    is a space and no two of them are adjacent.  [after_space] tells that
    the character before the text is whitespace. *)
Fixpoint tidy (after_space : bool) (s : str) : bool :=
  match s with
  | [] => true
  | c :: rest =>
      if isspace c then negb after_space && (c =? 32) && tidy true rest
      else tidy false rest
  end.

(** Text without markup: no ampersand, no '<' and no double quote. *)
Definition plain (x : str) : Prop := (38 ∉ x) /\ (60 ∉ x) /\ (34 ∉ x).

(** The section-by-section description of the embedding text: a labelled
    section is there when its field is, the ruling always is, and the
    sections that are there are joined by blank lines. *)
Definition section (label : str) (present : bool) (body : str) : option str :=
  if present then Some (label ++ body) else None.

Definition build_text (entry : FiqhEntry) : str :=
  let question := default [] (e_question entry) in
  let ruling := default [] (e_ruling entry) in
  let evidence := default [] (e_evidence entry) in
  let topics := default [] (e_topics entry) in
  let madhab := default [] (e_madhab entry) in
  join (newline ++ newline)
    (omap (fun part : option str => part) [
       section (py "Question: ") (truthy question) question;
       Some ruling;
       section (py "Evidence: ") (bool_decide (evidence <> [])) (join (py " | ") evidence);
       section (py "Topics: ") (bool_decide (topics <> [])) (join (py ", ") topics);
       section (py "Madhab: ") (truthy madhab && bool_decide (madhab <> py "general")) madhab
     ]).

(** Every keyword of a topic table is missing from a text. *)
Definition no_keyword (topic_keywords : list (str * list str)) (text : str) : Prop :=
  forall topic keywords keyword,
    (topic, keywords) ∈ topic_keywords -> keyword ∈ keywords ->
    contains text keyword = false.

(** The hadith of the first example of the specification and its chapter. *)
Definition aisha_hadith : ConvertHadith.Hadith :=
  {| ConvertHadith.h_id := None;
     ConvertHadith.h_idInBook := None;
     ConvertHadith.h_chapterId := Some 3%Z;
     ConvertHadith.h_bookId := None;
     ConvertHadith.h_arabic := None;
     ConvertHadith.h_english :=
       Some {| ConvertHadith.en_narrator := Some (py "Narrated Aisha:");
               ConvertHadith.en_text := Some (py "The Prophet said ...") |} |}.

Definition prayer_chapters : gmap Z ConvertHadith.Chapter :=
  {[ 3%Z := {| ConvertHadith.ch_id := 3;
               ConvertHadith.ch_english := Some (py "The Book of Prayer") |} ]}.

(** An extractor for rulings that cite nothing, and a supply of
    identifiers. *)
Definition no_citations : str -> list str := fun _ => [].
Definition numbered : nat -> str := fun n => py "uuid-" ++ str_of_Z (Z.of_nat n).

(** A raw record that carries a ruling and nothing else. *)
Definition only_ruling (ruling : str) : RawRecord :=
  {| raw_id := None; raw_type := None; raw_question := None;
     raw_ruling := Some ruling; raw_arabicText := None; raw_evidence := None;
     raw_source := None; raw_authenticity := None; raw_topics := None;
     raw_madhab := None; raw_date := None |}.

(** The batches of a pending list: batch [k] is the slice the loop takes
    when [i = k * BATCH_SIZE]. *)
Definition batch_of (pending : list FiqhEntry) (k : nat) : list FiqhEntry :=
  GenerateEmbeddings.slice pending (k * GenerateEmbeddings.BATCH_SIZE)
    (k * GenerateEmbeddings.BATCH_SIZE + GenerateEmbeddings.BATCH_SIZE).

Definition batch_count (pending : list FiqhEntry) : nat :=
  (length pending + GenerateEmbeddings.BATCH_SIZE - 1) / GenerateEmbeddings.BATCH_SIZE.

Definition batches (pending : list FiqhEntry) : list (list FiqhEntry) :=
  map (batch_of pending) (seq 0 (batch_count pending)).

Definition texts_of (batch : list FiqhEntry) : list str :=
  map GenerateEmbeddings.create_embedding_text batch.

Definition ids_of (batch : list FiqhEntry) : list str := map e_id batch.

(** The calls of a batch that goes through. *)
Definition batch_events (pending : list FiqhEntry) (k : nat) : list GenerateEmbeddings.Event :=
  [GenerateEmbeddings.Embed (texts_of (batch_of pending k));
   GenerateEmbeddings.Add (ids_of (batch_of pending k));
   GenerateEmbeddings.Sleep].

(** Batch [k] goes through: the provider answers with one vector per text
    and the store takes the write. *)
Definition batch_succeeds {Vec : Type} (w : GenerateEmbeddings.World Vec)
    (pending : list FiqhEntry) (k : nat) : Prop :=
  GenerateEmbeddings.add_raises w k = false /\
  exists embeddings,
    GenerateEmbeddings.embeddings_create w k (texts_of (batch_of pending k)) = Some embeddings /\
    length embeddings = length (batch_of pending k).

(** Batch [k] fails: the provider raises, or the store raises or refuses
    the write. *)
Definition batch_fails {Vec : Type} (w : GenerateEmbeddings.World Vec)
    (pending : list FiqhEntry) (k : nat) : Prop :=
  GenerateEmbeddings.embeddings_create w k (texts_of (batch_of pending k)) = None \/
  exists embeddings,
    GenerateEmbeddings.embeddings_create w k (texts_of (batch_of pending k)) = Some embeddings /\
    (GenerateEmbeddings.add_raises w k = true \/
     length embeddings <> length (batch_of pending k)).

(** The calls of a batch that fails: the provider call, and the write if
    the provider answered. *)
Definition failed_attempt (pending : list FiqhEntry) (k : nat)
    (events : list GenerateEmbeddings.Event) : Prop :=
  events = [GenerateEmbeddings.Embed (texts_of (batch_of pending k))] \/
  events = [GenerateEmbeddings.Embed (texts_of (batch_of pending k));
            GenerateEmbeddings.Add (ids_of (batch_of pending k))].

(** Sample data for the indexer: entries with distinct ids, and services
    that always answer, that lose the id lookup, and that refuse the write
    of one batch. *)
Definition sample_entry (n : nat) : FiqhEntry :=
  {| e_id := py "bukhari_" ++ str_of_Z (Z.of_nat n);
     e_type := Some (py "hadith");
     e_question := None;
     e_ruling := Some (py "Actions are judged by intentions.");
     e_arabicText := None;
     e_evidence := Some [];
     e_source := None;
     e_authenticity := Some (py "sahih");
     e_topics := Some [py "faith"];
     e_madhab := None;
     e_date := None |}.

Definition sample_entries (count : nat) : list FiqhEntry := map sample_entry (seq 0 count).

Definition steady : GenerateEmbeddings.World unit :=
  {| GenerateEmbeddings.get_raises := false;
     GenerateEmbeddings.embeddings_create := fun _ texts => Some (map (fun _ => tt) texts);
     GenerateEmbeddings.add_raises := fun _ => false |}.

Definition lookup_down : GenerateEmbeddings.World unit :=
  {| GenerateEmbeddings.get_raises := true;
     GenerateEmbeddings.embeddings_create := fun _ texts => Some (map (fun _ => tt) texts);
     GenerateEmbeddings.add_raises := fun _ => false |}.

Definition store_down_at (k : nat) : GenerateEmbeddings.World unit :=
  {| GenerateEmbeddings.get_raises := false;
     GenerateEmbeddings.embeddings_create := fun _ texts => Some (map (fun _ => tt) texts);
     GenerateEmbeddings.add_raises := fun j => Nat.eqb j k |}.

(** A store that already holds the first sample entry. *)
Definition one_indexed : gmap str (GenerateEmbeddings.Item unit) :=
  {[ e_id (sample_entry 0) :=
       {| GenerateEmbeddings.item_embedding := tt;
          GenerateEmbeddings.item_document := py "Actions are judged by intentions.";
          GenerateEmbeddings.item_metadata := GenerateEmbeddings.metadata_of (sample_entry 0) |} ]}.

End Statements.
Import Statements.

(** ** Further names used in the statements *)

Module MoreStatements.

(** The name a classifier topic has after [normalize_topic]. *)
Definition processed_name (topic : str) : str :=
  if bool_decide (topic = py "hajj") then py "pilgrimage" else topic.

(** The topic names of a table, in the order of the table. *)
Definition topic_names (topic_keywords : list (str * list str)) : list str :=
  map fst topic_keywords.

(** The entries a file processor returns for a file. *)
Definition entries_of (process_file : (nat -> str) -> option (list RawRecord) -> list FiqhEntry)
    (json_file : RawFile) : list FiqhEntry :=
  process_file (file_uuids json_file) (file_content json_file).

(** The sum of the counts of a list of source records. *)
Definition counted (counts : list SourceCount) : nat := sum_list (map sc_count counts).

(** The files of a hadith directory, those of its sub-directories last. *)
Definition hadith_files (hadith_dir : option HadithDir) : list RawFile :=
  match hadith_dir with
  | Some dir => top_files dir ++ concat (sub_dirs dir)
  | None => []
  end.

(** Two raw files for the statistics: a hadith file with one short and one
    long enough ruling, and a fatwa file that cannot be loaded. *)
Definition sample_hadith_file : RawFile :=
  {| file_name := py "all_hadith.json";
     file_content := Some [only_ruling (py "Too short.");
                           only_ruling (py "Actions are judged by intentions.")];
     file_uuids := numbered |}.

Definition broken_fatwa_file : RawFile :=
  {| file_name := py "islamqa_fatawa.json"; file_content := None; file_uuids := numbered |}.

(** A raw record with an id and a ruling. *)
Definition identified (id ruling : str) : RawRecord :=
  {| raw_id := Some id; raw_type := None; raw_question := None;
     raw_ruling := Some ruling; raw_arabicText := None; raw_evidence := None;
     raw_source := None; raw_authenticity := None; raw_topics := None;
     raw_madhab := None; raw_date := None |}.

(** A string literal made of ASCII characters. *)
Definition ascii_string (s : string) : bool :=
  forallb (fun a => N_of_ascii a <? 128) (list_ascii_of_string s).

(** The underscore that separates collection key and number in an id. *)
Definition underscore : N := 95.

(** A hadith of the dataset with a number, English text and nothing else. *)
Definition numbered_hadith (n : Z) (text : str) : ConvertHadith.Hadith :=
  {| ConvertHadith.h_id := Some (ConvertHadith.Int n);
     ConvertHadith.h_idInBook := None;
     ConvertHadith.h_chapterId := None;
     ConvertHadith.h_bookId := None;
     ConvertHadith.h_arabic := None;
     ConvertHadith.h_english :=
       Some {| ConvertHadith.en_narrator := None; ConvertHadith.en_text := Some text |} |}.

(** A collection file with three numbered hadiths, one of them without
    text. *)
Definition sample_collection : ConvertHadith.DataFile :=
  {| ConvertHadith.d_chapters := Some [];
     ConvertHadith.d_hadiths :=
       Some [numbered_hadith 1 (py "Actions are judged by intentions.");
             numbered_hadith 2 (py "   ");
             numbered_hadith 3 (py "Religion is sincere advice.")] |}.

(** The hadiths of a list all have a numeric id. *)
Definition numeric_ids (hadiths : list ConvertHadith.Hadith) : Prop :=
  Forall (fun hadith => exists n, ConvertHadith.h_id hadith = Some (ConvertHadith.Int n)) hadiths.

(** A row of the IslamQA file with a number, a title and a full answer. *)
Definition answered_row (number title answer : str) : ConvertIslamqa.Row :=
  {| ConvertIslamqa.row_fatwa_id := ConvertIslamqa.Text number;
     ConvertIslamqa.row_url := ConvertIslamqa.NoColumn;
     ConvertIslamqa.row_title := ConvertIslamqa.Text title;
     ConvertIslamqa.row_question := ConvertIslamqa.ShortRow;
     ConvertIslamqa.row_summary := ConvertIslamqa.ShortRow;
     ConvertIslamqa.row_full_answer := ConvertIslamqa.Text answer |}.

(** The number of a row as it is written into the id. *)
Definition row_number (row : ConvertIslamqa.Row) : str :=
  ConvertIslamqa.cell_format (ConvertIslamqa.row_fatwa_id row).

(** The four grades of authenticity. *)
Definition authenticity_grades : list str :=
  [py "sahih"; py "hasan"; py "daif"; py "unknown"].

(** An entry with a question of 300 characters. *)
Definition long_question_entry : FiqhEntry :=
  {| e_id := py "islamqa_1"; e_type := Some (py "fatwa");
     e_question := Some (repeat 97 300);
     e_ruling := Some (py "Yes.");
     e_arabicText := None; e_evidence := Some [];
     e_source := None; e_authenticity := None;
     e_topics := Some [py "prayer"; py "wudu"];
     e_madhab := Some (py "general"); e_date := None |}.

(** What the store holds under [id] was put there by a write of the run
    over [pending]: it is the item of an entry of one of the batches that
    has this id, with the vector the provider returned at the entry's
    position in the call of that batch, the ruling cut to 1000 characters as
    document and the entry's metadata. *)
Definition written_in_run {Vec : Type} (w : GenerateEmbeddings.World Vec)
    (pending : list FiqhEntry) (collection : gmap str (GenerateEmbeddings.Item Vec))
    (id : str) : Prop :=
  exists k i written v embeddings,
    (batch_of pending k !! i = Some written) /\
    (e_id written = id) /\
    (GenerateEmbeddings.embeddings_create w k (texts_of (batch_of pending k))
     = Some embeddings) /\
    (embeddings !! i = Some v) /\
    (collection !! id
     = Some {| GenerateEmbeddings.item_embedding := v;
               GenerateEmbeddings.item_document := take 1000 (default [] (e_ruling written));
               GenerateEmbeddings.item_metadata := GenerateEmbeddings.metadata_of written |}).

(** A store that holds, under the id of the first sample entry, an item
    with another document and no metadata. *)
Definition stale_indexed : gmap str (GenerateEmbeddings.Item unit) :=
  {[ e_id (sample_entry 0) :=
       {| GenerateEmbeddings.item_embedding := tt;
          GenerateEmbeddings.item_document := py "An older text.";
          GenerateEmbeddings.item_metadata := [] |} ]}.

End MoreStatements.
Import MoreStatements.

(** * Properties *)

(** ** The text normalizer *)

Section CleanText.

Implicit Types (s x old new : str) (c : N).

Lemma startswith_elem old s c :
  startswith old s = true -> c ∈ old -> c ∈ s.
Proof.
  revert s. induction old as [|a old IH]; intros s Hp Hc.
  - inversion Hc.
  - destruct s as [|b s]; [discriminate|]. simpl in Hp.
    apply andb_prop in Hp as [Hab Hp]. apply N.eqb_eq in Hab. subst b.
    apply elem_of_cons in Hc as [->|Hc]; [left|right; eauto].
Qed.

Lemma replace_from_absent old new s c :
  c ∈ old -> c ∉ s -> replace_from old new 0 s = s.
Proof.
  intros Hold. induction s as [|a s IH]; intros Hs; [done|].
  cbn [replace_from].
  destruct (startswith old (a :: s)) eqn:Hp.
  - exfalso. apply Hs. eapply startswith_elem; eauto.
  - f_equal. apply IH. intros Hin. apply Hs. by right.
Qed.

(** A pattern with a character that the text lacks is not found. *)
Lemma replace_absent old new s c :
  c ∈ old -> c ∉ s -> replace old new s = s.
Proof.
  intros Hold Hs. destruct old as [|a old]; [inversion Hold|].
  by apply replace_from_absent with c.
Qed.

Lemma sub_tags_no_lt s : 60 ∉ s -> sub_tags s = s.
Proof.
  unfold sub_tags. induction s as [|a s IH]; intros Hs; [done|].
  apply not_elem_of_cons in Hs as [Ha Hs]. cbn [sub_tags_from].
  destruct (a =? 60) eqn:E; [apply N.eqb_eq in E; congruence|].
  simpl. by rewrite IH.
Qed.

Lemma sub_spaces_from_elem b s c :
  c ∈ sub_spaces_from b s -> c ∈ s \/ c = 32.
Proof.
  revert b. induction s as [|a s IH]; intros b Hc; [by left|].
  cbn [sub_spaces_from] in Hc.
  destruct (isspace a); [destruct b|].
  - apply IH in Hc as [?|?]; [left; by right|by right].
  - apply elem_of_cons in Hc as [->|Hc]; [by right|].
    apply IH in Hc as [?|?]; [left; by right|by right].
  - apply elem_of_cons in Hc as [->|Hc]; [left; by left|].
    apply IH in Hc as [?|?]; [left; by right|by right].
Qed.

Lemma lstrip_elem s c : c ∈ lstrip s -> c ∈ s.
Proof.
  induction s as [|a s IH]; [done|]. cbn [lstrip].
  destruct (isspace a); [|done]. intros Hc. right. auto.
Qed.

Lemma rstrip_cons a s :
  rstrip (a :: s) =
  match rstrip s with
  | [] => if isspace a then [] else [a]
  | _ :: _ => a :: rstrip s
  end.
Proof. cbn [rstrip]. by destruct (rstrip s). Qed.

Lemma rstrip_elem s c : c ∈ rstrip s -> c ∈ s.
Proof.
  induction s as [|a s IH]; [done|]. rewrite rstrip_cons.
  destruct (rstrip s) as [|d kept] eqn:E.
  - destruct (isspace a); [inversion 1|].
    intros [->|Hc]%elem_of_cons; [by left|inversion Hc].
  - intros [->|Hc]%elem_of_cons; [by left|right; auto].
Qed.

Lemma strip_elem s c : c ∈ strip s -> c ∈ s.
Proof. intros Hc. by apply lstrip_elem, rstrip_elem. Qed.

Lemma sub_spaces_from_tidy b s : tidy b (sub_spaces_from b s) = true.
Proof.
  revert b. induction s as [|a s IH]; intros b; [done|].
  cbn [sub_spaces_from]. destruct (isspace a) eqn:E.
  - destruct b; [apply IH|]. cbn. apply IH.
  - cbn [tidy]. rewrite E. apply IH.
Qed.

Lemma tidy_sub_spaces_from b s : tidy b s = true -> sub_spaces_from b s = s.
Proof.
  revert b. induction s as [|a s IH]; intros b Ht; [done|].
  cbn [tidy sub_spaces_from] in *. destruct (isspace a).
  - apply andb_prop in Ht as [Ht Hs]. apply andb_prop in Ht as [Hb Ha].
    apply N.eqb_eq in Ha. subst a. destruct b; [discriminate|].
    by rewrite IH.
  - by rewrite IH.
Qed.

Lemma tidy_weaken s : tidy true s = true -> tidy false s = true.
Proof. destruct s as [|a s]; [done|]. cbn. by destruct (isspace a). Qed.

Lemma tidy_lstrip s : tidy false s = true -> tidy false (lstrip s) = true.
Proof.
  induction s as [|a s IH]; [done|]. intros Ht. cbn [lstrip].
  destruct (isspace a) eqn:E; [|done].
  cbn [tidy] in Ht. rewrite E in Ht.
  apply andb_prop in Ht as [_ Ht]. by apply IH, tidy_weaken.
Qed.

Lemma tidy_rstrip b s : tidy b s = true -> tidy b (rstrip s) = true.
Proof.
  revert b. induction s as [|a s IH]; intros b Ht; [done|].
  rewrite rstrip_cons. cbn [tidy] in Ht.
  destruct (rstrip s) as [|d kept] eqn:E.
  - destruct (isspace a) eqn:Ea; [done|]. cbn. by rewrite Ea.
  - cbn [tidy]. destruct (isspace a).
    + apply andb_prop in Ht as [Hba Ht]. rewrite Hba. by apply IH.
    + by apply IH.
Qed.

Lemma rstrip_idem s : rstrip (rstrip s) = rstrip s.
Proof.
  induction s as [|a s IH]; [done|]. rewrite rstrip_cons.
  destruct (rstrip s) as [|d kept] eqn:E.
  - destruct (isspace a) eqn:Ea; [done|]. cbn. by rewrite Ea.
  - rewrite rstrip_cons, IH. done.
Qed.

(** [rstrip] keeps the first character of what it does not erase. *)
Lemma rstrip_head s : head (rstrip s) = None \/ head (rstrip s) = head s.
Proof.
  destruct s as [|a s]; [by left|]. rewrite rstrip_cons.
  destruct (rstrip s); [destruct (isspace a)|]; auto.
Qed.

Lemma lstrip_head s c : head (lstrip s) = Some c -> isspace c = false.
Proof.
  induction s as [|a s IH]; [done|]. cbn [lstrip].
  destruct (isspace a) eqn:E; [done|]. cbn. congruence.
Qed.

Lemma lstrip_fixed s :
  (forall c, head s = Some c -> isspace c = false) -> lstrip s = s.
Proof.
  destruct s as [|a s]; [done|]. intros Hh. cbn. by rewrite (Hh a).
Qed.

Lemma strip_idem s : strip (strip s) = strip s.
Proof.
  unfold strip. rewrite (lstrip_fixed (rstrip (lstrip s))).
  - apply rstrip_idem.
  - intros c Hc. destruct (rstrip_head (lstrip s)) as [Hn|He].
    + congruence.
    + rewrite He in Hc. by apply lstrip_head in Hc.
Qed.

Lemma tidy_strip s : tidy false s = true -> tidy false (strip s) = true.
Proof. intros Ht. by apply tidy_rstrip, tidy_lstrip. Qed.

Lemma plain_sub_spaces x : plain x -> plain (sub_spaces x).
Proof.
  intros (H1 & H2 & H3). unfold sub_spaces.
  repeat split; intros [?|?]%sub_spaces_from_elem; done.
Qed.

Lemma plain_strip x : plain x -> plain (strip x).
Proof.
  intros (H1 & H2 & H3). repeat split; intros ?%strip_elem; done.
Qed.

(** On plain text only the first and the last step of [clean_text] act. *)
Lemma clean_text_plain x : plain x -> clean_text x = strip (sub_spaces x).
Proof.
  intros Hx. destruct x as [|a x]; [done|].
  apply plain_sub_spaces in Hx. unfold clean_text.
  destruct Hx as (Hamp & Hlt & Hq).
  assert (Hin : forall c old, In c old -> c ∈ old) by (intros; by apply list_elem_of_In).
  rewrite (replace_absent (py "&nbsp;") _ _ 38); [|apply Hin; vm_compute; tauto|done].
  rewrite (replace_absent (py "&quot;") _ _ 38); [|apply Hin; vm_compute; tauto|done].
  rewrite (replace_absent (py "&amp;") _ _ 38); [|apply Hin; vm_compute; tauto|done].
  rewrite (replace_absent (py "&lt;") _ _ 38); [|apply Hin; vm_compute; tauto|done].
  rewrite (replace_absent (py "&gt;") _ _ 38); [|apply Hin; vm_compute; tauto|done].
  rewrite sub_tags_no_lt by done.
  rewrite (replace_absent dquote dquote (sub_spaces _) 34); [|by left|done].
  rewrite (replace_absent dquote dquote (sub_spaces _) 34); [|by left|done].
  rewrite (replace_absent quote_old _ _ 34); [|apply Hin; vm_compute; tauto|done].
  done.
Qed.

(** On plain text [clean_text] returns a fixed point of itself. *)
Lemma clean_text_plain_idem x :
  plain x -> clean_text (clean_text x) = clean_text x.
Proof.
  intros Hx. rewrite (clean_text_plain x Hx).
  rewrite clean_text_plain by by apply plain_strip, plain_sub_spaces.
  unfold sub_spaces at 1. rewrite tidy_sub_spaces_from.
  - apply strip_idem.
  - apply tidy_strip, sub_spaces_from_tidy.
Qed.

End CleanText.

(** Membership in a literal, by evaluation. *)
Ltac absent :=
  let H := fresh in
  intros H; apply list_elem_of_In in H; vm_compute in H;
  repeat (destruct H as [H|H]; [discriminate H|]); exact H.

(** C2, as stated, fails: cleaning ["a&nbsp; b"] leaves two spaces, because
    the entity is decoded after the whitespace has been collapsed, and
    cleaning the result again removes one of them. *)
Lemma clean_text_not_idempotent :
  clean_text (py "a&nbsp; b") = py "a  b" /\
  clean_text (clean_text (py "a&nbsp; b")) = py "a b" /\
  clean_text (clean_text (py "a&nbsp; b")) <> clean_text (py "a&nbsp; b").
Proof. repeat split. vm_compute. discriminate. Qed.

(** C2, amended: [clean_text (clean_text x) = clean_text x] for every string
    [x] that contains no ampersand, no '<' and no double quote; on such
    text [clean_text] collapses whitespace runs and trims. *)
Theorem clean_text_idempotent_on_plain (x : str) :
  plain x ->
  clean_text x = strip (sub_spaces x) /\
  clean_text (clean_text x) = clean_text x.
Proof.
  intros Hx. split.
  - by apply clean_text_plain.
  - by apply clean_text_plain_idem.
Qed.

Lemma clean_text_idempotent_on_plain_witness :
  plain (py "  Narrated   Aisha: 'pray'  ") /\
  clean_text (py "  Narrated   Aisha: 'pray'  ") = py "Narrated Aisha: 'pray'" /\
  clean_text (clean_text (py "  Narrated   Aisha: 'pray'  "))
  = clean_text (py "  Narrated   Aisha: 'pray'  ").
Proof.
  assert (Hp : plain (py "  Narrated   Aisha: 'pray'  ")) by (repeat split; absent).
  split; [exact Hp|].
  destruct (clean_text_idempotent_on_plain _ Hp) as [_ Hidem].
  split; [reflexivity|exact Hidem].
Defined.

(** ** Topic normalisation *)

Lemma lower_literal `{Unicode} (s : str) :
  forallb is_ascii s = true -> lower s = map ascii_lower s.
Proof. apply lower_ascii. Qed.

(** C7, as stated, fails: ["Jihad"] is not a key of the mapping, and it
    does not come back unchanged but lower-cased. *)
Lemma normalize_topic_changes_unmapped :
  dict_get normalizations (py "Jihad") = None /\
  dict_get normalizations (py "jihad") = None /\
  normalize_topic (py "Jihad") = py "jihad" /\
  normalize_topic (py "Jihad") <> py "Jihad".
Proof. repeat split. vm_compute. discriminate. Qed.

(** C7, amended: [normalize_topic] lower-cases and trims the tag and looks
    the result up by exact match; "salah" becomes "prayer", "wudhu" becomes
    "wudu", "talaaq" becomes "divorce", and a tag whose lower-cased, trimmed
    form is not a key comes back in that lower-cased, trimmed form. *)
Theorem normalize_topic_lookup `{Unicode} (tag : str) :
  normalize_topic tag =
    match dict_get normalizations (strip (lower tag)) with
    | Some canonical => canonical
    | None => strip (lower tag)
    end /\
  normalize_topic (py "salah") = py "prayer" /\
  normalize_topic (py "wudhu") = py "wudu" /\
  normalize_topic (py "talaaq") = py "divorce" /\
  normalize_topic (py " Salah ") = py "prayer".
Proof.
  unfold normalize_topic. split.
  - by destruct (dict_get normalizations (strip (lower tag))).
  - rewrite !lower_literal by reflexivity. repeat split.
Qed.

(** ** The embedding text *)

(** C8: for every entry, [create_embedding_text] is the blank-line join of,
    in this order, "Question: " with the question if there is one, the
    ruling, "Evidence: " with the evidence joined by " | " if there is any,
    "Topics: " with the topics joined by ", " if there are any, and
    "Madhab: " with the madhab if there is one other than "general".  A
    field is there when it is set and not empty. *)
Theorem create_embedding_text_sections (entry : FiqhEntry) :
  GenerateEmbeddings.create_embedding_text entry = build_text entry.
Proof.
  unfold GenerateEmbeddings.create_embedding_text, build_text, section.
  destruct (truthy (default [] (e_question entry)));
    destruct (default [] (e_evidence entry)) as [|ev evs];
    destruct (default [] (e_topics entry)) as [|t ts];
    destruct (truthy (default [] (e_madhab entry)));
    destruct (decide (default [] (e_madhab entry) = py "general")) as [Hg|Hg];
    rewrite ?(bool_decide_eq_true_2 _ Hg), ?(bool_decide_eq_false_2 _ Hg);
    try rewrite (bool_decide_eq_false_2 (default [] (e_madhab entry) <> py "general"))
      by (intros Hne; by apply Hne);
    try rewrite (bool_decide_eq_true_2 (default [] (e_madhab entry) <> py "general"))
      by done;
    reflexivity.
Qed.

(** ** Unification of raw records *)

Section Unification.

Context `{Unicode}.
Variable extract_evidence_from_text : str -> list str.

Abbreviation process_hadith := (process_hadith extract_evidence_from_text).
Abbreviation process_fatwa := (process_fatwa extract_evidence_from_text).

(** The loop returns only what its body returned for one of the records. *)
Lemma process_records_elem body uuid4 n records entry :
  entry ∈ process_records body uuid4 n records ->
  exists fresh record, record ∈ records /\ body fresh record = Some entry.
Proof.
  revert n. induction records as [|r records IH]; intros n Hin.
  - inversion Hin.
  - cbn [process_records] in Hin.
    destruct (body (uuid4 n) r) as [e|] eqn:Hbody.
    + apply elem_of_cons in Hin as [->|Hin].
      * exists (uuid4 n), r. split; [by left|done].
      * destruct (IH _ Hin) as (f & r' & ? & ?). exists f, r'. split; [by right|done].
    + destruct (IH _ Hin) as (f & r' & ? & ?). exists f, r'. split; [by right|done].
Qed.

Lemma process_hadith_ruling fresh hadith entry :
  process_hadith fresh hadith = Some entry ->
  e_ruling entry = Some (clean_text (default [] (raw_ruling hadith))) /\
  (20 <= length (clean_text (default [] (raw_ruling hadith))))%nat.
Proof.
  unfold ProcessTexts.process_hadith.
  destruct (bool_decide _ || _) eqn:Hskip; [discriminate|].
  intros [= <-]. split; [done|].
  apply orb_false_elim in Hskip as [_ Hlen]. apply Nat.ltb_ge in Hlen. done.
Qed.

Lemma process_fatwa_ruling fresh fatwa entry :
  process_fatwa fresh fatwa = Some entry ->
  e_ruling entry = Some (clean_text (default [] (raw_ruling fatwa))) /\
  (50 <= length (clean_text (default [] (raw_ruling fatwa))))%nat.
Proof.
  unfold ProcessTexts.process_fatwa.
  destruct (bool_decide _ || _) eqn:Hskip; [discriminate|].
  intros [= <-]. split; [done|].
  apply orb_false_elim in Hskip as [_ Hlen]. apply Nat.ltb_ge in Hlen. done.
Qed.

Lemma process_hadith_short fresh hadith :
  (length (clean_text (default [] (raw_ruling hadith))) < 20)%nat ->
  process_hadith fresh hadith = None.
Proof.
  intros Hlen. unfold ProcessTexts.process_hadith.
  apply Nat.ltb_lt in Hlen. rewrite Hlen. by rewrite orb_true_r.
Qed.

Lemma process_fatwa_short fresh fatwa :
  (length (clean_text (default [] (raw_ruling fatwa))) < 50)%nat ->
  process_fatwa fresh fatwa = None.
Proof.
  intros Hlen. unfold ProcessTexts.process_fatwa.
  apply Nat.ltb_lt in Hlen. rewrite Hlen. by rewrite orb_true_r.
Qed.

Lemma process_hadith_topics fresh hadith entry :
  process_hadith fresh hadith = Some entry ->
  e_topics entry =
    Some match map normalize_topic (default [] (raw_topics hadith)) with
         | [] => [py "general"]
         | t :: ts => t :: ts
         end.
Proof.
  unfold ProcessTexts.process_hadith.
  destruct (bool_decide _ || _); [discriminate|].
  intros [= <-]. cbn. by destruct (map normalize_topic _).
Qed.

Lemma process_fatwa_topics fresh fatwa entry :
  process_fatwa fresh fatwa = Some entry ->
  e_topics entry =
    Some match map normalize_topic (default [] (raw_topics fatwa)) with
         | [] => [py "general"]
         | t :: ts => t :: ts
         end.
Proof.
  unfold ProcessTexts.process_fatwa.
  destruct (bool_decide _ || _); [discriminate|].
  intros [= <-]. cbn. by destruct (map normalize_topic _).
Qed.

Lemma process_hadith_kept fresh hadith :
  (20 <= length (clean_text (default [] (raw_ruling hadith))))%nat ->
  exists entry, process_hadith fresh hadith = Some entry.
Proof.
  intros Hlen. unfold ProcessTexts.process_hadith.
  destruct (clean_text (default [] (raw_ruling hadith))) as [|c ruling] eqn:Hr.
  - cbn in Hlen. lia.
  - rewrite bool_decide_eq_false_2 by done.
    apply Nat.ltb_ge in Hlen. rewrite Hlen. cbn [orb]. eauto.
Qed.

Lemma process_fatwa_kept fresh fatwa :
  (50 <= length (clean_text (default [] (raw_ruling fatwa))))%nat ->
  exists entry, process_fatwa fresh fatwa = Some entry.
Proof.
  intros Hlen. unfold ProcessTexts.process_fatwa.
  destruct (clean_text (default [] (raw_ruling fatwa))) as [|c ruling] eqn:Hr.
  - cbn in Hlen. lia.
  - rewrite bool_decide_eq_false_2 by done.
    apply Nat.ltb_ge in Hlen. rewrite Hlen. cbn [orb]. eauto.
Qed.

End Unification.

(** C3: a raw record whose cleaned ruling is empty or shorter than 20
    characters (hadith) or 50 characters (fatwa) is skipped by the loop, and
    every entry that [process_hadith_file] or [process_fatwa_file] returns
    has a ruling of at least 20, respectively 50, characters. *)
Theorem short_rulings_are_excluded `{Unicode} (extract : str -> list str) :
  (forall fresh record,
     (length (clean_text (default [] (raw_ruling record))) < 20)%nat ->
     process_hadith extract fresh record = None) /\
  (forall fresh record,
     (length (clean_text (default [] (raw_ruling record))) < 50)%nat ->
     process_fatwa extract fresh record = None) /\
  (forall uuid4 file entry,
     entry ∈ process_hadith_file extract uuid4 file ->
     exists ruling, e_ruling entry = Some ruling /\ (20 <= length ruling)%nat) /\
  (forall uuid4 file entry,
     entry ∈ process_fatwa_file extract uuid4 file ->
     exists ruling, e_ruling entry = Some ruling /\ (50 <= length ruling)%nat).
Proof.
  split; [|split; [|split]].
  - intros. by apply process_hadith_short.
  - intros. by apply process_fatwa_short.
  - intros uuid4 [records|] entry Hin; [|inversion Hin].
    apply process_records_elem in Hin as (fresh & record & _ & Hbody).
    apply process_hadith_ruling in Hbody as [Hr Hlen]. eauto.
  - intros uuid4 [records|] entry Hin; [|inversion Hin].
    apply process_records_elem in Hin as (fresh & record & _ & Hbody).
    apply process_fatwa_ruling in Hbody as [Hr Hlen]. eauto.
Qed.

(** The fourth example of the specification: a fatwa whose ruling has 40
    characters is left out, and so is a hadith with 19; the same texts one
    character past the minimum are kept. *)
Lemma short_rulings_are_excluded_witness :
  process_fatwa no_citations [] (only_ruling (repeat 97 40)) = None /\
  process_hadith no_citations [] (only_ruling (repeat 97 19)) = None /\
  length (process_fatwa_file no_citations numbered
            (Some [only_ruling (repeat 97 40); only_ruling (repeat 97 50)])) = 1%nat /\
  Forall (fun entry => exists ruling, e_ruling entry = Some ruling /\ (50 <= length ruling)%nat)
    (process_fatwa_file no_citations numbered
       (Some [only_ruling (repeat 97 40); only_ruling (repeat 97 50)])) /\
  length (process_hadith_file no_citations numbered
            (Some [only_ruling (repeat 97 19); only_ruling (repeat 97 20)])) = 1%nat /\
  Forall (fun entry => exists ruling, e_ruling entry = Some ruling /\ (20 <= length ruling)%nat)
    (process_hadith_file no_citations numbered
       (Some [only_ruling (repeat 97 19); only_ruling (repeat 97 20)])).
Proof.
  destruct (short_rulings_are_excluded no_citations) as (Hh & Hf & Hhf & Hff).
  split; [|split; [|split; [|split; [|split]]]].
  - apply Hf. vm_compute. lia.
  - apply Hh. vm_compute. lia.
  - reflexivity.
  - apply Forall_forall. intros entry Hin. exact (Hff _ _ entry Hin).
  - reflexivity.
  - apply Forall_forall. intros entry Hin. exact (Hhf _ _ entry Hin).
Defined.

(** ** Topic classification *)

Lemma matching_topics_none topic_keywords text :
  no_keyword topic_keywords text -> matching_topics topic_keywords text = [].
Proof.
  induction topic_keywords as [|[topic keywords] table IH]; intros Hno; [done|].
  cbn [matching_topics].
  assert (Hk : existsb (fun keyword => contains text keyword) keywords = false).
  { apply not_true_is_false. intros Hex.
    apply existsb_exists in Hex as (keyword & Hin & Hc).
    rewrite (Hno topic keywords keyword) in Hc; [discriminate|by left|].
    by apply list_elem_of_In. }
  rewrite Hk. apply IH. intros t ks k Ht Hks. apply (Hno t ks k); [by right|done].
Qed.

Lemma extract_topics_from_chapter_nonempty `{Unicode} chapter_name :
  ConvertHadith.extract_topics_from_chapter chapter_name <> [].
Proof.
  unfold ConvertHadith.extract_topics_from_chapter.
  destruct chapter_name; [done|]. by destruct (matching_topics _ _).
Qed.

Lemma extract_topics_from_title_nonempty `{Unicode} title :
  ConvertIslamqa.extract_topics_from_title title <> [].
Proof.
  unfold ConvertIslamqa.extract_topics_from_title.
  destruct title; [done|]. by destruct (matching_topics _ _).
Qed.

(** C6: both classifiers return exactly ["general"] for a text whose
    lower-cased form contains none of their keywords, neither ever returns
    an empty list, and an entry unified from a raw record that carries no
    topics has the topics ["general"]; the topics of a unified entry are
    never empty. *)
Theorem topics_are_never_empty `{Unicode} (extract : str -> list str) :
  (forall chapter_name,
     no_keyword ConvertHadith.topic_keywords (lower chapter_name) ->
     ConvertHadith.extract_topics_from_chapter chapter_name = [py "general"]) /\
  (forall title,
     no_keyword ConvertIslamqa.topic_keywords (lower title) ->
     ConvertIslamqa.extract_topics_from_title title = [py "general"]) /\
  (forall text,
     ConvertHadith.extract_topics_from_chapter text <> [] /\
     ConvertIslamqa.extract_topics_from_title text <> []) /\
  (forall fresh record entry,
     process_hadith extract fresh record = Some entry \/
     process_fatwa extract fresh record = Some entry ->
     (default [] (raw_topics record) = [] -> e_topics entry = Some [py "general"]) /\
     exists topic topics, e_topics entry = Some (topic :: topics)).
Proof.
  split; [|split; [|split]].
  - intros name Hno. unfold ConvertHadith.extract_topics_from_chapter.
    destruct name; [done|]. by rewrite matching_topics_none.
  - intros title Hno. unfold ConvertIslamqa.extract_topics_from_title.
    destruct title; [done|]. by rewrite matching_topics_none.
  - intros text. split.
    + apply extract_topics_from_chapter_nonempty.
    + apply extract_topics_from_title_nonempty.
  - intros fresh record entry Hentry.
    assert (Ht : e_topics entry =
      Some match map normalize_topic (default [] (raw_topics record)) with
           | [] => [py "general"]
           | t :: ts => t :: ts
           end).
    { destruct Hentry as [Hh|Hf].
      - by apply process_hadith_topics in Hh.
      - by apply process_fatwa_topics in Hf. }
    rewrite Ht. split.
    + intros ->. done.
    + destruct (map normalize_topic _); eauto.
Qed.

Lemma no_keyword_decide topic_keywords text :
  forallb (fun item : str * list str =>
             forallb (fun keyword => negb (contains text keyword)) item.2)
          topic_keywords = true ->
  no_keyword topic_keywords text.
Proof.
  intros Hall topic keywords keyword Ht Hk.
  rewrite forallb_forall in Hall.
  apply list_elem_of_In in Ht. specialize (Hall _ Ht). cbn in Hall.
  rewrite forallb_forall in Hall.
  apply list_elem_of_In in Hk. specialize (Hall _ Hk).
  by apply negb_true_iff in Hall.
Qed.

Lemma topics_are_never_empty_witness :
  ConvertHadith.extract_topics_from_chapter (py "The Book of Revelation") = [py "general"] /\
  ConvertIslamqa.extract_topics_from_title (py "Ruling on shaking hands") = [py "general"] /\
  e_topics <$> process_hadith no_citations [] (only_ruling (repeat 97 20))
  = Some (Some [py "general"]).
Proof.
  destruct (topics_are_never_empty no_citations) as (Hc & Ht & _ & Hp).
  split; [|split].
  - apply Hc. apply no_keyword_decide. vm_compute. reflexivity.
  - apply Ht. apply no_keyword_decide. vm_compute. reflexivity.
  - destruct (process_hadith no_citations [] (only_ruling (repeat 97 20)))
      as [entry|] eqn:Hentry; [|vm_compute in Hentry; discriminate Hentry].
    destruct (Hp _ _ _ (or_introl Hentry)) as [Hgeneral _].
    cbn. f_equal. apply Hgeneral. reflexivity.
Defined.

(** ** The first example of the specification *)

Lemma aisha_chapter_name :
  default [] ((ConvertHadith.h_chapterId aisha_hadith
               ≫= fun chapter_id => prayer_chapters !! chapter_id)
              ≫= ConvertHadith.ch_english)
  = py "The Book of Prayer".
Proof. reflexivity. Qed.

Lemma prayer_chapter_topics `{Unicode} :
  ConvertHadith.extract_topics_from_chapter (py "The Book of Prayer") = [py "prayer"].
Proof.
  unfold ConvertHadith.extract_topics_from_chapter.
  rewrite lower_literal by reflexivity. reflexivity.
Qed.

Lemma normalize_prayer `{Unicode} : normalize_topic (py "prayer") = py "prayer".
Proof. unfold normalize_topic. rewrite lower_literal by reflexivity. reflexivity. Qed.

(** C9, as stated, fails: in the processed corpus the blank line between
    narrator and text is gone, because [clean_text] turns every whitespace
    run into one space. *)
Lemma aisha_ruling_loses_blank_line :
  let converted :=
    ConvertHadith.convert_hadith aisha_hadith (py "bukhari") prayer_chapters in
  let processed :=
    process_hadith_file no_citations numbered (Some (option_list converted)) in
  raw_ruling <$> option_list converted
    = [Some (py "Narrated Aisha:" ++ newline ++ newline ++ py "The Prophet said ...")] /\
  e_ruling <$> processed = [Some (py "Narrated Aisha: The Prophet said ...")] /\
  existsb (fun entry =>
             startswith (py "Narrated Aisha:" ++ newline ++ newline ++ py "The Prophet said ...")
               (default [] (e_ruling entry)))
          processed = false.
Proof. vm_compute. repeat split. Qed.

(** C9, amended: for every collection of [COLLECTION_INFO], [convert_hadith]
    turns the hadith of the example into a raw entry with topics ["prayer"]
    and the ruling "Narrated Aisha:\n\nThe Prophet said ..."; in the
    processed corpus the entry keeps the topics ["prayer"] and its ruling is
    "Narrated Aisha: The Prophet said ...", narrator and text joined by one
    space. *)
Theorem aisha_hadith_example `{Unicode} (extract : str -> list str) (uuid4 : nat -> str)
    (collection_key : str) (collection : ConvertHadith.CollectionInfo) :
  dict_get ConvertHadith.COLLECTION_INFO collection_key = Some collection ->
  exists converted entry,
    ConvertHadith.convert_hadith aisha_hadith collection_key prayer_chapters = Some converted /\
    raw_topics converted = Some [py "prayer"] /\
    raw_ruling converted
      = Some (py "Narrated Aisha:" ++ newline ++ newline ++ py "The Prophet said ...") /\
    process_hadith_file extract uuid4 (Some [converted]) = [entry] /\
    e_topics entry = Some [py "prayer"] /\
    e_ruling entry = Some (py "Narrated Aisha: The Prophet said ...").
Proof.
  intros Hkey. unfold ConvertHadith.convert_hadith. rewrite Hkey.
  cbn [mbind option_bind]. rewrite aisha_chapter_name, prayer_chapter_topics.
  match goal with
  | |- exists converted entry, Some ?r = Some converted /\ _ =>
      destruct (process_hadith_kept extract (uuid4 0%nat) r) as [entry Hentry];
      [vm_compute; lia|];
      destruct (process_hadith_ruling _ _ _ _ Hentry) as [Hruling _];
      pose proof (process_hadith_topics _ _ _ _ Hentry) as Htopics;
      exists r, entry
  end.
  change (e_topics entry = Some [normalize_topic (py "prayer")]) in Htopics.
  rewrite normalize_prayer in Htopics.
  split; [reflexivity|]. split; [reflexivity|]. split; [reflexivity|].
  cbn [process_hadith_file process_records]. rewrite Hentry.
  split; [reflexivity|]. split; [exact Htopics|].
  rewrite Hruling. reflexivity.
Qed.

Lemma aisha_hadith_example_witness :
  exists converted entry,
    ConvertHadith.convert_hadith aisha_hadith (py "muslim") prayer_chapters = Some converted /\
    raw_topics converted = Some [py "prayer"] /\
    raw_ruling converted
      = Some (py "Narrated Aisha:" ++ newline ++ newline ++ py "The Prophet said ...") /\
    process_hadith_file no_citations numbered (Some [converted]) = [entry] /\
    e_topics entry = Some [py "prayer"] /\
    e_ruling entry = Some (py "Narrated Aisha: The Prophet said ...").
Proof.
  eapply (aisha_hadith_example no_citations numbered (py "muslim")).
  reflexivity.
Defined.

(** ** The batch indexer *)

Section IndexerFacts.

Import GenerateEmbeddings.

Context {Vec : Type}.

Implicit Types (w : World Vec) (collection : gmap str (Item Vec))
  (pending entries batch : list FiqhEntry) (k n a : nat).

Lemma BATCH_SIZE_pos : (0 < BATCH_SIZE)%nat.
Proof. unfold BATCH_SIZE. lia. Qed.

Lemma start_batch_no k : (k * BATCH_SIZE / BATCH_SIZE = k)%nat.
Proof. apply Nat.div_mul. pose proof BATCH_SIZE_pos. lia. Qed.

Lemma batch_of_take pending k :
  batch_of pending k = take BATCH_SIZE (drop (k * BATCH_SIZE) pending).
Proof. unfold batch_of, slice. f_equal. lia. Qed.

Lemma length_batch_of pending k :
  length (batch_of pending k) = (BATCH_SIZE `min` (length pending - k * BATCH_SIZE))%nat.
Proof. by rewrite batch_of_take, length_take, length_drop. Qed.

Lemma range_batches pending :
  range (length pending) BATCH_SIZE
  = map (fun k => k * BATCH_SIZE)%nat (seq 0 (batch_count pending)).
Proof. reflexivity. Qed.

(** Consecutive batches are consecutive stretches of the pending list. *)
Lemma concat_batches_from pending a n :
  concat (map (batch_of pending) (seq a n))
  = take (n * BATCH_SIZE) (drop (a * BATCH_SIZE) pending).
Proof.
  revert a. induction n as [|n IH]; intros a; [done|].
  cbn [seq map concat]. rewrite IH, batch_of_take.
  replace (S a * BATCH_SIZE)%nat with (a * BATCH_SIZE + BATCH_SIZE)%nat by lia.
  rewrite <- drop_drop, take_take_drop. f_equal.
Qed.

Lemma batch_count_covers pending :
  (length pending <= batch_count pending * BATCH_SIZE)%nat.
Proof.
  unfold batch_count. pose proof BATCH_SIZE_pos as Hpos.
  pose proof (Nat.div_mod_eq (length pending + BATCH_SIZE - 1) BATCH_SIZE) as Hdiv.
  pose proof (Nat.mod_upper_bound (length pending + BATCH_SIZE - 1) BATCH_SIZE) as Hmod.
  nia.
Qed.

Lemma concat_batches pending : concat (batches pending) = pending.
Proof.
  unfold batches. rewrite concat_batches_from. cbn [Nat.mul drop].
  apply take_ge, batch_count_covers.
Qed.

Lemma concat_batches_before pending k :
  concat (map (batch_of pending) (seq 0 k)) = take (k * BATCH_SIZE) pending.
Proof. by rewrite concat_batches_from. Qed.

(** *** The store *)

Lemma upsert_dom collection ids embeddings documents metadatas collection' :
  upsert collection ids embeddings documents metadatas = Some collection' ->
  dom collection' = dom collection ∪ list_to_set ids.
Proof.
  revert collection embeddings documents metadatas.
  induction ids as [|i ids IH]; intros c [|v vs] [|d ds] [|m ms] Hup;
    try discriminate Hup.
  - injection Hup as <-. cbn. by rewrite (right_id_L ∅ (∪)).
  - cbn [upsert] in Hup. apply IH in Hup.
    rewrite Hup, dom_insert_L, list_to_set_cons.
    by rewrite (comm_L (∪) {[i]} (dom c)), <- (assoc_L (∪)).
Qed.

Lemma upsert_lengths collection ids embeddings documents metadatas :
  length embeddings = length ids -> length documents = length ids ->
  length metadatas = length ids ->
  is_Some (upsert collection ids embeddings documents metadatas).
Proof.
  revert collection embeddings documents metadatas.
  induction ids as [|i ids IH]; intros c [|v vs] [|d ds] [|m ms] H1 H2 H3;
    try discriminate; cbn [upsert].
  - by eexists.
  - apply IH; cbn in *; lia.
Qed.

Lemma upsert_mismatch collection ids embeddings documents metadatas :
  length embeddings <> length ids ->
  upsert collection ids embeddings documents metadatas = None.
Proof.
  revert collection embeddings documents metadatas.
  induction ids as [|i ids IH]; intros c [|v vs] [|d ds] [|m ms] Hne;
    try done; cbn [upsert].
  apply IH. cbn in Hne. lia.
Qed.

Lemma add_to_chromadb_dom w k collection batch embeddings collection' :
  add_to_chromadb w k collection batch embeddings = Some collection' ->
  dom collection' = dom collection ∪ list_to_set (ids_of batch).
Proof.
  unfold add_to_chromadb. destruct (add_raises w k); [discriminate|].
  apply upsert_dom.
Qed.

Lemma add_to_chromadb_ok w k collection batch embeddings :
  add_raises w k = false -> length embeddings = length batch ->
  is_Some (add_to_chromadb w k collection batch embeddings).
Proof.
  intros Hadd Hlen. unfold add_to_chromadb. rewrite Hadd.
  apply upsert_lengths; by rewrite ?length_map.
Qed.

Lemma add_to_chromadb_fails w k collection batch embeddings :
  add_raises w k = true \/ length embeddings <> length batch ->
  add_to_chromadb w k collection batch embeddings = None.
Proof.
  unfold add_to_chromadb. intros [->|Hlen]; [done|].
  destruct (add_raises w k); [done|].
  apply upsert_mismatch. by rewrite length_map.
Qed.

(** *** One turn of the loop *)

Lemma batch_loop_cons w pending k later collection :
  batch_loop w pending (k * BATCH_SIZE :: later)%nat collection =
  match embeddings_create w k (texts_of (batch_of pending k)) with
  | None =>
      {| outcome := Stopped k; store := collection;
         trace := [Embed (texts_of (batch_of pending k))] |}
  | Some embeddings =>
      match add_to_chromadb w k collection (batch_of pending k) embeddings with
      | None =>
          {| outcome := Stopped k; store := collection;
             trace := [Embed (texts_of (batch_of pending k));
                       Add (ids_of (batch_of pending k))] |}
      | Some collection' =>
          let rest := batch_loop w pending later collection' in
          {| outcome := outcome rest; store := store rest;
             trace := batch_events pending k ++ trace rest |}
      end
  end.
Proof. cbn [batch_loop]. rewrite start_batch_no. reflexivity. Qed.

Lemma batch_loop_success w pending k later collection :
  batch_succeeds w pending k ->
  exists collection',
    dom collection' = dom collection ∪ list_to_set (ids_of (batch_of pending k)) /\
    batch_loop w pending (k * BATCH_SIZE :: later)%nat collection =
      {| outcome := outcome (batch_loop w pending later collection');
         store := store (batch_loop w pending later collection');
         trace := batch_events pending k ++ trace (batch_loop w pending later collection') |}.
Proof.
  intros (Hadd & embeddings & Hembed & Hlen).
  destruct (add_to_chromadb_ok w k collection _ _ Hadd Hlen) as [collection' Hc].
  exists collection'. split.
  - by apply add_to_chromadb_dom in Hc.
  - by rewrite batch_loop_cons, Hembed, Hc.
Qed.

Lemma batch_loop_failure w pending k later collection :
  batch_fails w pending k ->
  exists attempt,
    failed_attempt pending k attempt /\
    batch_loop w pending (k * BATCH_SIZE :: later)%nat collection =
      {| outcome := Stopped k; store := collection; trace := attempt |}.
Proof.
  intros [Hembed|(embeddings & Hembed & Hadd)]; rewrite batch_loop_cons, Hembed.
  - eexists. split; [by left|done].
  - rewrite add_to_chromadb_fails by done. eexists. split; [by right|done].
Qed.

(** *** The whole loop *)

Abbreviation starts_from a n := (map (fun k => k * BATCH_SIZE)%nat (seq a n)).

(** When every batch goes through, the loop finishes, makes the calls of
    each batch in turn and leaves all their ids in the store. *)
Lemma batch_loop_all_succeed w pending a n collection :
  (forall k, (a <= k < a + n)%nat -> batch_succeeds w pending k) ->
  outcome (batch_loop w pending (starts_from a n) collection) = Finished /\
  trace (batch_loop w pending (starts_from a n) collection)
    = concat (map (batch_events pending) (seq a n)) /\
  dom (store (batch_loop w pending (starts_from a n) collection))
    = dom collection ∪ list_to_set (ids_of (concat (map (batch_of pending) (seq a n)))).
Proof.
  revert a collection. induction n as [|n IH]; intros a collection Hok.
  - cbn. repeat split. by rewrite (right_id_L ∅ (∪)).
  - cbn [seq map concat].
    destruct (batch_loop_success w pending a (starts_from (S a) n) collection)
      as (collection' & Hdom & ->); [apply Hok; lia|].
    destruct (IH (S a) collection') as (Ho & Ht & Hd); [intros; apply Hok; lia|].
    cbn [outcome trace store]. rewrite Ho, Ht, Hd, Hdom.
    repeat split. unfold ids_of. rewrite map_app, list_to_set_app_L.
    by rewrite (assoc_L (∪)).
Qed.

(** When batch [k] is the first to fail, the loop stops there: the batches
    before it are in the store, and the failed attempt is the last thing in
    the trace. *)
Lemma batch_loop_first_failure w pending a n k collection :
  (a <= k < a + n)%nat ->
  (forall j, (a <= j < k)%nat -> batch_succeeds w pending j) ->
  batch_fails w pending k ->
  outcome (batch_loop w pending (starts_from a n) collection) = Stopped k /\
  (exists attempt,
     failed_attempt pending k attempt /\
     trace (batch_loop w pending (starts_from a n) collection)
       = concat (map (batch_events pending) (seq a (k - a))) ++ attempt) /\
  dom (store (batch_loop w pending (starts_from a n) collection))
    = dom collection ∪ list_to_set (ids_of (concat (map (batch_of pending) (seq a (k - a))))).
Proof.
  revert a collection. induction n as [|n IH]; intros a collection Hk Hok Hfail; [lia|].
  cbn [seq map]. destruct (decide (k = a)) as [->|Hne].
  - destruct (batch_loop_failure w pending a (starts_from (S a) n) collection Hfail)
      as (attempt & Hattempt & ->).
    rewrite Nat.sub_diag. cbn. repeat split; [eauto|].
    by rewrite (right_id_L ∅ (∪)).
  - destruct (batch_loop_success w pending a (starts_from (S a) n) collection)
      as (collection' & Hdom & ->); [apply Hok; lia|].
    destruct (IH (S a) collection') as (Ho & (attempt & Hattempt & Ht) & Hd);
      [lia|intros; apply Hok; lia|done|].
    replace (k - a)%nat with (S (k - S a)) by lia.
    cbn [outcome trace store seq map concat]. rewrite Ho, Ht, Hd, Hdom.
    split; [done|]. split.
    + exists attempt. split; [done|]. by rewrite <- (assoc_L (++)).
    + unfold ids_of. rewrite map_app, list_to_set_app_L. by rewrite (assoc_L (∪)).
Qed.

(** A loop that finishes has written every batch. *)
Lemma batch_loop_finished_dom w pending a n collection :
  outcome (batch_loop w pending (starts_from a n) collection) = Finished ->
  dom (store (batch_loop w pending (starts_from a n) collection))
    = dom collection ∪ list_to_set (ids_of (concat (map (batch_of pending) (seq a n)))).
Proof.
  revert a collection. induction n as [|n IH]; intros a collection Hfin.
  - cbn. by rewrite (right_id_L ∅ (∪)).
  - cbn [seq map concat] in *. rewrite batch_loop_cons in *.
    destruct (embeddings_create w a _) as [embeddings|]; [|discriminate Hfin].
    destruct (add_to_chromadb w a collection _ embeddings) as [collection'|] eqn:Hadd;
      [|discriminate Hfin].
    cbn [outcome store] in *. rewrite (IH _ _ Hfin).
    apply add_to_chromadb_dom in Hadd. rewrite Hadd.
    unfold ids_of. rewrite map_app, list_to_set_app_L. by rewrite (assoc_L (∪)).
Qed.

(** The store never loses an id during the loop. *)
Lemma batch_loop_keeps w pending starts collection :
  dom collection ⊆ dom (store (batch_loop w pending starts collection)).
Proof.
  revert collection. induction starts as [|i later IH]; intros collection; [done|].
  cbn [batch_loop].
  destruct (embeddings_create w _ _) as [embeddings|]; [|done].
  destruct (add_to_chromadb w _ collection _ embeddings) as [collection'|] eqn:Hadd; [|done].
  cbn [store]. etrans; [|apply IH].
  apply add_to_chromadb_dom in Hadd. rewrite Hadd. apply union_subseteq_l.
Qed.

(** *** Reading a trace *)

Lemma provider_calls_app (t1 t2 : list Event) :
  provider_calls (t1 ++ t2) = provider_calls t1 ++ provider_calls t2.
Proof. apply omap_app. Qed.

Lemma store_writes_app (t1 t2 : list Event) :
  store_writes (t1 ++ t2) = store_writes t1 ++ store_writes t2.
Proof. apply omap_app. Qed.

Lemma provider_calls_batches pending (ks : list nat) :
  provider_calls (concat (map (batch_events pending) ks))
  = map (fun k => texts_of (batch_of pending k)) ks.
Proof.
  induction ks as [|k ks IH]; [done|].
  cbn [map concat]. rewrite provider_calls_app, IH. done.
Qed.

Lemma store_writes_batches pending (ks : list nat) :
  store_writes (concat (map (batch_events pending) ks))
  = map (fun k => ids_of (batch_of pending k)) ks.
Proof.
  induction ks as [|k ks IH]; [done|].
  cbn [map concat]. rewrite store_writes_app, IH. done.
Qed.

(** *** [main] *)

Lemma main_nothing_to_do w entries collection :
  entries_to_process w entries collection = [] ->
  main w entries collection
  = {| outcome := NothingToDo; store := collection; trace := [GetIds] |}.
Proof. unfold main. by intros ->. Qed.

Lemma main_batches w entries collection :
  entries_to_process w entries collection <> [] ->
  main w entries collection =
  let pending := entries_to_process w entries collection in
  let loop := batch_loop w pending (starts_from 0 (batch_count pending)) collection in
  {| outcome := outcome loop; store := store loop;
     trace := [GetIds] ++ trace loop ++ [Count] |}.
Proof. unfold main. by destruct (entries_to_process w entries collection). Qed.

Lemma batch_loop_outcome w pending starts collection :
  outcome (batch_loop w pending starts collection) <> NothingToDo.
Proof.
  revert collection. induction starts as [|i later IH]; intros collection; [done|].
  cbn [batch_loop].
  destruct (embeddings_create w _ _) as [embeddings|]; [|done].
  destruct (add_to_chromadb w _ collection _ embeddings); [|done].
  apply IH.
Qed.

Lemma existing_ids_subseteq w collection : existing_ids w collection ⊆ dom collection.
Proof. unfold existing_ids. destruct (get_raises w); [apply empty_subseteq|done]. Qed.

Lemma entries_to_process_elem w entries collection entry :
  entry ∈ entries ->
  e_id entry ∈ existing_ids w collection \/ entry ∈ entries_to_process w entries collection.
Proof.
  intros Hin. destruct (decide (e_id entry ∈ existing_ids w collection)) as [Hex|Hex].
  - by left.
  - right. by apply list_elem_of_filter.
Qed.

Lemma entries_to_process_no_ids w entries collection :
  existing_ids w collection = ∅ -> entries_to_process w entries collection = entries.
Proof.
  intros Hempty. unfold entries_to_process. rewrite Hempty.
  induction entries as [|e entries IH]; [done|].
  rewrite filter_cons_True by apply not_elem_of_empty. by rewrite IH.
Qed.

(** After a run that was not stopped, every entry of the database is in
    the store. *)
Lemma main_completed_dom w entries collection entry :
  (forall k, outcome (main w entries collection) <> Stopped k) ->
  entry ∈ entries ->
  e_id entry ∈ dom (store (main w entries collection)).
Proof.
  intros Hdone Hin.
  destruct (decide (entries_to_process w entries collection = [])) as [Hnil|Hpending].
  - rewrite main_nothing_to_do by done. cbn [store].
    destruct (entries_to_process_elem w entries collection entry Hin) as [Hex|Hp].
    + by apply existing_ids_subseteq in Hex.
    + rewrite Hnil in Hp. inversion Hp.
  - rewrite main_batches in * by done. cbn [store outcome] in *.
    rewrite batch_loop_finished_dom.
    + fold (batches (entries_to_process w entries collection)).
      rewrite concat_batches.
      destruct (entries_to_process_elem w entries collection entry Hin) as [Hex|Hp].
      * apply elem_of_union_l. by apply existing_ids_subseteq in Hex.
      * apply elem_of_union_r, elem_of_list_to_set.
        unfold ids_of. apply list_elem_of_fmap. eauto.
    + destruct (outcome (batch_loop w _ _ collection)) as [| |k] eqn:Ho.
      * by apply batch_loop_outcome in Ho.
      * done.
      * by destruct (Hdone k).
Qed.

(** Once every entry is in the store and the lookup works, nothing is
    pending. *)
Lemma entries_to_process_all_indexed w entries collection :
  get_raises w = false ->
  (forall entry, entry ∈ entries -> e_id entry ∈ dom collection) ->
  entries_to_process w entries collection = [].
Proof.
  intros Hget Hall. unfold entries_to_process, existing_ids. rewrite Hget.
  induction entries as [|e entries IH]; [done|].
  rewrite filter_cons_False.
  - apply IH. intros entry Hin. apply Hall. by right.
  - intros Hnot. apply Hnot, Hall. by left.
Qed.

Lemma batch_index_in_range pending k :
  (k < batch_count pending)%nat -> (k * BATCH_SIZE < length pending)%nat.
Proof.
  unfold batch_count. intros Hk. pose proof BATCH_SIZE_pos as Hpos.
  pose proof (Nat.Div0.mul_div_le (length pending + BATCH_SIZE - 1) BATCH_SIZE) as Hle.
  nia.
Qed.

End IndexerFacts.

(** C1: when a run of the indexer was not stopped by a failing batch, a
    second run over the same entries, on the store the first run left and
    with a working id lookup, finds every id already indexed: nothing is
    pending, the run ends as a no-op whose only call is that lookup, no
    provider call and no store write is made, and the store and its count
    are unchanged. *)
Theorem second_run_is_a_no_op {Vec : Type}
    (w1 w2 : GenerateEmbeddings.World Vec) (entries : list FiqhEntry)
    (collection : gmap str (GenerateEmbeddings.Item Vec)) :
  let first := GenerateEmbeddings.main w1 entries collection in
  let second := GenerateEmbeddings.main w2 entries (GenerateEmbeddings.store first) in
  (forall k, GenerateEmbeddings.outcome first <> GenerateEmbeddings.Stopped k) ->
  GenerateEmbeddings.get_raises w2 = false ->
  (forall entry, entry ∈ entries ->
     e_id entry ∈ GenerateEmbeddings.existing_ids w2 (GenerateEmbeddings.store first)) /\
  GenerateEmbeddings.entries_to_process w2 entries (GenerateEmbeddings.store first) = [] /\
  GenerateEmbeddings.outcome second = GenerateEmbeddings.NothingToDo /\
  GenerateEmbeddings.trace second = [GenerateEmbeddings.GetIds] /\
  GenerateEmbeddings.provider_calls (GenerateEmbeddings.trace second) = [] /\
  GenerateEmbeddings.store_writes (GenerateEmbeddings.trace second) = [] /\
  GenerateEmbeddings.store second = GenerateEmbeddings.store first /\
  size (GenerateEmbeddings.store second) = size (GenerateEmbeddings.store first).
Proof.
  intros first second Hdone Hget.
  assert (Hall : forall entry, entry ∈ entries ->
            e_id entry ∈ dom (GenerateEmbeddings.store first)).
  { intros entry Hin. by apply main_completed_dom. }
  assert (Hnil : GenerateEmbeddings.entries_to_process w2 entries
                   (GenerateEmbeddings.store first) = []).
  { by apply entries_to_process_all_indexed. }
  split.
  { intros entry Hin. unfold GenerateEmbeddings.existing_ids. rewrite Hget. auto. }
  split; [exact Hnil|].
  subst second. rewrite (main_nothing_to_do _ _ _ Hnil). by cbn.
Qed.

Lemma steady_succeeds pending k : batch_succeeds steady pending k.
Proof. split; [done|]. eexists. split; [reflexivity|]. unfold texts_of. by rewrite !length_map. Qed.

Lemma lookup_down_succeeds pending k : batch_succeeds lookup_down pending k.
Proof. split; [done|]. eexists. split; [reflexivity|]. unfold texts_of. by rewrite !length_map. Qed.

Lemma store_down_succeeds_before pending k j :
  j <> k -> batch_succeeds (store_down_at k) pending j.
Proof.
  intros Hne. split; [by apply Nat.eqb_neq|].
  eexists. split; [reflexivity|]. unfold texts_of. by rewrite !length_map.
Qed.

Lemma store_down_fails pending k : batch_fails (store_down_at k) pending k.
Proof. right. eexists. split; [reflexivity|]. left. apply Nat.eqb_refl. Qed.

Lemma entries_to_process_empty_store {Vec : Type} (w : GenerateEmbeddings.World Vec) entries :
  GenerateEmbeddings.entries_to_process w entries ∅ = entries.
Proof.
  apply entries_to_process_no_ids. unfold GenerateEmbeddings.existing_ids.
  destruct (GenerateEmbeddings.get_raises w); [done|apply dom_empty_L].
Qed.

Lemma second_run_is_a_no_op_witness :
  let first := GenerateEmbeddings.main steady (sample_entries 3) ∅ in
  let second := GenerateEmbeddings.main steady (sample_entries 3) (GenerateEmbeddings.store first) in
  GenerateEmbeddings.outcome first = GenerateEmbeddings.Finished /\
  GenerateEmbeddings.provider_calls (GenerateEmbeddings.trace second) = [] /\
  size (GenerateEmbeddings.store second) = size (GenerateEmbeddings.store first).
Proof.
  intros first second.
  assert (Hfirst : GenerateEmbeddings.outcome first = GenerateEmbeddings.Finished).
  { subst first. rewrite main_batches by (rewrite entries_to_process_empty_store; discriminate).
    cbn [GenerateEmbeddings.outcome].
    apply batch_loop_all_succeed. intros. apply steady_succeeds. }
  split; [exact Hfirst|].
  destruct (second_run_is_a_no_op steady steady (sample_entries 3) ∅)
    as (_ & _ & _ & _ & Hcalls & _ & _ & Hcount).
  - intros k. fold first. rewrite Hfirst. discriminate.
  - reflexivity.
  - split; [exact Hcalls|exact Hcount].
Defined.

(** C4: when batch [k] is the first whose provider call or store write
    fails, the run stops in that batch: its trace ends with the failed
    attempt, so the provider is called for the batches up to [k] and for no
    later one; the ids of the batches before [k] are in the store together
    with what was there before; and a later run with a working id lookup
    takes as pending exactly those entries of the first pending list whose
    id is still not in the store. *)
Theorem failing_batch_halts_the_run {Vec : Type}
    (w : GenerateEmbeddings.World Vec) (entries : list FiqhEntry)
    (collection : gmap str (GenerateEmbeddings.Item Vec)) (k : nat) :
  let pending := GenerateEmbeddings.entries_to_process w entries collection in
  let run := GenerateEmbeddings.main w entries collection in
  (k < batch_count pending)%nat ->
  (forall j, (j < k)%nat -> batch_succeeds w pending j) ->
  batch_fails w pending k ->
  GenerateEmbeddings.outcome run = GenerateEmbeddings.Stopped k /\
  (exists attempt,
     failed_attempt pending k attempt /\
     GenerateEmbeddings.trace run
       = [GenerateEmbeddings.GetIds] ++ concat (map (batch_events pending) (seq 0 k))
         ++ attempt ++ [GenerateEmbeddings.Count]) /\
  GenerateEmbeddings.provider_calls (GenerateEmbeddings.trace run)
    = map (fun j => texts_of (batch_of pending j)) (seq 0 (S k)) /\
  dom (GenerateEmbeddings.store run)
    = dom collection ∪ list_to_set (ids_of (take (k * GenerateEmbeddings.BATCH_SIZE) pending)) /\
  (forall w2 : GenerateEmbeddings.World Vec,
     GenerateEmbeddings.get_raises w2 = false ->
     GenerateEmbeddings.entries_to_process w2 entries (GenerateEmbeddings.store run)
       = filter (fun e => e_id e ∉ dom (GenerateEmbeddings.store run)) pending).
Proof.
  intros pending run Hk Hok Hfail.
  assert (Hpending : pending <> []).
  { intros Hnil. rewrite Hnil in Hk. cbn in Hk. lia. }
  destruct (batch_loop_first_failure w pending 0 (batch_count pending) k collection)
    as (Ho & (attempt & Hattempt & Ht) & Hd); [lia|intros; apply Hok; lia|done|].
  rewrite Nat.sub_0_r in Ht, Hd. rewrite concat_batches_before in Hd.
  assert (Hrun : run = {|
            GenerateEmbeddings.outcome := GenerateEmbeddings.Stopped k;
            GenerateEmbeddings.store := GenerateEmbeddings.store run;
            GenerateEmbeddings.trace :=
              [GenerateEmbeddings.GetIds] ++ concat (map (batch_events pending) (seq 0 k))
              ++ attempt ++ [GenerateEmbeddings.Count] |}).
  { subst run. rewrite main_batches by done. cbn zeta. fold pending.
    rewrite Ho, Ht. cbn [GenerateEmbeddings.store]. by rewrite <- (assoc_L (++)). }
  assert (Hstore : dom (GenerateEmbeddings.store run)
            = dom collection ∪
              list_to_set (ids_of (take (k * GenerateEmbeddings.BATCH_SIZE) pending))).
  { subst run. rewrite main_batches by done. exact Hd. }
  split; [by rewrite Hrun|]. split; [exists attempt; split; [done|by rewrite Hrun]|].
  split; [|split; [exact Hstore|]].
  - rewrite Hrun. cbn [GenerateEmbeddings.trace].
    rewrite !provider_calls_app, provider_calls_batches, seq_S, map_app.
    destruct Hattempt as [->| ->]; reflexivity.
  - intros w2 Hget. subst pending.
    unfold GenerateEmbeddings.entries_to_process at 1 2.
    rewrite list_filter_filter. apply list_filter_iff. intros e.
    assert (Hids : GenerateEmbeddings.existing_ids w2 (GenerateEmbeddings.store run)
                   = dom (GenerateEmbeddings.store run))
      by (unfold GenerateEmbeddings.existing_ids; by rewrite Hget).
    rewrite Hids. split; [|tauto].
    intros Hnew. split; [done|]. intros Hex. apply Hnew.
    apply existing_ids_subseteq in Hex. rewrite Hstore. by apply elem_of_union_l.
Qed.

Lemma failing_batch_halts_the_run_witness :
  let pending := GenerateEmbeddings.entries_to_process (store_down_at 1) (sample_entries 150) ∅ in
  let run := GenerateEmbeddings.main (store_down_at 1) (sample_entries 150) ∅ in
  (1 < batch_count pending)%nat /\
  batch_fails (store_down_at 1) pending 1 /\
  GenerateEmbeddings.outcome run = GenerateEmbeddings.Stopped 1 /\
  map length (GenerateEmbeddings.provider_calls (GenerateEmbeddings.trace run)) = [100; 50]%nat /\
  dom (GenerateEmbeddings.store run) = list_to_set (ids_of (sample_entries 100)).
Proof.
  intros pending run.
  assert (Hpending : pending = sample_entries 150) by apply entries_to_process_empty_store.
  assert (Hk : (1 < batch_count pending)%nat) by (rewrite Hpending; vm_compute; lia).
  assert (Hfail : batch_fails (store_down_at 1) pending 1) by apply store_down_fails.
  destruct (failing_batch_halts_the_run (store_down_at 1) (sample_entries 150) ∅ 1 Hk)
    as (Ho & _ & Hcalls & Hdom & _).
  - intros j Hj. apply store_down_succeeds_before. lia.
  - exact Hfail.
  - split; [exact Hk|]. split; [exact Hfail|]. split; [exact Ho|]. split.
    + fold run in Hcalls. rewrite Hcalls. fold pending. rewrite Hpending.
      cbn [seq map]. unfold texts_of. rewrite !length_map, !length_batch_of.
      reflexivity.
    + fold run in Hdom. rewrite Hdom, dom_empty_L, (left_id_L ∅ (∪)).
      fold pending. rewrite Hpending. reflexivity.
Defined.

(** When every batch goes through, the run makes the calls of each batch
    in turn. *)
Lemma main_all_succeed {Vec : Type}
    (w : GenerateEmbeddings.World Vec) (entries : list FiqhEntry)
    (collection : gmap str (GenerateEmbeddings.Item Vec)) :
  let pending := GenerateEmbeddings.entries_to_process w entries collection in
  let run := GenerateEmbeddings.main w entries collection in
  (forall k, (k < batch_count pending)%nat -> batch_succeeds w pending k) ->
  (forall k, GenerateEmbeddings.outcome run <> GenerateEmbeddings.Stopped k) /\
  (pending <> [] ->
   GenerateEmbeddings.trace run
   = [GenerateEmbeddings.GetIds]
     ++ concat (map (batch_events pending) (seq 0 (batch_count pending)))
     ++ [GenerateEmbeddings.Count]) /\
  GenerateEmbeddings.provider_calls (GenerateEmbeddings.trace run)
    = map texts_of (batches pending) /\
  GenerateEmbeddings.store_writes (GenerateEmbeddings.trace run)
    = map ids_of (batches pending).
Proof.
  intros pending run Hok.
  destruct (decide (pending = [])) as [Hnil|Hpending].
  - subst run. rewrite main_nothing_to_do by done. rewrite Hnil.
    split; [done|]. split; [done|]. by split.
  - destruct (batch_loop_all_succeed w pending 0 (batch_count pending) collection)
      as (Ho & Ht & _); [intros; apply Hok; lia|].
    assert (Hrun : run = {|
              GenerateEmbeddings.outcome := GenerateEmbeddings.Finished;
              GenerateEmbeddings.store := GenerateEmbeddings.store run;
              GenerateEmbeddings.trace :=
                [GenerateEmbeddings.GetIds]
                ++ concat (map (batch_events pending) (seq 0 (batch_count pending)))
                ++ [GenerateEmbeddings.Count] |}).
    { subst run. rewrite main_batches by done. cbn zeta. fold pending.
      by rewrite Ho, Ht. }
    split; [by rewrite Hrun|]. split; [by rewrite Hrun|].
    rewrite Hrun. cbn [GenerateEmbeddings.trace].
    rewrite !provider_calls_app, !store_writes_app.
    rewrite provider_calls_batches, store_writes_batches.
    unfold batches. rewrite !map_map. cbn. by rewrite !app_nil_r.
Qed.

(** C5: when every batch goes through, the run makes one provider call and
    one store write per batch, in the order of the batches; the batches are
    the consecutive stretches of at most 100 pending entries, none empty.
    With 250 pending entries these are three provider calls with 100, 100
    and 50 texts, each followed by the write of the same batch. *)
Theorem one_call_per_batch {Vec : Type}
    (w : GenerateEmbeddings.World Vec) (entries : list FiqhEntry)
    (collection : gmap str (GenerateEmbeddings.Item Vec)) :
  let pending := GenerateEmbeddings.entries_to_process w entries collection in
  let run := GenerateEmbeddings.main w entries collection in
  (forall k, (k < batch_count pending)%nat -> batch_succeeds w pending k) ->
  GenerateEmbeddings.provider_calls (GenerateEmbeddings.trace run)
    = map texts_of (batches pending) /\
  GenerateEmbeddings.store_writes (GenerateEmbeddings.trace run)
    = map ids_of (batches pending) /\
  concat (batches pending) = pending /\
  Forall (fun batch => (0 < length batch <= GenerateEmbeddings.BATCH_SIZE)%nat)
    (batches pending) /\
  (length pending = 250%nat ->
   GenerateEmbeddings.trace run
     = [GenerateEmbeddings.GetIds] ++ batch_events pending 0 ++ batch_events pending 1
       ++ batch_events pending 2 ++ [GenerateEmbeddings.Count] /\
   map length (GenerateEmbeddings.provider_calls (GenerateEmbeddings.trace run))
     = [100; 100; 50]%nat /\
   map length (GenerateEmbeddings.store_writes (GenerateEmbeddings.trace run))
     = [100; 100; 50]%nat).
Proof.
  intros pending run Hok.
  destruct (main_all_succeed w entries collection Hok) as (_ & Htrace & Hp & Hs).
  fold pending run in Htrace, Hp, Hs.
  split; [exact Hp|]. split; [exact Hs|]. split; [apply concat_batches|]. split.
  - unfold batches. apply Forall_forall. intros batch Hin.
    apply list_elem_of_fmap in Hin as (k & -> & Hk).
    apply elem_of_seq in Hk. rewrite length_batch_of.
    assert (k * GenerateEmbeddings.BATCH_SIZE < length pending)%nat
      by (apply batch_index_in_range; lia).
    pose proof BATCH_SIZE_pos. lia.
  - intros Hlen.
    assert (Hcount : batch_count pending = 3%nat) by (unfold batch_count; by rewrite Hlen).
    assert (Hpending : pending <> []) by (intros Hnil; by rewrite Hnil in Hlen).
    split.
    + rewrite (Htrace Hpending), Hcount. cbn [seq map concat]. by rewrite app_nil_r, <- !(assoc_L (++)).
    + rewrite Hp, Hs. unfold batches. rewrite Hcount. cbn [seq map].
      unfold texts_of, ids_of. rewrite !length_map, !length_batch_of, Hlen. done.
Qed.

Lemma one_call_per_batch_witness :
  let pending := GenerateEmbeddings.entries_to_process steady (sample_entries 250) ∅ in
  let run := GenerateEmbeddings.main steady (sample_entries 250) ∅ in
  length pending = 250%nat /\
  map length (GenerateEmbeddings.provider_calls (GenerateEmbeddings.trace run))
    = [100; 100; 50]%nat /\
  map length (GenerateEmbeddings.store_writes (GenerateEmbeddings.trace run))
    = [100; 100; 50]%nat.
Proof.
  intros pending run.
  assert (Hlen : length pending = 250%nat).
  { subst pending. rewrite entries_to_process_empty_store. reflexivity. }
  destruct (one_call_per_batch steady (sample_entries 250) ∅) as (_ & _ & _ & _ & H250).
  - intros k _. apply steady_succeeds.
  - destruct (H250 Hlen) as (_ & Hp & Hs). split; [exact Hlen|]. split; [exact Hp|exact Hs].
Defined.

(** *** What the writes leave in the store *)

Section IndexerStore.

Import GenerateEmbeddings.

Context {Vec : Type}.

Implicit Types (w : World Vec) (collection : gmap str (Item Vec))
  (pending entries batch : list FiqhEntry) (k n a : nat).

Abbreviation starts_from a n := (map (fun k => k * BATCH_SIZE)%nat (seq a n)).

Lemma slice_subseteq pending i j : slice pending i j ⊆ pending.
Proof.
  unfold slice. intros e He. apply elem_of_take in He as (n & Hn & _).
  rewrite lookup_drop in Hn. by eapply list_elem_of_lookup_2.
Qed.

Lemma lookup_map {A B : Type} (f : A -> B) (l : list A) (i : nat) :
  map f l !! i = f <$> l !! i.
Proof. exact (list_lookup_fmap f l i). Qed.

Lemma upsert_other collection ids embeddings documents metadatas collection' id :
  upsert collection ids embeddings documents metadatas = Some collection' ->
  id ∉ ids -> collection' !! id = collection !! id.
Proof.
  revert collection embeddings documents metadatas.
  induction ids as [|i ids IH]; intros c [|v vs] [|d ds] [|m ms] Hup Hid;
    try discriminate Hup.
  - by injection Hup as <-.
  - cbn [upsert] in Hup. apply not_elem_of_cons in Hid as [Hne Hid].
    rewrite (IH _ _ _ _ Hup Hid). by rewrite lookup_insert_ne.
Qed.

(** Under every id of a write the store holds, afterwards, the row of one
    of the positions of this id in the write. *)
Lemma upsert_written collection ids embeddings documents metadatas collection' id :
  upsert collection ids embeddings documents metadatas = Some collection' ->
  id ∈ ids ->
  exists i v d m,
    ids !! i = Some id /\ embeddings !! i = Some v /\ documents !! i = Some d /\
    metadatas !! i = Some m /\
    collection' !! id
    = Some {| item_embedding := v; item_document := d; item_metadata := m |}.
Proof.
  revert collection embeddings documents metadatas.
  induction ids as [|i0 ids IH]; intros c [|v vs] [|d ds] [|m ms] Hup Hid;
    try discriminate Hup; [inversion Hid|].
  cbn [upsert] in Hup.
  destruct (decide (id ∈ ids)) as [Hin|Hnotin].
  - destruct (IH _ _ _ _ Hup Hin) as (i & v' & d' & m' & Hi & Hv & Hd & Hm & Hc).
    exists (S i), v', d', m'. repeat split; assumption.
  - apply elem_of_cons in Hid as [->|Hid]; [|contradiction].
    exists 0%nat, v, d, m. repeat split.
    rewrite (upsert_other _ _ _ _ _ _ _ Hup Hnotin). apply lookup_insert_eq.
Qed.

Lemma add_to_chromadb_other w k collection batch embeddings collection' id :
  add_to_chromadb w k collection batch embeddings = Some collection' ->
  id ∉ ids_of batch -> collection' !! id = collection !! id.
Proof.
  unfold add_to_chromadb. destruct (add_raises w k); [discriminate|].
  apply upsert_other.
Qed.

Lemma add_to_chromadb_written w k collection batch embeddings collection' id :
  add_to_chromadb w k collection batch embeddings = Some collection' ->
  id ∈ ids_of batch ->
  exists i written v,
    batch !! i = Some written /\ e_id written = id /\ embeddings !! i = Some v /\
    collection' !! id
    = Some {| item_embedding := v;
              item_document := take 1000 (default [] (e_ruling written));
              item_metadata := metadata_of written |}.
Proof.
  unfold add_to_chromadb. destruct (add_raises w k); [discriminate|].
  cbn zeta. intros Hup Hid.
  destruct (upsert_written _ _ _ _ _ _ _ Hup Hid)
    as (i & v & d & m & Hi & Hv & Hd & Hm & Hc).
  rewrite lookup_map in Hi. rewrite lookup_map in Hd. rewrite lookup_map in Hm.
  destruct (batch !! i) as [written|] eqn:Hw; [|discriminate Hi].
  injection Hi as Hi. injection Hd as <-. injection Hm as <-.
  exists i, written, v. repeat split; assumption.
Qed.

(** An id outside the pending list keeps what the store held under it. *)
Lemma batch_loop_other w pending starts collection id :
  id ∉ ids_of pending ->
  store (batch_loop w pending starts collection) !! id = collection !! id.
Proof.
  intros Hid. revert collection.
  induction starts as [|i later IH]; intros collection; [done|].
  cbn [batch_loop].
  destruct (embeddings_create w _ _) as [embeddings|]; [|done].
  destruct (add_to_chromadb w _ collection _ embeddings) as [collection'|] eqn:Hadd; [|done].
  cbn [store]. rewrite IH. eapply add_to_chromadb_other; [exact Hadd|].
  intros Hin. apply Hid. unfold ids_of in *.
  apply list_elem_of_fmap in Hin as (e & -> & He). apply list_elem_of_fmap.
  exists e. split; [done|]. by eapply slice_subseteq.
Qed.

(** When the batches go through, an id of one of them is in the store with
    what the last write of it put there, and so is an id that an earlier
    write of the run left and no batch holds. *)
Lemma batch_loop_written w pending a n collection id :
  (forall k, (a <= k < a + n)%nat -> batch_succeeds w pending k) ->
  id ∈ ids_of (concat (map (batch_of pending) (seq a n)))
  \/ written_in_run w pending collection id ->
  written_in_run w pending (store (batch_loop w pending (starts_from a n) collection)) id.
Proof.
  revert a collection. induction n as [|n IH]; intros a collection Hok Hid.
  - cbn in *. destruct Hid as [Hid|Hid]; [inversion Hid|exact Hid].
  - cbn [seq map concat] in *. rewrite batch_loop_cons.
    destruct (Hok a) as (Hadd & embeddings & Hembed & Hlen); [lia|].
    destruct (add_to_chromadb_ok w a collection _ _ Hadd Hlen) as [collection' Hc].
    rewrite Hembed, Hc. cbn [store].
    apply IH; [intros; apply Hok; lia|].
    destruct (decide (id ∈ ids_of (batch_of pending a))) as [Hin|Hnotin].
    + right.
      destruct (add_to_chromadb_written _ _ _ _ _ _ _ Hc Hin)
        as (i & written & v & Hw & Hwid & Hv & Hitem).
      exists a, i, written, v, embeddings. repeat split; assumption.
    + destruct Hid as [Hid|Hid].
      * left. unfold ids_of in *. rewrite map_app in Hid.
        apply elem_of_app in Hid as [Hid|Hid]; [contradiction|exact Hid].
      * right. destruct Hid as (k & i & written & v & embs & Hw & Hwid & Hemb & Hv & Hitem).
        exists k, i, written, v, embs. repeat split; try assumption.
        rewrite (add_to_chromadb_other _ _ _ _ _ _ _ Hc Hnotin). exact Hitem.
Qed.

(** When every batch goes through, the store holds at the end the ids it
    held and those of the pending entries; every pending id is there with
    what the run wrote, and the other ids with what they had. *)
Lemma main_store_all_succeed w entries collection :
  let pending := entries_to_process w entries collection in
  let run := main w entries collection in
  (forall k, (k < batch_count pending)%nat -> batch_succeeds w pending k) ->
  dom (store run) = dom collection ∪ list_to_set (ids_of pending) /\
  (forall entry, entry ∈ pending -> written_in_run w pending (store run) (e_id entry)) /\
  (forall id, id ∉ ids_of pending -> store run !! id = collection !! id).
Proof.
  intros pending run Hok.
  destruct (decide (pending = [])) as [Hnil|Hpending].
  - subst run. rewrite main_nothing_to_do by done. rewrite Hnil. cbn [store].
    split; [cbn; by rewrite (right_id_L ∅ (∪))|]. split; [|done].
    intros entry Hin. inversion Hin.
  - subst run. rewrite main_batches by done. cbn zeta. fold pending. cbn [store].
    split; [|split].
    + destruct (batch_loop_all_succeed w pending 0 (batch_count pending) collection)
        as (_ & _ & Hd); [intros; apply Hok; lia|].
      rewrite Hd. fold (batches pending). by rewrite concat_batches.
    + intros entry Hin. apply batch_loop_written; [intros; apply Hok; lia|].
      left. fold (batches pending). rewrite concat_batches.
      unfold ids_of. apply list_elem_of_fmap. eauto.
    + intros id Hid. by apply batch_loop_other.
Qed.

End IndexerStore.

(** C10: when the lookup of the existing ids raises, the run goes on with
    an empty set of existing ids, so every entry of the database is
    pending; if the batches then go through, the run is not stopped and
    every entry, also one whose id is in the store already, is embedded
    and written again: its text is in a provider call and its id in a
    write; at the end the store holds the ids it held and those of all
    entries; under the id of every entry it holds what this run wrote, the
    vector the provider returned in this run with the ruling and the
    metadata of an entry with this id, whatever it held there before; and
    only the ids of no entry keep what they had. *)
Theorem failed_lookup_reprocesses_everything {Vec : Type}
    (w : GenerateEmbeddings.World Vec) (entries : list FiqhEntry)
    (collection : gmap str (GenerateEmbeddings.Item Vec)) :
  let run := GenerateEmbeddings.main w entries collection in
  GenerateEmbeddings.get_raises w = true ->
  GenerateEmbeddings.existing_ids w collection = ∅ /\
  GenerateEmbeddings.entries_to_process w entries collection = entries /\
  ((forall k, (k < batch_count entries)%nat -> batch_succeeds w entries k) ->
   (forall k, GenerateEmbeddings.outcome run <> GenerateEmbeddings.Stopped k) /\
   concat (GenerateEmbeddings.provider_calls (GenerateEmbeddings.trace run)) = texts_of entries /\
   concat (GenerateEmbeddings.store_writes (GenerateEmbeddings.trace run)) = ids_of entries /\
   (forall entry, entry ∈ entries -> e_id entry ∈ dom collection ->
      GenerateEmbeddings.create_embedding_text entry
        ∈ concat (GenerateEmbeddings.provider_calls (GenerateEmbeddings.trace run)) /\
      e_id entry ∈ concat (GenerateEmbeddings.store_writes (GenerateEmbeddings.trace run))) /\
   dom (GenerateEmbeddings.store run) = dom collection ∪ list_to_set (ids_of entries) /\
   (forall entry, entry ∈ entries ->
      written_in_run w entries (GenerateEmbeddings.store run) (e_id entry)) /\
   (forall id, id ∉ ids_of entries ->
      GenerateEmbeddings.store run !! id = collection !! id)).
Proof.
  intros run Hget.
  assert (Hempty : GenerateEmbeddings.existing_ids w collection = ∅)
    by (unfold GenerateEmbeddings.existing_ids; by rewrite Hget).
  assert (Hall : GenerateEmbeddings.entries_to_process w entries collection = entries)
    by by apply entries_to_process_no_ids.
  split; [exact Hempty|]. split; [exact Hall|]. intros Hok.
  destruct (main_all_succeed w entries collection) as (Hdone & _ & Hp & Hs).
  { by rewrite Hall. }
  fold run in Hdone, Hp, Hs. rewrite Hall in Hp, Hs.
  pose proof (concat_batches entries) as Hc.
  assert (Hp' : concat (GenerateEmbeddings.provider_calls (GenerateEmbeddings.trace run))
                = texts_of entries).
  { rewrite Hp. unfold texts_of. by rewrite <- concat_map, Hc. }
  assert (Hs' : concat (GenerateEmbeddings.store_writes (GenerateEmbeddings.trace run))
                = ids_of entries).
  { rewrite Hs. unfold ids_of. by rewrite <- concat_map, Hc. }
  destruct (main_store_all_succeed w entries collection) as (Hdom & Hwritten & Hother).
  { by rewrite Hall. }
  fold run in Hdom, Hwritten, Hother. rewrite Hall in Hdom, Hwritten, Hother.
  split; [|split; [exact Hp'|split; [exact Hs'|split]]].
  - exact Hdone.
  - intros entry Hin _. rewrite Hp', Hs'. split; apply list_elem_of_fmap; eauto.
  - split; [exact Hdom|]. split; [exact Hwritten|exact Hother].
Qed.

Lemma failed_lookup_reprocesses_everything_witness :
  let run := GenerateEmbeddings.main lookup_down (sample_entries 3) stale_indexed in
  e_id (sample_entry 0) ∈ dom stale_indexed /\
  GenerateEmbeddings.entries_to_process lookup_down (sample_entries 3) stale_indexed
    = sample_entries 3 /\
  concat (GenerateEmbeddings.store_writes (GenerateEmbeddings.trace run))
    = ids_of (sample_entries 3) /\
  e_id (sample_entry 0)
    ∈ concat (GenerateEmbeddings.store_writes (GenerateEmbeddings.trace run)) /\
  dom (GenerateEmbeddings.store run) = list_to_set (ids_of (sample_entries 3)) /\
  GenerateEmbeddings.store run !! e_id (sample_entry 0)
  = Some {| GenerateEmbeddings.item_embedding := tt;
            GenerateEmbeddings.item_document := py "Actions are judged by intentions.";
            GenerateEmbeddings.item_metadata :=
              GenerateEmbeddings.metadata_of (sample_entry 0) |} /\
  GenerateEmbeddings.store run !! e_id (sample_entry 0)
  <> stale_indexed !! e_id (sample_entry 0).
Proof.
  intros run.
  assert (Hin : e_id (sample_entry 0) ∈ dom stale_indexed).
  { unfold stale_indexed. rewrite dom_singleton_L. by apply elem_of_singleton. }
  destruct (failed_lookup_reprocesses_everything lookup_down (sample_entries 3) stale_indexed)
    as (_ & Hall & Hrest); [reflexivity|].
  destruct Hrest as (_ & _ & Hwrites & Hagain & Hdom & Hwritten & _);
    [intros; apply lookup_down_succeeds|].
  fold run in Hwrites, Hagain, Hdom, Hwritten.
  assert (Hitem : GenerateEmbeddings.store run !! e_id (sample_entry 0)
            = Some {| GenerateEmbeddings.item_embedding := tt;
                      GenerateEmbeddings.item_document := py "Actions are judged by intentions.";
                      GenerateEmbeddings.item_metadata :=
                        GenerateEmbeddings.metadata_of (sample_entry 0) |}).
  { destruct (Hwritten (sample_entry 0)) as (k & i & written & v & embs & Hw & _ & _ & _ & Hitem);
      [by left|].
    rewrite Hitem. destruct v.
    apply list_elem_of_lookup_2, slice_subseteq, list_elem_of_fmap in Hw as (n & -> & _).
    reflexivity. }
  split; [exact Hin|]. split; [exact Hall|]. split; [exact Hwrites|].
  split; [apply (Hagain (sample_entry 0)); [by left|exact Hin]|].
  split.
  { rewrite Hdom. apply (anti_symm (⊆)); [|apply union_subseteq_r].
    apply union_least; [|done]. unfold stale_indexed. rewrite dom_singleton_L.
    apply singleton_subseteq_l, elem_of_list_to_set. by left. }
  split; [exact Hitem|].
  rewrite Hitem. unfold stale_indexed. rewrite lookup_singleton_eq.
  intros Heq. injection Heq as Hdoc _. vm_compute in Hdoc. discriminate Hdoc.
Defined.

(** * Further properties of the scripts *)

(** ** [clean_text] of process_texts.py *)

Section CleanTextMore.

Implicit Types (s x old new : str) (c : N).

Lemma rstrip_last s c : last (rstrip s) = Some c -> isspace c = false.
Proof.
  induction s as [|a s IH]; [done|]. rewrite rstrip_cons.
  destruct (rstrip s) as [|d kept] eqn:E.
  - destruct (isspace a) eqn:Ea; [done|]. cbn. congruence.
  - intros Hl. apply IH. exact Hl.
Qed.

Lemma strip_ends s c :
  head (strip s) = Some c \/ last (strip s) = Some c -> isspace c = false.
Proof.
  unfold strip. intros [Hh|Hl].
  - destruct (rstrip_head (lstrip s)) as [Hn|He]; [congruence|].
    rewrite He in Hh. by apply lstrip_head in Hh.
  - by apply rstrip_last in Hl.
Qed.

Lemma blank_elem s c : forallb isspace s = true -> c ∈ s -> isspace c = true.
Proof.
  intros Hall Hin. rewrite forallb_forall in Hall. apply Hall. by apply list_elem_of_In.
Qed.

Lemma lstrip_blank s : forallb isspace s = true -> lstrip s = [].
Proof.
  induction s as [|a s IH]; [done|]. cbn. intros [Ha Hs]%andb_prop. rewrite Ha. auto.
Qed.

Lemma sub_spaces_blank b s :
  forallb isspace s = true -> forallb isspace (sub_spaces_from b s) = true.
Proof.
  intros Hall. apply forallb_forall. intros c Hc. apply list_elem_of_In in Hc.
  apply sub_spaces_from_elem in Hc as [Hc| ->]; [by eapply blank_elem|done].
Qed.

Lemma blank_plain s : forallb isspace s = true -> plain s.
Proof.
  intros Hall. repeat split; intros Hin; apply (blank_elem _ _ Hall) in Hin; discriminate Hin.
Qed.

Lemma clean_text_blank x : forallb isspace x = true -> clean_text x = [].
Proof.
  intros Hall. rewrite clean_text_plain by by apply blank_plain.
  unfold strip, sub_spaces. by rewrite lstrip_blank by by apply sub_spaces_blank.
Qed.

(** *** Lengths *)

Lemma startswith_length old s : startswith old s = true -> (length old <= length s)%nat.
Proof.
  revert s. induction old as [|a old IH]; intros [|b s] Hp; cbn in *; try lia; try done.
  apply andb_prop in Hp as [_ Hp]. apply IH in Hp. lia.
Qed.

Lemma replace_from_length old new skip s :
  (length new <= length old)%nat -> (skip <= length s)%nat ->
  (length (replace_from old new skip s) + skip <= length s)%nat.
Proof.
  intros Hnew. revert skip. induction s as [|c s IH]; intros skip Hskip.
  - cbn in *. lia.
  - cbn [replace_from]. destruct skip as [|k].
    + destruct (startswith old (c :: s)) eqn:Hp.
      * apply startswith_length in Hp. cbn [length] in *.
        rewrite length_app. specialize (IH (length old - 1)%nat). lia.
      * cbn [length]. specialize (IH 0%nat). lia.
    + cbn [length] in *. specialize (IH k). lia.
Qed.

Lemma replace_length old new s :
  (length new <= length old)%nat -> (length (replace old new s) <= length s)%nat.
Proof.
  intros Hnew. destruct old as [|a old].
  - destruct new; [|cbn in Hnew; lia]. cbn.
    induction s as [|c s IH]; cbn; lia.
  - pose proof (replace_from_length (a :: old) new 0 s Hnew). unfold replace. lia.
Qed.

Lemma sub_spaces_from_length b s : (length (sub_spaces_from b s) <= length s)%nat.
Proof.
  revert b. induction s as [|c s IH]; intros b; [done|]. cbn [sub_spaces_from].
  pose proof (IH true). pose proof (IH false).
  destruct (isspace c); [destruct b|]; cbn [length]; lia.
Qed.

Lemma sub_tags_from_length b s : (length (sub_tags_from b s) <= length s)%nat.
Proof.
  revert b. induction s as [|c s IH]; intros b; [done|]. cbn [sub_tags_from].
  pose proof (IH true). pose proof (IH false).
  destruct b; [destruct (c =? 62)|destruct ((c =? 60) && tag_opens s)]; cbn [length]; lia.
Qed.

Lemma lstrip_length s : (length (lstrip s) <= length s)%nat.
Proof. induction s as [|c s IH]; [done|]. cbn. destruct (isspace c); cbn; lia. Qed.

Lemma rstrip_length s : (length (rstrip s) <= length s)%nat.
Proof.
  induction s as [|c s IH]; [done|]. rewrite rstrip_cons.
  destruct (rstrip s); [destruct (isspace c)|]; cbn in *; lia.
Qed.

Lemma strip_length s : (length (strip s) <= length s)%nat.
Proof. unfold strip. pose proof (rstrip_length (lstrip s)). pose proof (lstrip_length s). lia. Qed.

Lemma clean_text_length x : (length (clean_text x) <= length x)%nat.
Proof.
  destruct x as [|a x]; [done|]. unfold clean_text.
  repeat first
    [ etrans; [apply strip_length|]
    | etrans; [apply replace_length; vm_compute; lia|]
    | etrans; [apply sub_tags_from_length|] ].
  apply sub_spaces_from_length.
Qed.

End CleanTextMore.

(** X1: whatever the input, the text [clean_text] returns neither starts nor
    ends with a whitespace character. *)
Theorem clean_text_has_no_outer_whitespace (x : str) (c : N) :
  head (clean_text x) = Some c \/ last (clean_text x) = Some c -> isspace c = false.
Proof.
  destruct x as [|a x]; [by intros [?|?]|]. unfold clean_text. apply strip_ends.
Qed.

Lemma clean_text_has_no_outer_whitespace_witness :
  head (clean_text (py " <b> x </b> ")) = Some 120 /\ isspace 120 = false.
Proof.
  split; [reflexivity|].
  apply (clean_text_has_no_outer_whitespace (py " <b> x </b> ") 120). left. reflexivity.
Defined.

(** X2: a record whose ruling is missing, empty or made of whitespace only
    is cleaned to the empty text and is skipped by both file processors. *)
Theorem blank_rulings_are_skipped `{Unicode} (extract : str -> list str)
    (fresh : str) (record : RawRecord) :
  forallb isspace (default [] (raw_ruling record)) = true ->
  clean_text (default [] (raw_ruling record)) = [] /\
  process_hadith extract fresh record = None /\
  process_fatwa extract fresh record = None.
Proof.
  intros Hblank. pose proof (clean_text_blank _ Hblank) as Hclean.
  split; [exact Hclean|]. split.
  - apply process_hadith_short. rewrite Hclean. cbn. lia.
  - apply process_fatwa_short. rewrite Hclean. cbn. lia.
Qed.

Lemma blank_rulings_are_skipped_witness :
  process_hadith no_citations [] (only_ruling [32; 10; 9; 160; 8195]) = None /\
  process_fatwa no_citations [] (only_ruling []) = None.
Proof.
  split.
  - apply (blank_rulings_are_skipped no_citations [] (only_ruling [32; 10; 9; 160; 8195])).
    reflexivity.
  - apply (blank_rulings_are_skipped no_citations [] (only_ruling [])). reflexivity.
Defined.

(** X3: [clean_text] never makes a text longer, so a record whose raw ruling
    is already shorter than the minimum of its type (20 characters for a
    hadith, 50 for a fatwa) is skipped whatever it contains. *)
Theorem short_raw_rulings_are_skipped `{Unicode} (extract : str -> list str)
    (fresh : str) (record : RawRecord) :
  (length (clean_text (default [] (raw_ruling record)))
   <= length (default [] (raw_ruling record)))%nat /\
  ((length (default [] (raw_ruling record)) < 20)%nat ->
   process_hadith extract fresh record = None) /\
  ((length (default [] (raw_ruling record)) < 50)%nat ->
   process_fatwa extract fresh record = None).
Proof.
  pose proof (clean_text_length (default [] (raw_ruling record))) as Hlen.
  split; [exact Hlen|]. split; intros Hshort.
  - apply process_hadith_short. lia.
  - apply process_fatwa_short. lia.
Qed.

Lemma short_raw_rulings_are_skipped_witness :
  process_hadith no_citations [] (only_ruling (py "&lt;p&gt;Pray.&lt;/p&gt;")) = None /\
  process_fatwa no_citations [] (only_ruling (py "It is permissible, and Allah knows best.")) = None.
Proof.
  split.
  - apply (short_raw_rulings_are_skipped no_citations []
             (only_ruling (py "&lt;p&gt;Pray.&lt;/p&gt;"))).
    vm_compute. lia.
  - apply (short_raw_rulings_are_skipped no_citations []
             (only_ruling (py "It is permissible, and Allah knows best."))).
    vm_compute. lia.
Defined.

(** ** [clean_text] of convert_islamqa.py *)

Lemma islamqa_clean_text_strip x : ConvertIslamqa.clean_text x = strip (sub_spaces x).
Proof. by destruct x. Qed.

Lemma islamqa_clean_text_tidy x : tidy false (ConvertIslamqa.clean_text x) = true.
Proof. rewrite islamqa_clean_text_strip. apply tidy_strip, sub_spaces_from_tidy. Qed.

Lemma islamqa_clean_text_idem x :
  ConvertIslamqa.clean_text (ConvertIslamqa.clean_text x) = ConvertIslamqa.clean_text x.
Proof.
  rewrite (islamqa_clean_text_strip (ConvertIslamqa.clean_text x)).
  unfold sub_spaces. rewrite tidy_sub_spaces_from by apply islamqa_clean_text_tidy.
  rewrite islamqa_clean_text_strip. apply strip_idem.
Qed.

(** X4: the converter's own [clean_text] is idempotent on every string, and
    a text it has cleaned that holds no ampersand, no '<' and no double
    quote is left as it is by the [clean_text] of process_texts.py. *)
Theorem islamqa_clean_text_is_stable (x : str) :
  ConvertIslamqa.clean_text (ConvertIslamqa.clean_text x) = ConvertIslamqa.clean_text x /\
  (plain x -> clean_text (ConvertIslamqa.clean_text x) = ConvertIslamqa.clean_text x).
Proof.
  split; [apply islamqa_clean_text_idem|]. intros Hx.
  rewrite islamqa_clean_text_strip.
  rewrite clean_text_plain by by apply plain_strip, plain_sub_spaces.
  unfold sub_spaces at 1. rewrite tidy_sub_spaces_from by apply tidy_strip, sub_spaces_from_tidy.
  apply strip_idem.
Qed.

Lemma islamqa_clean_text_is_stable_witness :
  ConvertIslamqa.clean_text (py "  wudu   is  required ") = py "wudu is required" /\
  clean_text (ConvertIslamqa.clean_text (py "  wudu   is  required "))
  = ConvertIslamqa.clean_text (py "  wudu   is  required ").
Proof.
  split; [reflexivity|].
  apply (islamqa_clean_text_is_stable (py "  wudu   is  required ")).
  repeat split; absent.
Defined.

(** ** Topic names *)

Lemma dict_get_elem {V : Type} (d : list (str * V)) (key : str) (v : V) :
  dict_get d key = Some v -> (key, v) ∈ d.
Proof.
  unfold dict_get. destruct (List.find _ d) as [[k v']|] eqn:Hfind; [|done].
  intros [= <-]. apply find_some in Hfind as [Hin Hk].
  apply bool_decide_eq_true in Hk. cbn in Hk. subst k. by apply list_elem_of_In.
Qed.

Lemma normalizations_values :
  Forall (fun item : str * str =>
            dict_get normalizations item.2 = None /\
            forallb is_ascii item.2 = true /\
            strip (map ascii_lower item.2) = item.2)
         normalizations.
Proof. repeat constructor. Qed.

(** X5: [normalize_topic] never returns one of the variant spellings it
    knows: its result is not a key of the mapping, whatever the tag. *)
Theorem normalize_topic_leaves_no_variant `{Unicode} (tag : str) :
  dict_get normalizations (normalize_topic tag) = None.
Proof.
  unfold normalize_topic.
  destruct (dict_get normalizations (strip (lower tag))) as [canonical|] eqn:Hget; [|done].
  apply dict_get_elem in Hget. cbn.
  pose proof normalizations_values as Hvalues. rewrite Forall_forall in Hvalues.
  destruct (Hvalues _ Hget) as [Hnone _]. exact Hnone.
Qed.

Section AsciiTags.

Lemma isspace_printable c : 33 <= c <= 132 -> isspace c = false.
Proof.
  intros Hc. unfold isspace.
  repeat match goal with
         | |- context [?a <=? ?b] =>
             first [rewrite (proj2 (N.leb_gt a b)) by lia
                   |rewrite (proj2 (N.leb_le a b)) by lia]
         | |- context [?a =? ?b] => rewrite (proj2 (N.eqb_neq a b)) by lia
         end.
  reflexivity.
Qed.

Lemma isspace_ascii_lower c : isspace (ascii_lower c) = isspace c.
Proof.
  unfold ascii_lower. destruct ((65 <=? c) && (c <=? 90)) eqn:Hup; [|done].
  apply andb_prop in Hup as [H1 H2]. apply N.leb_le in H1, H2.
  rewrite !isspace_printable by lia. done.
Qed.

Lemma ascii_lower_idem c : ascii_lower (ascii_lower c) = ascii_lower c.
Proof.
  unfold ascii_lower. destruct ((65 <=? c) && (c <=? 90)) eqn:Hup; [|by rewrite Hup].
  apply andb_prop in Hup as [H1 H2]. apply N.leb_le in H1, H2.
  destruct (N.leb_spec 65 (c + 32)); destruct (N.leb_spec (c + 32) 90); cbn; lia.
Qed.

Lemma is_ascii_lower c : is_ascii (ascii_lower c) = is_ascii c.
Proof.
  unfold ascii_lower, is_ascii. destruct ((65 <=? c) && (c <=? 90)) eqn:Hup; [|done].
  apply andb_prop in Hup as [H1 H2]. apply N.leb_le in H1, H2.
  destruct (N.ltb_spec (c + 32) 128); destruct (N.ltb_spec c 128); lia || reflexivity.
Qed.

Lemma lstrip_lower (s : str) : lstrip (map ascii_lower s) = map ascii_lower (lstrip s).
Proof.
  induction s as [|c s IH]; [done|]. cbn. rewrite isspace_ascii_lower.
  by destruct (isspace c).
Qed.

Lemma rstrip_lower (s : str) : rstrip (map ascii_lower s) = map ascii_lower (rstrip s).
Proof.
  induction s as [|c s IH]; [done|]. cbn [map]. rewrite !rstrip_cons, IH, isspace_ascii_lower.
  destruct (rstrip s); [by destruct (isspace c)|done].
Qed.

Lemma strip_lower (s : str) : strip (map ascii_lower s) = map ascii_lower (strip s).
Proof. unfold strip. by rewrite lstrip_lower, rstrip_lower. Qed.

Lemma map_ascii_lower_idem (s : str) :
  map ascii_lower (map ascii_lower s) = map ascii_lower s.
Proof. rewrite map_map. apply map_ext. intros c. apply ascii_lower_idem. Qed.

Lemma forallb_is_ascii_lower (s : str) :
  forallb is_ascii s = true -> forallb is_ascii (map ascii_lower s) = true.
Proof.
  induction s as [|c s IH]; [done|]. cbn. intros [Hc Hs]%andb_prop.
  by rewrite is_ascii_lower, Hc, IH.
Qed.

Lemma forallb_sub (P : N -> bool) (s t : str) :
  (forall c, c ∈ t -> c ∈ s) -> forallb P s = true -> forallb P t = true.
Proof.
  intros Hsub Hs. rewrite forallb_forall in *. intros c Hc.
  apply Hs, list_elem_of_In, Hsub, list_elem_of_In, Hc.
Qed.

End AsciiTags.

(** X6: on a tag of ASCII characters [normalize_topic] is idempotent:
    normalising its result again changes nothing. *)
Theorem normalize_topic_idempotent_on_ascii `{Unicode} (tag : str) :
  forallb is_ascii tag = true ->
  normalize_topic (normalize_topic tag) = normalize_topic tag.
Proof.
  intros Hascii.
  set (u := strip (map ascii_lower tag)).
  assert (Hn : normalize_topic tag = default u (dict_get normalizations u)).
  { unfold normalize_topic. by rewrite (lower_literal tag Hascii). }
  assert (Hu : forallb is_ascii u = true).
  { apply (forallb_sub _ (map ascii_lower tag)); [apply strip_elem|].
    by apply forallb_is_ascii_lower. }
  assert (Hfix : strip (map ascii_lower u) = u).
  { subst u. by rewrite strip_lower, strip_idem, <- strip_lower, map_ascii_lower_idem. }
  rewrite Hn.
  destruct (dict_get normalizations u) as [canonical|] eqn:Hget; cbn [default from_option id].
  - apply dict_get_elem in Hget.
    pose proof normalizations_values as Hvalues. rewrite Forall_forall in Hvalues.
    destruct (Hvalues _ Hget) as (Hnone & Hca & Hcfix). cbn [snd] in *.
    unfold normalize_topic. rewrite (lower_literal canonical Hca), Hcfix, Hnone. reflexivity.
  - unfold normalize_topic. rewrite (lower_literal u Hu), Hfix, Hget. reflexivity.
Qed.

Lemma normalize_topic_idempotent_on_ascii_witness :
  normalize_topic (py "  Salaah ") = py "prayer" /\
  normalize_topic (normalize_topic (py "  Salaah ")) = normalize_topic (py "  Salaah ").
Proof.
  split; [reflexivity|].
  apply (normalize_topic_idempotent_on_ascii (py "  Salaah ")). reflexivity.
Defined.

(** ** The classifiers *)

Lemma matching_topics_sublist topic_keywords text :
  matching_topics topic_keywords text `sublist_of` topic_names topic_keywords.
Proof.
  induction topic_keywords as [|[topic keywords] table IH]; [constructor|].
  cbn [matching_topics topic_names map fst].
  destruct (existsb _ keywords); by constructor.
Qed.

Lemma chapter_topic_names_NoDup : NoDup (py "general" :: topic_names ConvertHadith.topic_keywords).
Proof. apply (bool_decide_unpack _). vm_compute. exact I. Qed.

Lemma title_topic_names_NoDup : NoDup (py "general" :: topic_names ConvertIslamqa.topic_keywords).
Proof. apply (bool_decide_unpack _). vm_compute. exact I. Qed.

Lemma chapter_topics_shape `{Unicode} (text : str) :
  ConvertHadith.extract_topics_from_chapter text = [py "general"] \/
  ConvertHadith.extract_topics_from_chapter text
    `sublist_of` topic_names ConvertHadith.topic_keywords.
Proof.
  unfold ConvertHadith.extract_topics_from_chapter.
  destruct text; [by left|].
  destruct (matching_topics ConvertHadith.topic_keywords _) eqn:Hm; [by left|].
  right. rewrite <- Hm. apply matching_topics_sublist.
Qed.

Lemma title_topics_shape `{Unicode} (text : str) :
  ConvertIslamqa.extract_topics_from_title text = [py "general"] \/
  ConvertIslamqa.extract_topics_from_title text
    `sublist_of` topic_names ConvertIslamqa.topic_keywords.
Proof.
  unfold ConvertIslamqa.extract_topics_from_title.
  destruct text; [by left|].
  destruct (matching_topics ConvertIslamqa.topic_keywords _) eqn:Hm; [by left|].
  right. rewrite <- Hm. apply matching_topics_sublist.
Qed.

(** X7: a classifier returns either exactly ["general"] or a selection of
    the topic names of its table, in the order of the table;
    in both cases no topic occurs twice and "general" never stands beside
    another topic. *)
Theorem classifier_topics_are_distinct `{Unicode} (text : str) :
  let chapter_topics := ConvertHadith.extract_topics_from_chapter text in
  let title_topics := ConvertIslamqa.extract_topics_from_title text in
  (chapter_topics = [py "general"] \/
   chapter_topics `sublist_of` topic_names ConvertHadith.topic_keywords) /\
  (title_topics = [py "general"] \/
   title_topics `sublist_of` topic_names ConvertIslamqa.topic_keywords) /\
  NoDup chapter_topics /\ NoDup title_topics /\
  (py "general" ∈ chapter_topics -> chapter_topics = [py "general"]) /\
  (py "general" ∈ title_topics -> title_topics = [py "general"]).
Proof.
  intros chapter_topics title_topics.
  pose proof (chapter_topics_shape text) as Hc. pose proof (title_topics_shape text) as Ht.
  fold chapter_topics in Hc. fold title_topics in Ht.
  pose proof chapter_topic_names_NoDup as Hcn. pose proof title_topic_names_NoDup as Htn.
  apply NoDup_cons in Hcn as [Hcg Hcn]. apply NoDup_cons in Htn as [Htg Htn].
  split; [exact Hc|]. split; [exact Ht|]. split; [|split; [|split]].
  - destruct Hc as [->|Hc]; [apply NoDup_singleton|exact (sublist_NoDup _ _ Hcn Hc)].
  - destruct Ht as [->|Ht]; [apply NoDup_singleton|exact (sublist_NoDup _ _ Htn Ht)].
  - intros Hin. destruct Hc as [Hc|Hc]; [exact Hc|].
    destruct Hcg. exact (sublist_subseteq _ _ Hc _ Hin).
  - intros Hin. destruct Ht as [Ht|Ht]; [exact Ht|].
    destruct Htg. exact (sublist_subseteq _ _ Ht _ Hin).
Qed.

Lemma classifier_topics_are_distinct_witness :
  ConvertHadith.extract_topics_from_chapter (py "Fasting and Charity in Ramadan")
  = [py "fasting"; py "zakat"] /\
  NoDup (ConvertHadith.extract_topics_from_chapter (py "Fasting and Charity in Ramadan")).
Proof.
  split; [reflexivity|].
  destruct (classifier_topics_are_distinct (py "Fasting and Charity in Ramadan"))
    as (_ & _ & Hnodup & _).
  exact Hnodup.
Defined.

Lemma processed_names :
  Forall (fun topic : str =>
            forallb is_ascii topic = true /\
            default (strip (map ascii_lower topic))
              (dict_get normalizations (strip (map ascii_lower topic)))
            = processed_name topic)
    (py "general" :: topic_names ConvertHadith.topic_keywords
       ++ topic_names ConvertIslamqa.topic_keywords).
Proof. repeat constructor. Qed.

Lemma normalize_classifier_topic `{Unicode} (topic : str) :
  topic ∈ py "general" :: topic_names ConvertHadith.topic_keywords
            ++ topic_names ConvertIslamqa.topic_keywords ->
  normalize_topic topic = processed_name topic.
Proof.
  intros Hin. pose proof processed_names as Hall. rewrite Forall_forall in Hall.
  destruct (Hall _ Hin) as [Ha Hn]. unfold normalize_topic.
  by rewrite (lower_literal topic Ha).
Qed.

Lemma chapter_topics_processed `{Unicode} (text : str) :
  map normalize_topic (ConvertHadith.extract_topics_from_chapter text)
  = map processed_name (ConvertHadith.extract_topics_from_chapter text).
Proof.
  apply map_ext_in. intros topic Hin. apply list_elem_of_In in Hin.
  apply normalize_classifier_topic.
  destruct (chapter_topics_shape text) as [Hc|Hc].
  - rewrite Hc in Hin. apply list_elem_of_singleton in Hin as ->. by left.
  - right. apply elem_of_app. left. exact (sublist_subseteq _ _ Hc _ Hin).
Qed.

Lemma title_topics_processed `{Unicode} (text : str) :
  map normalize_topic (ConvertIslamqa.extract_topics_from_title text)
  = map processed_name (ConvertIslamqa.extract_topics_from_title text).
Proof.
  apply map_ext_in. intros topic Hin. apply list_elem_of_In in Hin.
  apply normalize_classifier_topic.
  destruct (title_topics_shape text) as [Hc|Hc].
  - rewrite Hc in Hin. apply list_elem_of_singleton in Hin as ->. by left.
  - right. apply elem_of_app. right. exact (sublist_subseteq _ _ Hc _ Hin).
Qed.

(** X8: of the topics the two classifiers can return, [normalize_topic]
    changes only "hajj", which it turns into "pilgrimage"; so the topics a
    converted entry has in the processed corpus are the classifier's, with
    that one renamed. *)
Theorem classifier_topics_after_processing `{Unicode} (text : str) :
  map normalize_topic (ConvertHadith.extract_topics_from_chapter text)
  = map processed_name (ConvertHadith.extract_topics_from_chapter text) /\
  map normalize_topic (ConvertIslamqa.extract_topics_from_title text)
  = map processed_name (ConvertIslamqa.extract_topics_from_title text).
Proof.
  split; [apply chapter_topics_processed|apply title_topics_processed].
Qed.

(** ** The file processors *)

Section Files.

Context `{Unicode}.
Variable extract_evidence_from_text : str -> list str.

Abbreviation process_hadith := (process_hadith extract_evidence_from_text).
Abbreviation process_fatwa := (process_fatwa extract_evidence_from_text).
Abbreviation process_hadith_file := (process_hadith_file extract_evidence_from_text).
Abbreviation process_fatwa_file := (process_fatwa_file extract_evidence_from_text).
Abbreviation process_all_data := (process_all_data extract_evidence_from_text).

Lemma process_hadith_id fresh record entry :
  process_hadith fresh record = Some entry -> e_id entry = default fresh (raw_id record).
Proof.
  unfold ProcessTexts.process_hadith. destruct (bool_decide _ || _); [discriminate|].
  by intros [= <-].
Qed.

Lemma process_fatwa_id fresh record entry :
  process_fatwa fresh record = Some entry -> e_id entry = default fresh (raw_id record).
Proof.
  unfold ProcessTexts.process_fatwa. destruct (bool_decide _ || _); [discriminate|].
  by intros [= <-].
Qed.

Lemma process_hadith_type fresh record entry :
  process_hadith fresh record = Some entry -> e_type entry = Some (py "hadith").
Proof.
  unfold ProcessTexts.process_hadith. destruct (bool_decide _ || _); [discriminate|].
  by intros [= <-].
Qed.

Lemma process_fatwa_type fresh record entry :
  process_fatwa fresh record = Some entry -> e_type entry = Some (py "fatwa").
Proof.
  unfold ProcessTexts.process_fatwa. destruct (bool_decide _ || _); [discriminate|].
  by intros [= <-].
Qed.

(** The ids the loop gives out are, in order, ids of the records. *)
Lemma process_records_ids body uuid4 n records :
  (forall fresh record entry,
     body fresh record = Some entry -> e_id entry = default fresh (raw_id record)) ->
  Forall (fun record => is_Some (raw_id record)) records ->
  map e_id (process_records body uuid4 n records) `sublist_of` omap raw_id records.
Proof.
  intros Hbody. revert n. induction records as [|r records IH]; intros n Hall; [constructor|].
  apply Forall_cons in Hall as [[i Hi] Hall].
  cbn [process_records omap list_omap]. rewrite Hi.
  destruct (body (uuid4 n) r) as [e|] eqn:He.
  - cbn [map]. rewrite (Hbody _ _ _ He), Hi. cbn. constructor. by apply IH.
  - constructor. by apply IH.
Qed.

Lemma process_records_length body uuid4 n records :
  (length (process_records body uuid4 n records) <= length records)%nat.
Proof.
  revert n. induction records as [|r records IH]; intros n; [done|].
  cbn [process_records]. specialize (IH (S n)).
  destruct (body (uuid4 n) r); cbn [length]; lia.
Qed.

(** *** Statistics *)

Lemma process_files_spec process_file files all_entries counts :
  process_files process_file files all_entries counts
  = (all_entries ++ concat (map (entries_of process_file) files),
     counts ++ map (fun json_file =>
                      {| sc_file := file_name json_file;
                         sc_count := length (entries_of process_file json_file) |}) files).
Proof.
  revert all_entries counts. induction files as [|f files IH]; intros all_entries counts.
  - cbn. by rewrite !app_nil_r.
  - cbn [process_files map concat]. rewrite IH. unfold entries_of.
    by rewrite <- !(assoc_L (++)).
Qed.

Lemma counted_files process_file files :
  counted (map (fun json_file =>
                  {| sc_file := file_name json_file;
                     sc_count := length (entries_of process_file json_file) |}) files)
  = length (concat (map (entries_of process_file) files)).
Proof.
  unfold counted. induction files as [|f files IH]; [done|].
  cbn [map sum_list concat sum_list_with sc_count]. rewrite length_app. cbn in IH. by rewrite IH.
Qed.

Lemma count_types_lookup all_entries type_counts entry_type :
  default 0%nat (count_types all_entries type_counts !! entry_type)
  = (default 0%nat (type_counts !! entry_type)
     + length (filter (fun e => default (py "unknown") (e_type e) = entry_type) all_entries))%nat.
Proof.
  revert type_counts. induction all_entries as [|e es IH]; intros type_counts.
  - cbn. lia.
  - cbn [count_types]. rewrite IH.
    destruct (decide (default (py "unknown") (e_type e) = entry_type)) as [Heq|Hne].
    + rewrite filter_cons_True by done. rewrite Heq, lookup_insert_eq. cbn. lia.
    + rewrite filter_cons_False by done. by rewrite lookup_insert_ne.
Qed.

Lemma count_types_absent all_entries type_counts entry_type :
  Forall (fun e => default (py "unknown") (e_type e) <> entry_type) all_entries ->
  type_counts !! entry_type = None ->
  count_types all_entries type_counts !! entry_type = None.
Proof.
  revert type_counts. induction all_entries as [|e es IH]; intros type_counts Hall Hnone; [done|].
  apply Forall_cons in Hall as [He Hall]. cbn [count_types]. apply IH; [done|].
  by rewrite lookup_insert_ne.
Qed.

Lemma filter_all {A : Type} (P : A -> Prop) `{!forall x, Decision (P x)} (l : list A) :
  Forall P l -> filter P l = l.
Proof.
  induction 1 as [|x l Hx Hl IH]; [done|]. by rewrite filter_cons_True, IH.
Qed.

Lemma filter_none {A : Type} (P : A -> Prop) `{!forall x, Decision (P x)} (l : list A) :
  Forall (fun x => ~ P x) l -> filter P l = [].
Proof.
  induction 1 as [|x l Hx Hl IH]; [done|]. by rewrite filter_cons_False.
Qed.

Lemma hadith_file_types uuid4 content :
  Forall (fun e => e_type e = Some (py "hadith")) (process_hadith_file uuid4 content).
Proof.
  apply Forall_forall. intros e Hin. destruct content as [records|]; [|inversion Hin].
  apply process_records_elem in Hin as (fresh & r & _ & Hbody).
  by apply process_hadith_type in Hbody.
Qed.

Lemma fatwa_file_types uuid4 content :
  Forall (fun e => e_type e = Some (py "fatwa")) (process_fatwa_file uuid4 content).
Proof.
  apply Forall_forall. intros e Hin. destruct content as [records|]; [|inversion Hin].
  apply process_records_elem in Hin as (fresh & r & _ & Hbody).
  by apply process_fatwa_type in Hbody.
Qed.

Lemma Forall_concat_map {A B : Type} (P : B -> Prop) (f : A -> list B) (l : list A) :
  (forall x, Forall P (f x)) -> Forall P (concat (map f l)).
Proof.
  intros Hf. induction l as [|x l IH]; [constructor|]. cbn. apply Forall_app. auto.
Qed.

Lemma process_all_data_spec hadith_dir fatwa_dir :
  process_all_data hadith_dir fatwa_dir =
  let hadith_entries := concat (map (entries_of process_hadith_file) (hadith_files hadith_dir)) in
  let fatwa_entries := concat (map (entries_of process_fatwa_file) (default [] fatwa_dir)) in
  (hadith_entries ++ fatwa_entries,
   {| hadith_collections :=
        map (fun json_file =>
               {| sc_file := file_name json_file;
                  sc_count := length (entries_of process_hadith_file json_file) |})
            (hadith_files hadith_dir);
      fatwa_sources :=
        map (fun json_file =>
               {| sc_file := file_name json_file;
                  sc_count := length (entries_of process_fatwa_file json_file) |})
            (default [] fatwa_dir);
      total_entries := length (hadith_entries ++ fatwa_entries);
      entries_by_type := count_types (hadith_entries ++ fatwa_entries) ∅ |}).
Proof.
  unfold ProcessTexts.process_all_data.
  destruct hadith_dir as [dir|]; destruct fatwa_dir as [files|];
    rewrite ?process_files_spec; cbn [hadith_files default from_option id map concat app];
    rewrite ?map_app, ?concat_app, ?app_nil_r; try reflexivity.
Qed.

End Files.

(** X9: when every record of a file carries an id, the ids of the entries
    a file processor returns are ids of the records, in the same order and
    each at most as often as in the file; so distinct record ids give
    distinct entry ids, and no file yields more entries than it has
    records. *)
Theorem processed_ids_come_from_the_records `{Unicode} (extract : str -> list str)
    (uuid4 : nat -> str) (records : list RawRecord) :
  Forall (fun record => is_Some (raw_id record)) records ->
  let hadiths := process_hadith_file extract uuid4 (Some records) in
  let fatawa := process_fatwa_file extract uuid4 (Some records) in
  map e_id hadiths `sublist_of` omap raw_id records /\
  map e_id fatawa `sublist_of` omap raw_id records /\
  (length hadiths <= length records)%nat /\
  (length fatawa <= length records)%nat /\
  (NoDup (omap raw_id records) -> NoDup (map e_id hadiths) /\ NoDup (map e_id fatawa)).
Proof.
  intros Hids hadiths fatawa.
  assert (Hh : map e_id hadiths `sublist_of` omap raw_id records).
  { apply process_records_ids; [apply process_hadith_id|done]. }
  assert (Hf : map e_id fatawa `sublist_of` omap raw_id records).
  { apply process_records_ids; [apply process_fatwa_id|done]. }
  split; [exact Hh|]. split; [exact Hf|].
  split; [apply process_records_length|]. split; [apply process_records_length|].
  intros Hnodup. split; eapply sublist_NoDup; eauto.
Qed.

Lemma processed_ids_come_from_the_records_witness :
  map e_id (process_hadith_file no_citations numbered
              (Some [identified (py "bukhari_1") (py "Actions are judged by intentions.");
                     identified (py "bukhari_2") (py "Too short.");
                     identified (py "bukhari_3") (py "Religion is sincere advice.")]))
  = [py "bukhari_1"; py "bukhari_3"] /\
  NoDup (map e_id (process_hadith_file no_citations numbered
              (Some [identified (py "bukhari_1") (py "Actions are judged by intentions.");
                     identified (py "bukhari_2") (py "Too short.");
                     identified (py "bukhari_3") (py "Religion is sincere advice.")]))).
Proof.
  split; [reflexivity|].
  destruct (processed_ids_come_from_the_records no_citations numbered
              [identified (py "bukhari_1") (py "Actions are judged by intentions.");
               identified (py "bukhari_2") (py "Too short.");
               identified (py "bukhari_3") (py "Religion is sincere advice.")])
    as (_ & _ & _ & _ & Hnodup).
  - repeat constructor; by eexists.
  - apply Hnodup. apply (bool_decide_unpack _). vm_compute. exact I.
Defined.

(** X10: the embedding text of every entry [process_hadith_file] returns is
    its ruling, then the evidence section if there is evidence, then the
    topics section, which is always there; it has no question and no madhab
    section, whatever the raw record held in these fields. *)
Theorem hadith_embedding_text `{Unicode} (extract : str -> list str)
    (uuid4 : nat -> str) (file : option (list RawRecord)) (entry : FiqhEntry) :
  entry ∈ process_hadith_file extract uuid4 file ->
  exists ruling evidence topic topics,
    e_ruling entry = Some ruling /\ e_evidence entry = Some evidence /\
    e_topics entry = Some (topic :: topics) /\
    e_question entry = None /\ e_madhab entry = None /\
    GenerateEmbeddings.create_embedding_text entry
    = ruling
      ++ match evidence with
         | [] => []
         | _ :: _ => newline ++ newline ++ py "Evidence: " ++ join (py " | ") evidence
         end
      ++ newline ++ newline ++ py "Topics: " ++ join (py ", ") (topic :: topics).
Proof.
  intros Hin. destruct file as [records|]; [|inversion Hin].
  apply process_records_elem in Hin as (fresh & record & _ & Hbody).
  unfold process_hadith in Hbody. destruct (bool_decide _ || _); [discriminate|].
  injection Hbody as <-.
  cbn [e_ruling e_evidence e_topics e_question e_madhab].
  unfold GenerateEmbeddings.create_embedding_text.
  cbn [e_ruling e_evidence e_topics e_question e_madhab default from_option id truthy andb app].
  destruct (map normalize_topic (from_option id [] (raw_topics record))) as [|topic topics];
    destruct (from_option id [] (raw_evidence record)) as [|ev evs];
    try destruct (extract (clean_text (from_option id [] (raw_ruling record)))) as [|ev evs];
    do 4 eexists; repeat split; cbn [join app]; by rewrite <- ?(assoc_L (++)).
Qed.

Lemma hadith_embedding_text_witness :
  exists entry,
    process_hadith_file no_citations numbered
      (Some [identified (py "bukhari_1") (py "Actions are judged by intentions.")]) = [entry] /\
    GenerateEmbeddings.create_embedding_text entry
    = py "Actions are judged by intentions." ++ newline ++ newline ++ py "Topics: general".
Proof.
  eexists. split; [reflexivity|].
  match goal with
  | |- GenerateEmbeddings.create_embedding_text ?e = _ =>
      destruct (hadith_embedding_text no_citations numbered
                  (Some [identified (py "bukhari_1") (py "Actions are judged by intentions.")]) e)
        as (ruling & evidence & topic & topics & Hr & He & Ht & _ & _ & Htext);
      [left|]
  end.
  rewrite Htext. injection Hr as <-. injection He as <-. injection Ht as <- <-. reflexivity.
Defined.

(** X11: the statistics [process_all_data] writes agree with the database it
    writes: the database is what the hadith files gave, file after file,
    followed by what the fatwa files gave; every file of the raw
    directories is listed, in this order, under its name with the number of
    entries it gave, which is 0 for a file that could not be loaded; the
    total is the length of the database and the sum of all counts; the
    count by type is the sum of the hadith counts for "hadith" and of the
    fatwa counts for "fatwa", and no other type is counted. *)
Theorem statistics_agree_with_database `{Unicode} (extract : str -> list str)
    (hadith_dir : option HadithDir) (fatwa_dir : option (list RawFile)) :
  let result := process_all_data extract hadith_dir fatwa_dir in
  let all_entries := result.1 in
  let info := result.2 in
  all_entries
  = concat (map (entries_of (process_hadith_file extract)) (hadith_files hadith_dir))
    ++ concat (map (entries_of (process_fatwa_file extract)) (default [] fatwa_dir)) /\
  hadith_collections info
  = map (fun json_file =>
           {| sc_file := file_name json_file;
              sc_count := length (entries_of (process_hadith_file extract) json_file) |})
      (hadith_files hadith_dir) /\
  fatwa_sources info
  = map (fun json_file =>
           {| sc_file := file_name json_file;
              sc_count := length (entries_of (process_fatwa_file extract) json_file) |})
      (default [] fatwa_dir) /\
  (forall json_file,
     file_content json_file = None ->
     length (entries_of (process_hadith_file extract) json_file) = 0%nat /\
     length (entries_of (process_fatwa_file extract) json_file) = 0%nat) /\
  map sc_file (hadith_collections info) = map file_name (hadith_files hadith_dir) /\
  map sc_file (fatwa_sources info) = map file_name (default [] fatwa_dir) /\
  total_entries info = length all_entries /\
  total_entries info
    = (counted (hadith_collections info) + counted (fatwa_sources info))%nat /\
  default 0%nat (entries_by_type info !! py "hadith") = counted (hadith_collections info) /\
  default 0%nat (entries_by_type info !! py "fatwa") = counted (fatwa_sources info) /\
  (forall entry_type,
     entry_type <> py "hadith" -> entry_type <> py "fatwa" ->
     entries_by_type info !! entry_type = None).
Proof.
  intros result all_entries info. subst all_entries info result.
  rewrite process_all_data_spec. cbn zeta. cbn [fst snd hadith_collections fatwa_sources
    total_entries entries_by_type].
  split; [reflexivity|]. split; [reflexivity|]. split; [reflexivity|].
  split; [intros json_file Hnone; unfold entries_of; by rewrite Hnone|].
  set (hs := concat (map (entries_of (process_hadith_file extract)) (hadith_files hadith_dir))).
  set (fs := concat (map (entries_of (process_fatwa_file extract)) (default [] fatwa_dir))).
  assert (Hh : Forall (fun e => e_type e = Some (py "hadith")) hs).
  { apply Forall_concat_map. intros f. apply hadith_file_types. }
  assert (Hf : Forall (fun e => e_type e = Some (py "fatwa")) fs).
  { apply Forall_concat_map. intros f. apply fatwa_file_types. }
  rewrite !counted_files. fold hs fs.
  split; [by rewrite map_map|]. split; [by rewrite map_map|].
  split; [done|]. split; [apply length_app|]. split; [|split].
  - rewrite count_types_lookup, lookup_empty, filter_app, length_app.
    rewrite (filter_all _ hs), (filter_none _ fs); [cbn; lia| |].
    + eapply Forall_impl; [exact Hf|]. intros e He. rewrite He. cbn. intros [=].
    + eapply Forall_impl; [exact Hh|]. intros e He. by rewrite He.
  - rewrite count_types_lookup, lookup_empty, filter_app, length_app.
    rewrite (filter_none _ hs), (filter_all _ fs); [cbn; lia| |].
    + eapply Forall_impl; [exact Hf|]. intros e He. by rewrite He.
    + eapply Forall_impl; [exact Hh|]. intros e He. rewrite He. cbn. intros [=].
  - intros entry_type Hnh Hnf. apply count_types_absent; [|apply lookup_empty].
    apply Forall_app. split.
    + eapply Forall_impl; [exact Hh|]. intros e He. rewrite He.
      intros Heq. apply Hnh. symmetry. exact Heq.
    + eapply Forall_impl; [exact Hf|]. intros e He. rewrite He.
      intros Heq. apply Hnf. symmetry. exact Heq.
Qed.

Lemma statistics_agree_with_database_witness :
  let result :=
    process_all_data no_citations
      (Some {| top_files := [sample_hadith_file]; sub_dirs := [] |})
      (Some [broken_fatwa_file]) in
  file_content broken_fatwa_file = None /\
  hadith_collections result.2
  = [{| sc_file := file_name sample_hadith_file; sc_count := 1 |}] /\
  fatwa_sources result.2
  = [{| sc_file := file_name broken_fatwa_file; sc_count := 0 |}] /\
  total_entries result.2 = 1%nat /\
  entries_by_type result.2 !! py "unknown" = None.
Proof.
  intros result.
  destruct (statistics_agree_with_database no_citations
              (Some {| top_files := [sample_hadith_file]; sub_dirs := [] |})
              (Some [broken_fatwa_file]))
    as (_ & Hhadith & Hfatwa & Hbroken & _ & _ & _ & _ & _ & _ & Hother).
  fold result in Hhadith, Hfatwa, Hother.
  destruct (Hbroken broken_fatwa_file) as [_ Hzero]; [reflexivity|].
  split; [reflexivity|].
  split; [rewrite Hhadith; reflexivity|].
  split; [rewrite Hfatwa; cbn [default from_option id map]; by rewrite Hzero|].
  split; [reflexivity|].
  apply Hother; vm_compute; discriminate.
Defined.

(** ** The store and the batch loop *)

Section IndexerMore.

Import GenerateEmbeddings.

Context {Vec : Type}.

Implicit Types (w : World Vec) (collection : gmap str (Item Vec))
  (pending entries batch : list FiqhEntry) (k n a : nat).

Lemma upsert_lookup collection ids embeddings documents metadatas collection' i id :
  upsert collection ids embeddings documents metadatas = Some collection' ->
  NoDup ids -> ids !! i = Some id ->
  exists v d m,
    embeddings !! i = Some v /\ documents !! i = Some d /\ metadatas !! i = Some m /\
    collection' !! id
    = Some {| item_embedding := v; item_document := d; item_metadata := m |}.
Proof.
  revert collection embeddings documents metadatas i.
  induction ids as [|i0 ids IH]; intros c [|v vs] [|d ds] [|m ms] i Hup Hnd Hi;
    try discriminate Hup; try discriminate Hi.
  cbn [upsert] in Hup. apply NoDup_cons in Hnd as [Hnotin Hnd].
  destruct i as [|i].
  - injection Hi as <-. exists v, d, m. repeat split.
    rewrite (upsert_other _ _ _ _ _ _ _ Hup Hnotin). apply lookup_insert_eq.
  - cbn in Hi. destruct (IH _ _ _ _ i Hup Hnd Hi) as (v' & d' & m' & ? & ? & ? & ?).
    exists v', d', m'. by repeat split.
Qed.

(** Every call of the loop is about entries of the pending list. *)
Lemma batch_loop_calls w pending starts collection :
  Forall (fun texts => forall text, text ∈ texts ->
            exists entry, entry ∈ pending /\ text = create_embedding_text entry)
    (provider_calls (trace (batch_loop w pending starts collection))) /\
  Forall (fun ids => forall id, id ∈ ids -> exists entry, entry ∈ pending /\ id = e_id entry)
    (store_writes (trace (batch_loop w pending starts collection))).
Proof.
  assert (Htexts : forall i text,
            text ∈ map create_embedding_text (slice pending i (i + BATCH_SIZE)) ->
            exists entry, entry ∈ pending /\ text = create_embedding_text entry).
  { intros i text (e & -> & He)%list_elem_of_fmap. exists e. split; [|done].
    by eapply slice_subseteq. }
  assert (Hids : forall i id,
            id ∈ map e_id (slice pending i (i + BATCH_SIZE)) ->
            exists entry, entry ∈ pending /\ id = e_id entry).
  { intros i id (e & -> & He)%list_elem_of_fmap. exists e. split; [|done].
    by eapply slice_subseteq. }
  revert collection. induction starts as [|i later IH]; intros collection.
  - cbn. split; constructor.
  - cbn [batch_loop].
    destruct (embeddings_create w _ _) as [embeddings|].
    + destruct (add_to_chromadb w _ collection _ embeddings) as [collection'|].
      * destruct (IH collection') as [IHp IHs]. cbn [trace]. split.
        -- cbn. constructor; [apply Htexts|exact IHp].
        -- cbn. constructor; [apply Hids|exact IHs].
      * cbn. split; repeat constructor; [apply Htexts|apply Hids].
    + cbn. split; repeat constructor. apply Htexts.
Qed.

Lemma batch_loop_dom_bound w pending starts collection :
  dom (store (batch_loop w pending starts collection))
  ⊆ dom collection ∪ list_to_set (ids_of pending).
Proof.
  revert collection. induction starts as [|i later IH]; intros collection.
  - cbn. apply union_subseteq_l.
  - cbn [batch_loop].
    destruct (embeddings_create w _ _) as [embeddings|]; [|apply union_subseteq_l].
    destruct (add_to_chromadb w _ collection _ embeddings) as [collection'|] eqn:Hadd;
      [|apply union_subseteq_l].
    cbn [store]. etrans; [apply IH|].
    apply add_to_chromadb_dom in Hadd. rewrite Hadd.
    apply union_least; [apply union_least|]; [apply union_subseteq_l| |apply union_subseteq_r].
    intros id Hid. apply elem_of_union_r. apply elem_of_list_to_set in Hid.
    apply elem_of_list_to_set. unfold ids_of in *.
    apply list_elem_of_fmap in Hid as (e & -> & He). apply list_elem_of_fmap.
    exists e. split; [done|]. by eapply slice_subseteq.
Qed.

Abbreviation starts_from a n := (map (fun k => k * BATCH_SIZE)%nat (seq a n)).

(** The calls of the loop are those of its first batches: [m] provider
    calls, and [m] writes or one less. *)
Lemma batch_loop_shape w pending a n collection :
  exists m m',
    (m <= n)%nat /\ (m' = m \/ S m' = m) /\
    provider_calls (trace (batch_loop w pending (starts_from a n) collection))
    = map (fun k => texts_of (batch_of pending k)) (seq a m) /\
    store_writes (trace (batch_loop w pending (starts_from a n) collection))
    = map (fun k => ids_of (batch_of pending k)) (seq a m').
Proof.
  revert a collection. induction n as [|n IH]; intros a collection.
  - exists 0%nat, 0%nat. cbn. repeat split; auto.
  - cbn [seq map]. rewrite batch_loop_cons.
    destruct (embeddings_create w a _) as [embeddings|].
    + destruct (add_to_chromadb w a collection _ embeddings) as [collection'|].
      * destruct (IH (S a) collection') as (m & m' & Hm & Hm' & Hp & Hs).
        destruct Hm' as [->|<-].
        -- exists (S m), (S m). cbn [trace]. rewrite provider_calls_app, store_writes_app, Hp, Hs.
           split; [lia|]. split; [by left|]. by cbn.
        -- exists (S (S m')), (S m'). cbn [trace].
           rewrite provider_calls_app, store_writes_app, Hp, Hs.
           split; [lia|]. split; [by right|]. by cbn.
      * exists 1%nat, 1%nat. cbn. split; [lia|]. split; [by left|]. done.
    + exists 1%nat, 0%nat. cbn. split; [lia|]. split; [by right|]. done.
Qed.

End IndexerMore.

(** X12: after a write that the store took, the store holds, for every
    entry of a batch without repeated ids, the vector returned for it, its
    ruling cut to at most 1000 characters and its metadata, under the
    entry's id; what was stored under other ids is untouched. *)
Theorem written_batch_can_be_read_back {Vec : Type}
    (w : GenerateEmbeddings.World Vec) (batch_no : nat)
    (collection collection' : gmap str (GenerateEmbeddings.Item Vec))
    (batch : list FiqhEntry) (embeddings : list Vec) :
  GenerateEmbeddings.add_to_chromadb w batch_no collection batch embeddings = Some collection' ->
  NoDup (ids_of batch) ->
  (forall i entry,
     batch !! i = Some entry ->
     exists v,
       embeddings !! i = Some v /\
       collection' !! e_id entry
       = Some {| GenerateEmbeddings.item_embedding := v;
                 GenerateEmbeddings.item_document := take 1000 (default [] (e_ruling entry));
                 GenerateEmbeddings.item_metadata := GenerateEmbeddings.metadata_of entry |} /\
       (length (take 1000 (default [] (e_ruling entry))) <= 1000)%nat) /\
  (forall id, id ∉ ids_of batch -> collection' !! id = collection !! id).
Proof.
  unfold GenerateEmbeddings.add_to_chromadb.
  destruct (GenerateEmbeddings.add_raises w batch_no); [discriminate|].
  intros Hup Hnd. split.
  - intros i entry Hi.
    destruct (upsert_lookup _ _ _ _ _ _ i (e_id entry) Hup Hnd) as (v & d & m & Hv & Hd & Hm & Hc).
    { unfold ids_of in *. by rewrite list_lookup_fmap, Hi. }
    rewrite list_lookup_fmap, Hi in Hd. rewrite list_lookup_fmap, Hi in Hm.
    injection Hd as <-. injection Hm as <-.
    exists v. split; [done|]. split; [done|]. rewrite length_take. lia.
  - intros id Hid. by eapply upsert_other.
Qed.

Lemma written_batch_can_be_read_back_witness :
  exists collection',
    GenerateEmbeddings.add_to_chromadb steady 0 ∅ (sample_entries 2) [tt; tt] = Some collection' /\
    collection' !! e_id (sample_entry 1)
    = Some {| GenerateEmbeddings.item_embedding := tt;
              GenerateEmbeddings.item_document := py "Actions are judged by intentions.";
              GenerateEmbeddings.item_metadata :=
                GenerateEmbeddings.metadata_of (sample_entry 1) |}.
Proof.
  eexists. split; [reflexivity|].
  match goal with
  | |- ?c !! _ = _ =>
      destruct (written_batch_can_be_read_back steady 0 ∅ c (sample_entries 2) [tt; tt])
        as [Hread _];
      [reflexivity|apply (bool_decide_unpack _); vm_compute; exact I|]
  end.
  destruct (Hread 1%nat (sample_entry 1)) as (v & _ & Hc & _); [reflexivity|].
  destruct v. exact Hc.
Defined.

Lemma main_calls {Vec : Type} (w : GenerateEmbeddings.World Vec) (entries : list FiqhEntry)
    (collection : gmap str (GenerateEmbeddings.Item Vec)) :
  let pending := GenerateEmbeddings.entries_to_process w entries collection in
  let loop := GenerateEmbeddings.batch_loop w pending
                (GenerateEmbeddings.range (length pending) GenerateEmbeddings.BATCH_SIZE)
                collection in
  GenerateEmbeddings.provider_calls (GenerateEmbeddings.trace (GenerateEmbeddings.main w entries collection))
  = GenerateEmbeddings.provider_calls (GenerateEmbeddings.trace loop) /\
  GenerateEmbeddings.store_writes (GenerateEmbeddings.trace (GenerateEmbeddings.main w entries collection))
  = GenerateEmbeddings.store_writes (GenerateEmbeddings.trace loop) /\
  GenerateEmbeddings.store (GenerateEmbeddings.main w entries collection)
  = GenerateEmbeddings.store loop.
Proof.
  intros pending loop. subst loop. unfold GenerateEmbeddings.main. fold pending.
  destruct pending as [|e pending'] eqn:Hp; [by cbn|].
  cbn [GenerateEmbeddings.trace GenerateEmbeddings.store].
  rewrite !provider_calls_app, !store_writes_app. cbn. by rewrite !app_nil_r.
Qed.

(** X13: with a working id lookup a run never embeds or writes an entry
    whose id is already in the store: every text sent to the provider is
    the embedding text of a database entry whose id is not in the store, and
    every id written is such an entry's id. *)
Theorem indexed_entries_are_left_alone {Vec : Type}
    (w : GenerateEmbeddings.World Vec) (entries : list FiqhEntry)
    (collection : gmap str (GenerateEmbeddings.Item Vec)) :
  GenerateEmbeddings.get_raises w = false ->
  let run := GenerateEmbeddings.main w entries collection in
  Forall (fun texts => forall text, text ∈ texts ->
            exists entry, entry ∈ entries /\ (e_id entry ∉ dom collection) /\
                          text = GenerateEmbeddings.create_embedding_text entry)
    (GenerateEmbeddings.provider_calls (GenerateEmbeddings.trace run)) /\
  Forall (fun ids => forall id, id ∈ ids ->
            (id ∉ dom collection) /\ exists entry, entry ∈ entries /\ id = e_id entry)
    (GenerateEmbeddings.store_writes (GenerateEmbeddings.trace run)).
Proof.
  intros Hget run. subst run.
  destruct (main_calls w entries collection) as (-> & -> & _).
  assert (Hpending : forall entry,
            entry ∈ GenerateEmbeddings.entries_to_process w entries collection ->
            entry ∈ entries /\ e_id entry ∉ dom collection).
  { intros entry Hin. unfold GenerateEmbeddings.entries_to_process in Hin.
    apply list_elem_of_filter in Hin as [Hnew Hin].
    unfold GenerateEmbeddings.existing_ids in Hnew. rewrite Hget in Hnew. done. }
  destruct (batch_loop_calls w (GenerateEmbeddings.entries_to_process w entries collection)
              (GenerateEmbeddings.range
                 (length (GenerateEmbeddings.entries_to_process w entries collection))
                 GenerateEmbeddings.BATCH_SIZE) collection) as [Hp Hs].
  split.
  - eapply Forall_impl; [exact Hp|]. intros texts Htexts text Hin.
    destruct (Htexts text Hin) as (entry & He & ->).
    destruct (Hpending entry He). by exists entry.
  - eapply Forall_impl; [exact Hs|]. intros ids Hids id Hin.
    destruct (Hids id Hin) as (entry & He & ->).
    destruct (Hpending entry He). split; [done|]. by exists entry.
Qed.

Lemma indexed_entries_are_left_alone_witness :
  let run := GenerateEmbeddings.main steady (sample_entries 3) one_indexed in
  GenerateEmbeddings.store_writes (GenerateEmbeddings.trace run)
  = [[e_id (sample_entry 1); e_id (sample_entry 2)]] /\
  Forall (fun ids => forall id, id ∈ ids -> id ∉ dom one_indexed)
    (GenerateEmbeddings.store_writes (GenerateEmbeddings.trace run)).
Proof.
  intros run. split; [by vm_compute|].
  destruct (indexed_entries_are_left_alone steady (sample_entries 3) one_indexed) as [_ Hs];
    [reflexivity|].
  eapply Forall_impl; [exact Hs|]. intros ids Hids id Hin. by destruct (Hids id Hin).
Defined.

(** X14: whatever the provider and the store do, a run calls the provider
    at most once per batch of the pending list, each time with between 1 and
    100 texts, and it attempts a store write only after a provider call: the
    number of writes is the number of provider calls or one less. *)
Theorem calls_are_bounded {Vec : Type}
    (w : GenerateEmbeddings.World Vec) (entries : list FiqhEntry)
    (collection : gmap str (GenerateEmbeddings.Item Vec)) :
  let pending := GenerateEmbeddings.entries_to_process w entries collection in
  let run := GenerateEmbeddings.main w entries collection in
  let calls := GenerateEmbeddings.provider_calls (GenerateEmbeddings.trace run) in
  let writes := GenerateEmbeddings.store_writes (GenerateEmbeddings.trace run) in
  (length calls <= batch_count pending)%nat /\
  (length writes <= length calls <= S (length writes))%nat /\
  Forall (fun texts => (0 < length texts <= GenerateEmbeddings.BATCH_SIZE)%nat) calls /\
  Forall (fun ids => (0 < length ids <= GenerateEmbeddings.BATCH_SIZE)%nat) writes.
Proof.
  intros pending run calls writes. subst calls writes run.
  destruct (main_calls w entries collection) as (-> & -> & _). fold pending.
  destruct (batch_loop_shape w pending 0 (batch_count pending) collection)
    as (m & m' & Hm & Hm' & Hp & Hs).
  change (GenerateEmbeddings.range (length pending) GenerateEmbeddings.BATCH_SIZE)
    with (map (fun k => k * GenerateEmbeddings.BATCH_SIZE)%nat (seq 0 (batch_count pending))).
  rewrite Hp, Hs, !length_map, !length_seq.
  assert (Hsize : forall k, (k < m)%nat ->
            (0 < length (batch_of pending k) <= GenerateEmbeddings.BATCH_SIZE)%nat).
  { intros k Hk. rewrite length_batch_of.
    assert (k * GenerateEmbeddings.BATCH_SIZE < length pending)%nat
      by (apply batch_index_in_range; lia).
    pose proof BATCH_SIZE_pos. lia. }
  split; [lia|]. split; [lia|]. split.
  - apply Forall_forall. intros texts (k & -> & Hk)%list_elem_of_fmap.
    apply elem_of_seq in Hk. unfold texts_of. rewrite length_map. apply Hsize. lia.
  - apply Forall_forall. intros ids (k & -> & Hk)%list_elem_of_fmap.
    apply elem_of_seq in Hk. unfold ids_of. rewrite length_map. apply Hsize. lia.
Qed.

(** X15: a run never removes an id from the store and never adds one that
    is not the id of a database entry; the store's count does not go
    down. *)
Theorem store_only_grows_by_entries {Vec : Type}
    (w : GenerateEmbeddings.World Vec) (entries : list FiqhEntry)
    (collection : gmap str (GenerateEmbeddings.Item Vec)) :
  let run := GenerateEmbeddings.main w entries collection in
  dom collection ⊆ dom (GenerateEmbeddings.store run) /\
  dom (GenerateEmbeddings.store run) ⊆ dom collection ∪ list_to_set (ids_of entries) /\
  (size collection <= size (GenerateEmbeddings.store run))%nat.
Proof.
  intros run. subst run. destruct (main_calls w entries collection) as (_ & _ & ->).
  assert (Hkeep := batch_loop_keeps w (GenerateEmbeddings.entries_to_process w entries collection)
            (GenerateEmbeddings.range
               (length (GenerateEmbeddings.entries_to_process w entries collection))
               GenerateEmbeddings.BATCH_SIZE) collection).
  split; [exact Hkeep|]. split.
  - etrans; [apply batch_loop_dom_bound|].
    apply union_mono_l. intros id Hid. apply elem_of_list_to_set in Hid.
    apply elem_of_list_to_set. unfold ids_of in *.
    apply list_elem_of_fmap in Hid as (e & -> & He). apply list_elem_of_fmap.
    exists e. split; [done|].
    unfold GenerateEmbeddings.entries_to_process in He.
    by apply list_elem_of_filter in He as [_ He].
  - rewrite <- !size_dom. by apply subseteq_size.
Qed.

(** ** Ids of converted hadiths *)

Section Decimal.

Lemma utf8_ascii (bytes : list N) :
  forallb (fun b => b <? 128) bytes = true -> utf8 0 0 bytes = bytes.
Proof.
  induction bytes as [|b bytes IH]; [done|]. cbn [forallb utf8].
  intros [Hb Hrest]%andb_prop. rewrite Hb. by rewrite IH.
Qed.

Lemma py_of_ascii_string (s : string) :
  ascii_string s = true -> py s = map N_of_ascii (list_ascii_of_string s).
Proof.
  intros Hs. unfold py. apply utf8_ascii. unfold ascii_string in Hs.
  induction (list_ascii_of_string s) as [|a l IH]; [done|]. cbn in *.
  apply andb_prop in Hs as [Ha Hl]. by rewrite Ha, IH.
Qed.

Lemma map_N_of_ascii_inj (l k : list ascii) : map N_of_ascii l = map N_of_ascii k -> l = k.
Proof.
  revert k. induction l as [|a l IH]; intros [|b k] Heq; try discriminate; [done|].
  injection Heq as Hab Hlk. f_equal; [|by apply IH].
  by rewrite <- (ascii_N_embedding a), <- (ascii_N_embedding b), Hab.
Qed.

Lemma py_inj (s t : string) :
  ascii_string s = true -> ascii_string t = true -> py s = py t -> s = t.
Proof.
  intros Hs Ht Heq. rewrite !py_of_ascii_string in Heq by done.
  apply map_N_of_ascii_inj in Heq.
  by rewrite <- (string_of_list_ascii_of_string s), <- (string_of_list_ascii_of_string t), Heq.
Qed.

Lemma string_of_uint_ascii (d : Decimal.uint) : ascii_string (NilEmpty.string_of_uint d) = true.
Proof. induction d; cbn; try done; exact IHd. Qed.

Lemma string_of_int_ascii (d : Decimal.int) : ascii_string (NilEmpty.string_of_int d) = true.
Proof. destruct d; cbn; apply string_of_uint_ascii. Qed.

Lemma string_of_int_inj (d d' : Decimal.int) :
  NilEmpty.string_of_int d = NilEmpty.string_of_int d' -> d = d'.
Proof.
  intros Heq. pose proof (NilEmpty.isi d) as Hd. rewrite Heq, NilEmpty.isi in Hd. congruence.
Qed.

Lemma str_of_Z_inj (n n' : Z) : str_of_Z n = str_of_Z n' -> n = n'.
Proof.
  unfold str_of_Z. intros Heq.
  apply py_inj in Heq; [|apply string_of_int_ascii..].
  by apply DecimalZ.to_int_inj, string_of_int_inj.
Qed.

Lemma str_of_Z_no_underscore (n : Z) : underscore ∉ str_of_Z n.
Proof.
  unfold str_of_Z. rewrite py_of_ascii_string by apply string_of_int_ascii.
  assert (Hu : forall d, underscore ∉ map N_of_ascii (list_ascii_of_string (NilEmpty.string_of_uint d))).
  { induction d; cbn [NilEmpty.string_of_uint list_ascii_of_string map];
      [inversion 1|..];
      (intros [Hc|Hc]%elem_of_cons; [vm_compute in Hc; discriminate Hc|by apply IHd]). }
  destruct (Z.to_int n); cbn [NilEmpty.string_of_int list_ascii_of_string map]; [apply Hu|].
  intros [Hc|Hc]%elem_of_cons; [vm_compute in Hc; discriminate Hc|by apply (Hu d)].
Qed.

(** The text before the first underscore, and the text after it, are
    determined by the whole. *)
Lemma split_at_underscore (k1 k2 r1 r2 : str) :
  underscore ∉ k1 -> underscore ∉ k2 ->
  k1 ++ underscore :: r1 = k2 ++ underscore :: r2 -> k1 = k2 /\ r1 = r2.
Proof.
  revert k2. induction k1 as [|a k1 IH]; intros [|b k2] H1 H2 Heq; cbn in Heq.
  - by injection Heq as ->.
  - injection Heq as <- _. destruct H2. by left.
  - injection Heq as -> _. destruct H1. by left.
  - injection Heq as -> Heq.
    apply not_elem_of_cons in H1 as [_ H1]. apply not_elem_of_cons in H2 as [_ H2].
    destruct (IH k2 H1 H2 Heq) as [-> ->]. done.
Qed.

Lemma collection_keys_no_underscore :
  Forall (fun item : str * ConvertHadith.CollectionInfo => underscore ∉ item.1)
    ConvertHadith.COLLECTION_INFO.
Proof. repeat constructor; absent. Qed.

End Decimal.

Lemma convert_hadith_id `{Unicode} hadith collection_key chapters_map entry (n : Z) :
  ConvertHadith.convert_hadith hadith collection_key chapters_map = Some entry ->
  ConvertHadith.h_id hadith = Some (ConvertHadith.Int n) ->
  (underscore ∉ collection_key) /\
  raw_id entry = Some (collection_key ++ underscore :: str_of_Z n).
Proof.
  unfold ConvertHadith.convert_hadith.
  destruct (dict_get ConvertHadith.COLLECTION_INFO collection_key) as [info|] eqn:Hkey;
    [|discriminate].
  cbn [mbind option_bind]. intros [= <-] Hid. cbn [raw_id]. rewrite Hid. split; [|done].
  apply dict_get_elem in Hkey.
  pose proof collection_keys_no_underscore as Hall. rewrite Forall_forall in Hall.
  exact (Hall _ Hkey).
Qed.

Lemma convert_hadith_id_inj `{Unicode}
    (hadith1 hadith2 : ConvertHadith.Hadith) (key1 key2 : str)
    (chapters1 chapters2 : gmap Z ConvertHadith.Chapter)
    (entry1 entry2 : RawRecord) (n1 n2 : Z) :
  ConvertHadith.convert_hadith hadith1 key1 chapters1 = Some entry1 ->
  ConvertHadith.convert_hadith hadith2 key2 chapters2 = Some entry2 ->
  ConvertHadith.h_id hadith1 = Some (ConvertHadith.Int n1) ->
  ConvertHadith.h_id hadith2 = Some (ConvertHadith.Int n2) ->
  raw_id entry1 = raw_id entry2 ->
  key1 = key2 /\ n1 = n2.
Proof.
  intros Hc1 Hc2 Hid1 Hid2 Heq.
  destruct (convert_hadith_id _ _ _ _ _ Hc1 Hid1) as [Hk1 Hr1].
  destruct (convert_hadith_id _ _ _ _ _ Hc2 Hid2) as [Hk2 Hr2].
  rewrite Hr1, Hr2 in Heq. injection Heq as Heq.
  destruct (split_at_underscore _ _ _ _ Hk1 Hk2 Heq) as [Hkey Hnum].
  split; [exact Hkey|]. by apply str_of_Z_inj.
Qed.

(** X16: the id of a converted hadith tells its collection and its number:
    two hadiths with numeric ids that [convert_hadith] turns into entries
    with the same id were converted under the same collection key and have
    the same number. *)
Theorem hadith_ids_identify_collection_and_number `{Unicode}
    (hadith1 hadith2 : ConvertHadith.Hadith) (key1 key2 : str)
    (chapters1 chapters2 : gmap Z ConvertHadith.Chapter)
    (entry1 entry2 : RawRecord) (n1 n2 : Z) :
  ConvertHadith.convert_hadith hadith1 key1 chapters1 = Some entry1 ->
  ConvertHadith.convert_hadith hadith2 key2 chapters2 = Some entry2 ->
  ConvertHadith.h_id hadith1 = Some (ConvertHadith.Int n1) ->
  ConvertHadith.h_id hadith2 = Some (ConvertHadith.Int n2) ->
  raw_id entry1 = raw_id entry2 ->
  key1 = key2 /\ n1 = n2.
Proof. apply convert_hadith_id_inj. Qed.

Lemma hadith_ids_identify_collection_and_number_witness :
  exists entry,
    ConvertHadith.convert_hadith (numbered_hadith 7 (py "Religion is sincere advice."))
      (py "muslim") ∅ = Some entry /\
    raw_id entry = Some (py "muslim_7") /\
    (py "muslim" = py "muslim" /\ 7%Z = 7%Z).
Proof.
  eexists. split; [reflexivity|]. split; [reflexivity|].
  eapply (hadith_ids_identify_collection_and_number
            (numbered_hadith 7 (py "Religion is sincere advice."))
            (numbered_hadith 7 (py "Religion is sincere advice."))
            (py "muslim") (py "muslim") ∅ ∅); reflexivity.
Defined.

(** ** [process_collection] of convert_hadith.py *)

Section Collection.

Context `{Unicode}.

Lemma convert_all_elem hadiths collection_key chapters_map entry :
  entry ∈ ConvertHadith.convert_all hadiths collection_key chapters_map ->
  exists hadith,
    hadith ∈ hadiths /\
    ConvertHadith.convert_hadith hadith collection_key chapters_map = Some entry /\
    truthy (default [] (raw_ruling entry)) = true.
Proof.
  induction hadiths as [|h hadiths IH]; [inversion 1|]. cbn [ConvertHadith.convert_all].
  destruct (ConvertHadith.convert_hadith h collection_key chapters_map) as [e|] eqn:Hc.
  - destruct (truthy (default [] (raw_ruling e))) eqn:Ht.
    + intros [->|Hin]%elem_of_cons.
      * exists h. split; [by left|done].
      * destruct (IH Hin) as (h' & ? & ? & ?). exists h'. split; [by right|done].
    + intros Hin. destruct (IH Hin) as (h' & ? & ? & ?). exists h'. split; [by right|done].
  - intros Hin. destruct (IH Hin) as (h' & ? & ? & ?). exists h'. split; [by right|done].
Qed.

Lemma convert_all_length hadiths collection_key chapters_map :
  (length (ConvertHadith.convert_all hadiths collection_key chapters_map) <= length hadiths)%nat.
Proof.
  induction hadiths as [|h hadiths IH]; [done|]. cbn [ConvertHadith.convert_all].
  destruct (ConvertHadith.convert_hadith h collection_key chapters_map) as [e|];
    [destruct (truthy _)|]; cbn [length]; lia.
Qed.

Lemma convert_all_NoDup hadiths collection_key chapters_map :
  numeric_ids hadiths -> NoDup (map ConvertHadith.h_id hadiths) ->
  NoDup (map raw_id (ConvertHadith.convert_all hadiths collection_key chapters_map)).
Proof.
  induction hadiths as [|h hadiths IH]; intros Hnum Hnd; [constructor|].
  apply Forall_cons in Hnum as [[n Hn] Hnum]. cbn [map] in Hnd.
  apply NoDup_cons in Hnd as [Hfresh Hnd]. cbn [ConvertHadith.convert_all].
  destruct (ConvertHadith.convert_hadith h collection_key chapters_map) as [e|] eqn:Hc;
    [|by apply IH].
  destruct (truthy (default [] (raw_ruling e))); [|by apply IH].
  cbn [map]. apply NoDup_cons. split; [|by apply IH].
  intros (e' & Heq & Hin)%list_elem_of_fmap.
  apply convert_all_elem in Hin as (h' & Hh' & Hc' & _).
  rewrite Forall_forall in Hnum. destruct (Hnum _ Hh') as [n' Hn'].
  destruct (convert_hadith_id_inj _ _ _ _ _ _ _ _ _ _ Hc Hc' Hn Hn' Heq) as [_ ->].
  apply Hfresh. rewrite Hn, <- Hn'. apply list_elem_of_fmap. by exists h'.
Qed.

Lemma collection_authenticities :
  Forall (fun item : str * ConvertHadith.CollectionInfo =>
            ConvertHadith.authenticity item.2 = py "sahih" \/
            ConvertHadith.authenticity item.2 = py "unknown")
    ConvertHadith.COLLECTION_INFO.
Proof. repeat constructor; (by left) || (by right). Qed.

Lemma truthy_nonempty (s : str) : truthy s = true -> s <> [].
Proof. by destruct s. Qed.

End Collection.

(** X17: [process_collection] returns nothing for a collection key that is
    not in [COLLECTION_INFO] and for a file that is missing or cannot be
    loaded.  Every entry it returns has a ruling that is not empty and
    neither starts nor ends with whitespace, no evidence, the madhab
    "general", the authenticity "sahih" or "unknown", and at least one
    topic; it returns at most one entry per hadith, and hadiths with
    distinct numeric ids give entries with distinct ids. *)
Theorem process_collection_entries `{Unicode} (collection_key : str)
    (file : option ConvertHadith.DataFile) :
  let entries := ConvertHadith.process_collection collection_key file in
  let hadiths := default [] (file ≫= ConvertHadith.d_hadiths) in
  (dict_get ConvertHadith.COLLECTION_INFO collection_key = None -> entries = []) /\
  (file = None -> entries = []) /\
  (length entries <= length hadiths)%nat /\
  (forall entry, entry ∈ entries ->
     exists ruling topic topics,
       raw_ruling entry = Some ruling /\ ruling <> [] /\
       (forall c, head ruling = Some c \/ last ruling = Some c -> isspace c = false) /\
       raw_evidence entry = Some [] /\
       raw_madhab entry = Some (py "general") /\
       (raw_authenticity entry = Some (py "sahih") \/
        raw_authenticity entry = Some (py "unknown")) /\
       raw_topics entry = Some (topic :: topics)) /\
  (numeric_ids hadiths -> NoDup (map ConvertHadith.h_id hadiths) ->
   NoDup (map raw_id entries)).
Proof.
  intros entries hadiths. subst entries hadiths.
  destruct file as [data|]; cbn [ConvertHadith.process_collection mbind option_bind];
    [|repeat split; try done; [inversion 1|constructor]].
  split; [|split; [done|split; [apply convert_all_length|split]]].
  - intros Hkey. induction (default [] (ConvertHadith.d_hadiths data)) as [|h hs IH]; [done|].
    cbn [ConvertHadith.convert_all]. unfold ConvertHadith.convert_hadith at 1.
    rewrite Hkey. cbn [mbind option_bind]. exact IH.
  - intros entry Hin. apply convert_all_elem in Hin as (h & _ & Hc & Ht).
    unfold ConvertHadith.convert_hadith in Hc.
    destruct (dict_get ConvertHadith.COLLECTION_INFO collection_key) as [info|] eqn:Hkey;
      [|discriminate].
    cbn [mbind option_bind] in Hc. injection Hc as <-.
    cbn [raw_ruling default from_option id] in Ht.
    match goal with
    | |- context [ConvertHadith.extract_topics_from_chapter ?name] =>
        pose proof (extract_topics_from_chapter_nonempty name) as Htopics;
        destruct (ConvertHadith.extract_topics_from_chapter name) as [|topic topics]; [done|]
    end.
    eexists _, topic, topics. cbn [raw_ruling raw_evidence raw_madhab raw_authenticity raw_topics].
    split; [reflexivity|]. split; [by apply truthy_nonempty|].
    split; [apply strip_ends|]. split; [done|]. split; [done|]. split; [|done].
    apply dict_get_elem in Hkey.
    pose proof collection_authenticities as Hall. rewrite Forall_forall in Hall.
    destruct (Hall _ Hkey) as [Ha|Ha]; cbn [snd] in Ha; rewrite Ha; [by left|by right].
  - apply convert_all_NoDup.
Qed.

Lemma process_collection_entries_witness :
  map raw_id (ConvertHadith.process_collection (py "bukhari") (Some sample_collection))
  = [Some (py "bukhari_1"); Some (py "bukhari_3")] /\
  ConvertHadith.process_collection (py "sunnah") (Some sample_collection) = [] /\
  NoDup (map raw_id (ConvertHadith.process_collection (py "bukhari") (Some sample_collection))).
Proof.
  destruct (process_collection_entries (py "bukhari") (Some sample_collection))
    as (_ & _ & _ & _ & Hnodup).
  destruct (process_collection_entries (py "sunnah") (Some sample_collection))
    as (Hunknown & _).
  split; [reflexivity|]. split; [apply Hunknown; reflexivity|].
  apply Hnodup.
  - repeat constructor; by eexists.
  - cbn.
    repeat (apply NoDup_cons; split;
            [intros Hx; repeat (apply elem_of_cons in Hx as [Hx|Hx]; [discriminate Hx|]);
             inversion Hx|]).
    constructor.
Defined.

(** ** The IslamQA converter *)

Section Fatawa.

Context `{Unicode}.
Variable extract_evidence : str -> list str.

Abbreviation convert_fatwa := (ConvertIslamqa.convert_fatwa extract_evidence).
Abbreviation convert_rows := (ConvertIslamqa.convert_rows extract_evidence).

Lemma convert_rows_elem rows entry :
  entry ∈ convert_rows rows ->
  exists row, row ∈ rows /\ entry = convert_fatwa row /\
              truthy (default [] (raw_ruling entry)) = true.
Proof.
  induction rows as [|r rows IH]; [inversion 1|]. cbn [ConvertIslamqa.convert_rows].
  destruct (truthy (default [] (raw_ruling (convert_fatwa r)))) eqn:Ht.
  - intros [->|Hin]%elem_of_cons.
    + exists r. split; [by left|done].
    + destruct (IH Hin) as (r' & ? & ? & ?). exists r'. split; [by right|done].
  - intros Hin. destruct (IH Hin) as (r' & ? & ? & ?). exists r'. split; [by right|done].
Qed.

Lemma convert_rows_ids rows :
  map raw_id (convert_rows rows)
  `sublist_of` map (fun row => Some (py "islamqa_" ++ row_number row)) rows.
Proof.
  induction rows as [|r rows IH]; [constructor|]. cbn [ConvertIslamqa.convert_rows map].
  destruct (truthy _); [|by constructor]. cbn [map]. by constructor.
Qed.

Lemma convert_fatwa_ruling row :
  exists ruling,
    raw_ruling (convert_fatwa row) = Some ruling /\
    tidy false ruling = true /\
    (forall c, head ruling = Some c \/ last ruling = Some c -> isspace c = false).
Proof.
  eexists. split; [reflexivity|].
  destruct (truthy (ConvertIslamqa.clean_text
                      (ConvertIslamqa.cell_text (ConvertIslamqa.row_full_answer row))));
    (split; [apply islamqa_clean_text_tidy|rewrite islamqa_clean_text_strip; apply strip_ends]).
Qed.

Lemma islamqa_clean_text_blank x : forallb isspace x = true -> ConvertIslamqa.clean_text x = [].
Proof.
  intros Hall. rewrite islamqa_clean_text_strip. unfold strip, sub_spaces.
  by rewrite lstrip_blank by by apply sub_spaces_blank.
Qed.

End Fatawa.

(** X18: the loop of the IslamQA converter keeps at most one entry per row;
    the ruling of every entry it keeps is not empty, has single spaces as
    its only whitespace and none at its ends, and is also the entry's
    Arabic text; a row whose full answer and summary are missing, empty or
    blank is dropped; rows with distinct numbers give entries with distinct
    ids. *)
Theorem converted_fatawa `{Unicode} (extract : str -> list str) (rows : list ConvertIslamqa.Row) :
  let entries := ConvertIslamqa.convert_rows extract rows in
  (length entries <= length rows)%nat /\
  (forall entry, entry ∈ entries ->
     exists ruling,
       raw_ruling entry = Some ruling /\ raw_arabicText entry = Some ruling /\
       ruling <> [] /\ tidy false ruling = true /\
       (forall c, head ruling = Some c \/ last ruling = Some c -> isspace c = false)) /\
  (forall row,
     forallb isspace (ConvertIslamqa.cell_text (ConvertIslamqa.row_full_answer row)) = true ->
     forallb isspace (ConvertIslamqa.cell_text (ConvertIslamqa.row_summary row)) = true ->
     ConvertIslamqa.convert_rows extract [row] = []) /\
  (NoDup (map row_number rows) -> NoDup (map raw_id entries)).
Proof.
  intros entries. subst entries. split; [|split; [|split]].
  - eapply Nat.le_trans; [|apply Nat.eq_le_incl, (length_map (fun row => Some (py "islamqa_" ++ row_number row)))].
    rewrite <- (length_map raw_id). apply sublist_length, convert_rows_ids.
  - intros entry Hin. apply convert_rows_elem in Hin as (row & _ & -> & Ht).
    destruct (convert_fatwa_ruling extract row) as (ruling & Hr & Htidy & Hends).
    exists ruling. rewrite Hr in Ht. split; [exact Hr|]. split; [exact Hr|].
    split; [by apply truthy_nonempty|]. by split.
  - intros row Hfull Hsummary. cbn [ConvertIslamqa.convert_rows].
    unfold ConvertIslamqa.convert_fatwa. cbn [raw_ruling default from_option id].
    by rewrite (islamqa_clean_text_blank _ Hfull), (islamqa_clean_text_blank _ Hsummary).
  - intros Hnd. eapply sublist_NoDup; [|apply convert_rows_ids].
    rewrite <- (map_map row_number (fun number => Some (py "islamqa_" ++ number))).
    apply (NoDup_fmap_2_strong (fun number : str => Some (py "islamqa_" ++ number)));
      [|exact Hnd].
    intros x y _ _ Heq. injection Heq as Heq. exact Heq.
Qed.

Lemma converted_fatawa_witness :
  map raw_id (ConvertIslamqa.convert_rows no_citations
                [answered_row (py "101") (py "Ruling on wudu") (py "  Wudu   is required. ");
                 answered_row (py "102") (py "Ruling on travel") (py "   ")])
  = [Some (py "islamqa_101")] /\
  ConvertIslamqa.convert_rows no_citations
    [answered_row (py "102") (py "Ruling on travel") (py "   ")] = [] /\
  NoDup (map raw_id
           (ConvertIslamqa.convert_rows no_citations
              [answered_row (py "101") (py "Ruling on wudu") (py "  Wudu   is required. ");
               answered_row (py "102") (py "Ruling on travel") (py "   ")])).
Proof.
  destruct (converted_fatawa no_citations
              [answered_row (py "101") (py "Ruling on wudu") (py "  Wudu   is required. ");
               answered_row (py "102") (py "Ruling on travel") (py "   ")])
    as (_ & _ & Hblank & Hnodup).
  split; [reflexivity|]. split.
  - apply Hblank; reflexivity.
  - apply Hnodup. apply (bool_decide_unpack _). vm_compute. exact I.
Defined.

Lemma process_fatwa_fields `{Unicode} (extract : str -> list str) fresh fatwa entry :
  process_fatwa extract fresh fatwa = Some entry ->
  e_question entry = Some (clean_text (default [] (raw_question fatwa))) /\
  e_madhab entry = Some (default (py "general") (raw_madhab fatwa)) /\
  exists evidence, e_evidence entry = Some evidence.
Proof.
  unfold process_fatwa. destruct (bool_decide _ || _); [discriminate|].
  intros [= <-]. cbn [e_question e_madhab e_evidence]. eauto.
Qed.

(** X19: a fatwa row that the converter and then [process_fatwa_file] keep
    ends up with the id "islamqa_" followed by its number, the madhab
    "general", and the topics of its cleaned title with "hajj" renamed; its
    embedding text is the question section if the question is not empty,
    the ruling, the evidence section if there is evidence, and the topics
    section, and never has a madhab section. *)
Theorem fatwa_from_row_to_embedding_text `{Unicode} (extract_evidence extract : str -> list str)
    (row : ConvertIslamqa.Row) (fresh : str) (entry : FiqhEntry) :
  process_fatwa extract fresh (ConvertIslamqa.convert_fatwa extract_evidence row) = Some entry ->
  let topics :=
    map processed_name
      (ConvertIslamqa.extract_topics_from_title
         (ConvertIslamqa.clean_text (ConvertIslamqa.cell_text (ConvertIslamqa.row_title row)))) in
  e_id entry = py "islamqa_" ++ row_number row /\
  e_madhab entry = Some (py "general") /\
  e_topics entry = Some topics /\ topics <> [] /\
  exists question ruling evidence,
    e_question entry = Some question /\ e_ruling entry = Some ruling /\
    e_evidence entry = Some evidence /\ (50 <= length ruling)%nat /\
    GenerateEmbeddings.create_embedding_text entry
    = match question with
      | [] => []
      | _ :: _ => py "Question: " ++ question ++ newline ++ newline
      end
      ++ ruling
      ++ match evidence with
         | [] => []
         | _ :: _ => newline ++ newline ++ py "Evidence: " ++ join (py " | ") evidence
         end
      ++ newline ++ newline ++ py "Topics: " ++ join (py ", ") topics.
Proof.
  intros Hentry topics.
  pose proof (process_fatwa_ruling _ _ _ _ Hentry) as [Hruling Hlen].
  pose proof (process_fatwa_topics _ _ _ _ Hentry) as Htopics.
  pose proof (process_fatwa_id _ _ _ _ Hentry) as Hid.
  destruct (process_fatwa_fields _ _ _ _ Hentry) as (Hquestion & Hmadhab & evidence & Hevidence).
  change (default [] (raw_topics (ConvertIslamqa.convert_fatwa extract_evidence row)))
    with (ConvertIslamqa.extract_topics_from_title
            (ConvertIslamqa.clean_text (ConvertIslamqa.cell_text (ConvertIslamqa.row_title row))))
    in Htopics.
  rewrite title_topics_processed in Htopics. fold topics in Htopics.
  change (e_id entry = py "islamqa_" ++ row_number row) in Hid.
  change (e_madhab entry = Some (py "general")) in Hmadhab.
  assert (Hne : topics <> []).
  { subst topics.
    pose proof (extract_topics_from_title_nonempty
                  (ConvertIslamqa.clean_text
                     (ConvertIslamqa.cell_text (ConvertIslamqa.row_title row)))) as Hn.
    by destruct (ConvertIslamqa.extract_topics_from_title _). }
  assert (Ht : e_topics entry = Some topics).
  { rewrite Htopics. by destruct topics. }
  split; [exact Hid|]. split; [exact Hmadhab|]. split; [exact Ht|]. split; [exact Hne|].
  eexists _, _, evidence.
  split; [exact Hquestion|]. split; [exact Hruling|]. split; [exact Hevidence|].
  split; [exact Hlen|].
  unfold GenerateEmbeddings.create_embedding_text.
  rewrite Hquestion, Hruling, Hevidence, Ht, Hmadhab.
  cbn [default from_option id].
  replace (truthy (py "general") && negb (bool_decide (py "general" = py "general")))
    with false by reflexivity.
  destruct topics as [|topic topics']; [done|].
  destruct (clean_text (from_option id [] (raw_question _))) as [|q0 q];
    destruct evidence as [|ev0 ev];
    cbn [truthy join app]; rewrite <- ?(assoc_L (++)); cbn [app];
    rewrite <- ?(assoc_L (++)); reflexivity.
Qed.

Lemma fatwa_from_row_to_embedding_text_witness :
  exists entry,
    process_fatwa no_citations []
      (ConvertIslamqa.convert_fatwa no_citations
         (answered_row (py "101") (py "Ruling on Hajj")
            (py "Hajj is obligatory once in a lifetime for whoever is able to travel.")))
    = Some entry /\
    e_id entry = py "islamqa_101" /\
    e_topics entry = Some [py "pilgrimage"].
Proof.
  eexists. split; [reflexivity|].
  match goal with
  | |- e_id ?e = _ /\ _ =>
      destruct (fatwa_from_row_to_embedding_text no_citations no_citations
                  (answered_row (py "101") (py "Ruling on Hajj")
                     (py "Hajj is obligatory once in a lifetime for whoever is able to travel."))
                  [] e) as (Hid & _ & Ht & _); [reflexivity|]
  end.
  split; [exact Hid|exact Ht].
Defined.

(** ** [determine_authenticity] of scrape_sunnah_com.py *)

Lemma grade_verdict_elem `{Unicode} (grades : list (option str)) (verdict : str) :
  ScrapeSunnahCom.grade_verdict grades = Some verdict ->
  verdict ∈ [py "sahih"; py "hasan"; py "daif"].
Proof.
  induction grades as [|g grades IH]; [discriminate|]. cbn [ScrapeSunnahCom.grade_verdict].
  destruct (contains _ (py "sahih")); [intros [= <-]; by left|].
  destruct (contains _ (py "hasan")); [intros [= <-]; right; by left|].
  destruct (contains _ (py "daif") || contains _ (py "weak"));
    [intros [= <-]; right; right; by left|exact IH].
Qed.

(** X20: [determine_authenticity] always returns one of "sahih", "hasan",
    "daif" and "unknown"; for the collections "bukhari" and "muslim" it
    returns "sahih" whatever the grades; when the first grade names "sahih"
    the result is "sahih" even if that grade also names another word; and a
    hadith of another collection with no grades is "unknown". *)
Theorem authenticity_is_a_grade `{Unicode} (collection_key : str)
    (grades : option (list (option str))) :
  ScrapeSunnahCom.determine_authenticity collection_key grades ∈ authenticity_grades /\
  (collection_key = py "bukhari" \/ collection_key = py "muslim" ->
   ScrapeSunnahCom.determine_authenticity collection_key grades = py "sahih") /\
  (forall grade rest,
     contains (lower (default [] grade)) (py "sahih") = true ->
     ScrapeSunnahCom.determine_authenticity collection_key (Some (grade :: rest)) = py "sahih") /\
  (collection_key <> py "bukhari" -> collection_key <> py "muslim" ->
   default [] grades = [] ->
   ScrapeSunnahCom.determine_authenticity collection_key grades = py "unknown").
Proof.
  unfold ScrapeSunnahCom.determine_authenticity, authenticity_grades.
  split; [|split; [|split]].
  - destruct (bool_decide _); [by left|].
    destruct (ScrapeSunnahCom.grade_verdict (default [] grades)) as [verdict|] eqn:Hv.
    + apply grade_verdict_elem in Hv. cbn [default from_option id].
      repeat (apply elem_of_cons in Hv as [->|Hv]); [by left|right; by left|do 2 right; by left|].
      inversion Hv.
    + do 3 right. by left.
  - intros Hkey. rewrite bool_decide_eq_true_2; [done|].
    destruct Hkey as [-> | ->]; [by left|right; by left].
  - intros grade rest Hsahih. destruct (bool_decide _); [done|].
    cbn [default from_option id ScrapeSunnahCom.grade_verdict].
    change (from_option id [] grade) with (default [] grade). by rewrite Hsahih.
  - intros Hb Hm Hnone. rewrite bool_decide_eq_false_2.
    + by rewrite Hnone.
    + intros Hin. apply elem_of_cons in Hin as [->|Hin]; [done|].
      apply list_elem_of_singleton in Hin. done.
Qed.

Lemma authenticity_is_a_grade_witness :
  ScrapeSunnahCom.determine_authenticity (py "tirmidhi")
    (Some [Some (py "Hasan Sahih (Darussalam)")]) = py "sahih" /\
  ScrapeSunnahCom.determine_authenticity (py "muslim") (Some [Some (py "Daif")]) = py "sahih" /\
  ScrapeSunnahCom.determine_authenticity (py "nasai") None = py "unknown".
Proof.
  destruct (authenticity_is_a_grade (py "tirmidhi") None) as (_ & _ & Hfirst & _).
  destruct (authenticity_is_a_grade (py "muslim") (Some [Some (py "Daif")])) as (_ & Hsahih & _).
  destruct (authenticity_is_a_grade (py "nasai") None) as (_ & _ & _ & Hunknown).
  split; [apply Hfirst; reflexivity|]. split; [apply Hsahih; by right|].
  apply Hunknown; [vm_compute; discriminate|vm_compute; discriminate|reflexivity].
Defined.

(** ** The metadata of an entry *)

(** X21: the metadata written for an entry has distinct keys, of which
    "type", "source_title", "source_ref" and "topics" are always there; the
    key "question" is there exactly when the question is not empty, and
    holds its first 200 characters; the keys "madhab" and "authenticity"
    are there exactly when these fields are not empty. *)
Theorem metadata_is_a_flat_dictionary (entry : FiqhEntry) :
  let metadata := GenerateEmbeddings.metadata_of entry in
  NoDup (map fst metadata) /\
  dict_get metadata (py "type") = Some (default (py "unknown") (e_type entry)) /\
  is_Some (dict_get metadata (py "source_title")) /\
  is_Some (dict_get metadata (py "source_ref")) /\
  dict_get metadata (py "topics") = Some (join (py ",") (default [] (e_topics entry))) /\
  dict_get metadata (py "question")
    = (if truthy (default [] (e_question entry))
       then Some (take 200 (default [] (e_question entry))) else None) /\
  dict_get metadata (py "madhab")
    = (if truthy (default [] (e_madhab entry)) then e_madhab entry else None) /\
  dict_get metadata (py "authenticity")
    = (if truthy (default [] (e_authenticity entry)) then e_authenticity entry else None) /\
  (forall question, dict_get metadata (py "question") = Some question ->
                    (length question <= 200)%nat).
Proof.
  intros metadata. subst metadata. unfold GenerateEmbeddings.metadata_of.
  assert (Hlen : forall question,
            (if truthy (default [] (e_question entry))
             then Some (take 200 (default [] (e_question entry))) else None) = Some question ->
            (length question <= 200)%nat).
  { intros question. destruct (truthy _); [|discriminate].
    intros [= <-]. rewrite length_take. lia. }
  destruct (e_madhab entry) as [[|m0 m]|]; destruct (e_authenticity entry) as [[|a0 a]|];
    destruct (e_question entry) as [[|q0 q]|];
    cbn [default from_option id truthy app map fst] in *;
    (split; [apply (bool_decide_unpack _); vm_compute; exact I|]);
    repeat split; try (by eexists); exact Hlen.
Qed.

Lemma metadata_is_a_flat_dictionary_witness :
  dict_get (GenerateEmbeddings.metadata_of long_question_entry) (py "question")
  = Some (repeat 97 200) /\
  dict_get (GenerateEmbeddings.metadata_of long_question_entry) (py "topics")
  = Some (py "prayer,wudu") /\
  dict_get (GenerateEmbeddings.metadata_of long_question_entry) (py "authenticity") = None /\
  (length (repeat 97 200) <= 200)%nat.
Proof.
  destruct (metadata_is_a_flat_dictionary long_question_entry)
    as (_ & _ & _ & _ & Ht & _ & _ & Ha & Hlen).
  split; [reflexivity|]. split; [exact Ht|]. split; [exact Ha|].
  exact (Hlen (repeat 97 200) eq_refl).
Defined.

(** ** Sample evaluations *)

Example py_ascii : py "a b" = [97; 32; 98].
Proof. reflexivity. Qed.

Example str_of_Z_examples :
  str_of_Z 0 = py "0" /\ str_of_Z 42 = py "42" /\ str_of_Z (-5) = py "-5".
Proof. repeat split. Qed.

Example py_arabic : py "صلاة" = [1589; 1604; 1575; 1577].
Proof. reflexivity. Qed.

Example quote_old_length : length quote_old = 15%nat.
Proof. reflexivity. Qed.

Example clean_nbsp : clean_text (py "a&nbsp; b") = py "a  b".
Proof. reflexivity. Qed.

Example clean_nbsp2 : clean_text (py "a  b") = py "a b".
Proof. reflexivity. Qed.

Example clean_tag : clean_text (py "a <b>c</b>  &lt;i&gt;d") = py "a c d".
Proof. reflexivity. Qed.

(** The quote step as the script has it: U+201C and U+201D pass through,
    and the fifteen characters of [quote_old] become an apostrophe. *)
Example clean_curly_quotes : clean_text [8220; 97; 8221] = [8220; 97; 8221].
Proof. reflexivity. Qed.

Example clean_quote_old : clean_text (py "x" ++ quote_old ++ py "y") = py "x'y".
Proof. reflexivity. Qed.

Example clean_nested_entity : clean_text (py "&amp;nbsp;x") = py "&nbsp;x".
Proof. reflexivity. Qed.

Example sub_tags_unclosed : sub_tags (py "a <> b < c") = py "a <> b < c".
Proof. reflexivity. Qed.

Example embedding_text_fatwa :
  GenerateEmbeddings.create_embedding_text
    {| e_id := py "islamqa_1"; e_type := Some (py "fatwa");
       e_question := Some (py "Is it allowed?");
       e_ruling := Some (py "Yes.");
       e_arabicText := None;
       e_evidence := Some [py "[2:255]"; py "Bukhari 1"];
       e_source := None; e_authenticity := None;
       e_topics := Some [py "prayer"; py "wudu"];
       e_madhab := Some (py "hanafi"); e_date := None |}
  = py "Question: Is it allowed?" ++ newline ++ newline
    ++ py "Yes." ++ newline ++ newline
    ++ py "Evidence: [2:255] | Bukhari 1" ++ newline ++ newline
    ++ py "Topics: prayer, wudu" ++ newline ++ newline
    ++ py "Madhab: hanafi".
Proof. reflexivity. Qed.

Example embedding_text_hadith :
  GenerateEmbeddings.create_embedding_text (sample_entry 7)
  = py "Actions are judged by intentions." ++ newline ++ newline ++ py "Topics: faith".
Proof. reflexivity. Qed.

Example range_250 : GenerateEmbeddings.range 250 GenerateEmbeddings.BATCH_SIZE = [0; 100; 200]%nat.
Proof. reflexivity. Qed.

Example title_arabic :
  ConvertIslamqa.extract_topics_from_title (py "حكم صلاة الجماعة") = [py "prayer"].
Proof. reflexivity. Qed.
